(** * mermaid-tools: the Gantt-to-draw.io converter [convert.py]

    A shallow embedding of [parse_mermaid] (line classifier, raw record
    collector, dependency resolver) and [build_drawio_xml] (layout), with
    the properties of the specification stated and proved over it.

    Conventions of the embedding.
    - A Python [str] is a [string] whose characters are code points below
      256; the character classes of [str.strip], [str.split], [str.lower],
      [str.splitlines], [int] and of the [re] module are the Unicode ones
      restricted to that range.
    - A Python [int] is a [Z]; [int(s)] is modelled without the
      interpreter's optional limit on the number of digits.
    - A Python [float] is an IEEE 754 binary64 number: the layout divides
      and adds in floats where it centres a section label, and every such
      operation is the exact result rounded to 53 bits, to the nearest,
      ties to even; a result of magnitude 2^1024 or more is an infinity
      or, where Python checks, an [OverflowError].
    - A naive [datetime] is the number of microseconds since the midnight
      that starts proleptic ordinal day 0, so a date at midnight is
      [ordinal * DAY_US]; the supported range is 0001-01-01 to 9999-12-31.
    - An exception is a value of [exn]; a computation that may raise has
      type [result A].
    - [datetime.now()] reads a clock [now : nat -> datetime]; the number of
      reads made so far is threaded through the resolver. *)

From Stdlib Require Import ZArith String Ascii List Lia Bool.
From Stdlib Require Import DecimalString DecimalZ DecimalPos.
From Stdlib Require Floats.SpecFloat.
From stdpp Require Import base option list gmap strings.

Local Open Scope string_scope.
Local Open Scope list_scope.
Local Open Scope Z_scope.

(** ** Exceptions and fallible computations *)

Inductive exn : Type :=
| ValueError_no_tasks                 (* raise ValueError("no tasks provided") *)
| ValueError_int (lit : string)       (* int(lit): invalid literal *)
| ValueError_isoformat (lit : string) (* datetime.fromisoformat(lit) *)
| OverflowError.                      (* date arithmetic out of range *)

Inductive result (A : Type) : Type :=
| Ok (a : A)
| Raise (e : exn).
Arguments Ok {A} a.
Arguments Raise {A} e.

Definition bind {A B : Type} (m : result A) (k : A -> result B) : result B :=
  match m with
  | Ok a => k a
  | Raise e => Raise e
  end.

Notation "x <- m ;; k" := (bind m (fun x => k))
  (at level 100, m at next level, right associativity).

Definition is_ok {A : Type} (m : result A) : bool :=
  match m with Ok _ => true | Raise _ => false end.

(** ** Python string operations *)

Module Py.

Definition code (c : ascii) : nat := nat_of_ascii c.

Definition between (lo hi : nat) (c : ascii) : bool :=
  (Nat.leb lo (code c) && Nat.leb (code c) hi)%bool.

(** [str.isspace] for one character; also the class [\s] of [re]. *)
Definition isspace (c : ascii) : bool :=
  (between 9 13 c || between 28 32 c
   || Nat.eqb (code c) 133 || Nat.eqb (code c) 160)%bool.

(** A decimal digit; also the class [\d] of [re]. *)
Definition isdigit (c : ascii) : bool := between 48 57 c.

Definition lower_char (c : ascii) : ascii :=
  if (between 65 90 c
      || (between 192 222 c && negb (Nat.eqb (code c) 215)))%bool
  then ascii_of_nat (code c + 32)
  else c.

Fixpoint lower (s : string) : string :=
  match s with
  | EmptyString => EmptyString
  | String c s' => String (lower_char c) (lower s')
  end.

Definition is_empty (s : string) : bool :=
  match s with EmptyString => true | _ => false end.

Fixpoint lstrip_by (p : ascii -> bool) (s : string) : string :=
  match s with
  | EmptyString => EmptyString
  | String c s' => if p c then lstrip_by p s' else s
  end.

Fixpoint rstrip_by (p : ascii -> bool) (s : string) : string :=
  match s with
  | EmptyString => EmptyString
  | String c s' =>
      let r := rstrip_by p s' in
      if (is_empty r && p c)%bool then EmptyString else String c r
  end.

Definition strip_by (p : ascii -> bool) (s : string) : string :=
  rstrip_by p (lstrip_by p s).

Definition rstrip : string -> string := rstrip_by isspace.
Definition strip : string -> string := strip_by isspace.

(** [s.strip(",")] *)
Definition strip_commas : string -> string :=
  strip_by (fun c => Ascii.eqb c ",").

Definition startswith (s pre : string) : bool := String.prefix pre s.

(** [s.endswith(c)] for a one-character suffix. *)
Fixpoint endswith_char (s : string) (c : ascii) : bool :=
  match s with
  | EmptyString => false
  | String a EmptyString => Ascii.eqb a c
  | String _ s' => endswith_char s' c
  end.

(** [s[:-1]] *)
Fixpoint drop_last (s : string) : string :=
  match s with
  | EmptyString => EmptyString
  | String _ EmptyString => EmptyString
  | String a s' => String a (drop_last s')
  end.

(** [s[n:]] *)
Fixpoint drop (n : nat) (s : string) : string :=
  match n, s with
  | O, _ => s
  | S _, EmptyString => EmptyString
  | S n', String _ s' => drop n' s'
  end.

(** [s.replace(a, b)] for one-character [a] and [b]. *)
Fixpoint replace (a b : ascii) (s : string) : string :=
  match s with
  | EmptyString => EmptyString
  | String c s' => String (if Ascii.eqb c a then b else c) (replace a b s')
  end.

Fixpoint rev_onto (s acc : string) : string :=
  match s with
  | EmptyString => acc
  | String c s' => rev_onto s' (String c acc)
  end.

Definition rev (s : string) : string := rev_onto s EmptyString.

(** [s.split()]: the maximal runs of non-whitespace characters.
    [cur] is the run being read, reversed. *)
Fixpoint split_from (cur : string) (s : string) : list string :=
  match s with
  | EmptyString => if is_empty cur then [] else [rev cur]
  | String c s' =>
      if isspace c
      then (if is_empty cur then split_from EmptyString s'
            else rev cur :: split_from EmptyString s')
      else split_from (String c cur) s'
  end.

Definition split (s : string) : list string := split_from EmptyString s.

(** The line boundaries of [str.splitlines] below code point 256. *)
Definition is_linebreak (c : ascii) : bool :=
  (between 10 13 c || between 28 30 c || Nat.eqb (code c) 133)%bool.

(** [after_cr] is set just after a carriage return, whose following
    line feed belongs to the same boundary. *)
Fixpoint splitlines_from (cur : string) (after_cr : bool) (s : string)
  : list string :=
  match s with
  | EmptyString => if is_empty cur then [] else [rev cur]
  | String c s' =>
      if (after_cr && Nat.eqb (code c) 10)%bool
      then splitlines_from cur false s'
      else if is_linebreak c
      then rev cur :: splitlines_from EmptyString (Nat.eqb (code c) 13) s'
      else splitlines_from (String c cur) false s'
  end.

Definition splitlines (s : string) : list string :=
  splitlines_from EmptyString false s.

(** *** [int(s)]

    Surrounding whitespace is skipped (the file separators 28..31 are
    not whitespace here), then an optional sign, then decimal digits in
    which single underscores may separate digits. *)

Definition int_space (c : ascii) : bool :=
  (between 9 13 c || Nat.eqb (code c) 32
   || Nat.eqb (code c) 133 || Nat.eqb (code c) 160)%bool.

Definition digit_val (c : ascii) : Z := Z.of_nat (code c) - 48.

(** Digits after the first one; [prev_us] says the previous character
    was an underscore. *)
Fixpoint int_digits (acc : Z) (prev_us : bool) (s : string) : option Z :=
  match s with
  | EmptyString => if prev_us then None else Some acc
  | String c s' =>
      if isdigit c then int_digits (10 * acc + digit_val c) false s'
      else if (Ascii.eqb c "_" && negb prev_us)%bool
      then int_digits acc true s'
      else None
  end.

Definition int_unsigned (s : string) : option Z :=
  match s with
  | String c s' => if isdigit c then int_digits (digit_val c) false s' else None
  | EmptyString => None
  end.

Definition int_opt (s : string) : option Z :=
  match strip_by int_space s with
  | String "+" r => int_unsigned r
  | String "-" r => Z.opp <$> int_unsigned r
  | t => int_unsigned t
  end.

Definition int (s : string) : result Z :=
  match int_opt s with
  | Some z => Ok z
  | None => Raise (ValueError_int s)
  end.

(** [str(z)] *)
Definition str (z : Z) : string := NilZero.string_of_int (Z.to_int z).

End Py.

(** ** Floats

    The finite values that arise are integers and halves of integers and
    their rounded sums, so a finite float is kept as [mant * 2^expo] with
    [expo] at least -1: no result is subnormal.  An infinity is [None]. *)

Module Float.

Record t : Type := mk { mant : Z; expo : Z }.

(** Bits of the significand, and the exponent of the infinities. *)
Definition PREC : Z := 53.
Definition EMAX : Z := 1024.

(** [abs(m).bit_length()] *)
Definition bit_length (m : Z) : Z :=
  if m =? 0 then 0 else Z.log2 (Z.abs m) + 1.

(** The integer nearest to [n / 2^k]; of two equally near, the even one. *)
Definition round_half_even (n k : Z) : Z :=
  let q := n / 2 ^ k in
  let r := n mod 2 ^ k in
  if 2 * r <? 2 ^ k then q
  else if 2 ^ k <? 2 * r then q + 1
  else if Z.even q then q else q + 1.

(** The float nearest to [m * 2^e]: the significand is cut to [PREC]
    bits, and a result of magnitude [2^EMAX] or more is an infinity. *)
Definition round (m e : Z) : option t :=
  let k := bit_length m - PREC in
  let r := if 0 <? k then mk (round_half_even m k) (e + k) else mk m e in
  if bit_length (mant r) + expo r <=? EMAX then Some r else None.

(** The conversion of an [int] operand of a float operation; it raises
    where the nearest float would be an infinity. *)
Definition of_int (n : Z) : result t :=
  match round n 0 with
  | Some x => Ok x
  | None => Raise OverflowError
  end.

(** [n / 2] for an [int] n: the true quotient, correctly rounded. *)
Definition int_truediv_2 (n : Z) : result t :=
  match round n (-1) with
  | Some x => Ok x
  | None => Raise OverflowError
  end.

(** [a + b] *)
Definition add (a b : t) : option t :=
  let e := Z.min (expo a) (expo b) in
  round (mant a * 2 ^ (expo a - e) + mant b * 2 ^ (expo b - e)) e.

(** [int(x)]: the value cut towards zero; an infinity has none. *)
Definition to_int (x : option t) : result Z :=
  match x with
  | Some x =>
      Ok (if 0 <=? expo x then mant x * 2 ^ expo x
          else Z.quot (mant x) (2 ^ (- expo x)))
  | None => Raise OverflowError
  end.

End Float.

(** ** Regular expressions

    The two patterns of the module are sequences of quantified character
    classes, some of them capture groups.  [Many n] is the greedy
    quantifier "at least n" ([*] is [Many 0], [+] is [Many 1]) and
    [Exactly n] is [{n}].  Matching is by backtracking as in [re]: a greedy
    item first takes the longest run and gives characters back one at a
    time until the rest of the pattern matches. *)

Module Re.

Inductive quant : Type :=
| Exactly (n : nat)
| Many (n : nat).

Record item : Type := Item {
  cls : ascii -> bool;
  qt : quant;
  grp : option string
}.

(** The groups captured so far, most recent first. *)
Definition captures : Type := list (string * string).

Definition capture (g : option string) (text : string) (caps : captures)
  : captures :=
  match g with
  | Some name => (name, Py.rev text) :: caps
  | None => caps
  end.

(** [taken] is the text consumed by the item so far, reversed. *)
Fixpoint exactly (c : ascii -> bool) (n : nat) (taken : string)
    (k : string -> string -> option captures) (s : string)
  : option captures :=
  match n with
  | O => k taken s
  | S n' =>
      match s with
      | String a s' => if c a then exactly c n' (String a taken) k s' else None
      | EmptyString => None
      end
  end.

Fixpoint greedy (c : ascii -> bool) (min : nat) (count : nat) (taken : string)
    (k : string -> string -> option captures) (s : string)
  : option captures :=
  let stop := if Nat.leb min count then k taken s else None in
  match s with
  | String a s' =>
      if c a
      then match greedy c min (S count) (String a taken) k s' with
           | Some r => Some r
           | None => stop
           end
      else stop
  | EmptyString => stop
  end.

(** [match_items p caps s]: the pattern [p] matched at the start of [s]. *)
Fixpoint match_items (p : list item) (caps : captures) (s : string)
  : option captures :=
  match p with
  | [] => Some caps
  | it :: p' =>
      let k := fun taken rest => match_items p' (capture (grp it) taken caps) rest in
      match qt it with
      | Exactly n => exactly (cls it) n EmptyString k s
      | Many n => greedy (cls it) n 0 EmptyString k s
      end
  end.

(** [pattern.match(s)] *)
Definition re_match (p : list item) (s : string) : option captures :=
  match_items p [] s.

(** [pattern.search(s)]: the match at the leftmost position that has one. *)
Fixpoint re_search (p : list item) (s : string) : option captures :=
  match re_match p s with
  | Some m => Some m
  | None =>
      match s with
      | EmptyString => None
      | String _ s' => re_search p s'
      end
  end.

(** [m.group(name)] *)
Fixpoint group (name : string) (m : captures) : string :=
  match m with
  | [] => EmptyString
  | (g, text) :: m' => if String.eqb g name then text else group name m'
  end.

Definition is_char (a : ascii) (c : ascii) : bool := Ascii.eqb c a.
Definition not_in (excl : list ascii) (c : ascii) : bool :=
  negb (existsb (Ascii.eqb c) excl).

Definition newline : ascii := ascii_of_nat 10.

End Re.

Import Re.

(** [DATE_RE = (\d{4}[-/]\d{2}[-/]\d{2})]; the whole pattern is group 1,
    recorded here as the concatenation of its five parts. *)
Definition date_sep (c : ascii) : bool := (Ascii.eqb c "-" || Ascii.eqb c "/")%bool.

Definition DATE_RE : list item :=
  [ Item Py.isdigit (Exactly 4) (Some "y");
    Item date_sep (Exactly 1) (Some "s1");
    Item Py.isdigit (Exactly 2) (Some "m");
    Item date_sep (Exactly 1) (Some "s2");
    Item Py.isdigit (Exactly 2) (Some "d") ].

(** [DATE_RE.search(s)] followed by [m.group(1)]. *)
Definition DATE_RE_search (s : string) : option string :=
  match re_search DATE_RE s with
  | Some m =>
      Some (group "y" m +:+ group "s1" m +:+ group "m" m +:+ group "s2" m
            +:+ group "d" m)
  | None => None
  end.

(** [TASK_RE]: name, colon, id, comma, start, comma, len, each group a
    greedy class, with optional whitespace between them. *)
Definition TASK_RE : list item :=
  [ Item Py.isspace (Many 0) None;
    Item (not_in [":"%char; newline]) (Many 1) (Some "name");
    Item Py.isspace (Many 0) None;
    Item (is_char ":") (Exactly 1) None;
    Item Py.isspace (Many 0) None;
    Item (fun c => (not_in [","%char] c && negb (Py.isspace c))%bool) (Many 1) (Some "id");
    Item Py.isspace (Many 0) None;
    Item (is_char ",") (Exactly 1) None;
    Item Py.isspace (Many 0) None;
    Item (not_in [","%char]) (Many 1) (Some "start");
    Item Py.isspace (Many 0) None;
    Item (is_char ",") (Exactly 1) None;
    Item Py.isspace (Many 0) None;
    Item (not_in [newline]) (Many 1) (Some "len") ].

(** ** Dates and times *)

Module DT.

(** Microseconds in a day. *)
Definition DAY_US : Z := 86400000000.
(** [date.max.toordinal()], the ordinal of 9999-12-31. *)
Definition MAXORDINAL : Z := 3652059.
(** The largest magnitude of [timedelta(days=...)]. *)
Definition MAX_DELTA_DAYS : Z := 999999999.

(** A representable [datetime]: 0001-01-01T00:00 up to the last
    microsecond of 9999-12-31. *)
Definition in_range (t : Z) : bool :=
  ((DAY_US <=? t) && (t <? (MAXORDINAL + 1) * DAY_US))%bool.

Definition is_leap (y : Z) : bool :=
  ((y mod 4 =? 0) && (negb (y mod 100 =? 0) || (y mod 400 =? 0)))%bool.

Definition days_before_year (y : Z) : Z :=
  let p := y - 1 in p * 365 + p / 4 - p / 100 + p / 400.

Definition days_in_month (y m : Z) : Z :=
  if m =? 2 then (if is_leap y then 29 else 28)
  else if ((m =? 4) || (m =? 6) || (m =? 9) || (m =? 11))%bool then 30
  else 31.

Fixpoint days_before_month_upto (y : Z) (k : nat) : Z :=
  match k with
  | O => 0
  | S k' => days_before_month_upto y k' + days_in_month y (Z.of_nat k)
  end.

(** Days of the year [y] that precede the first day of month [m]. *)
Definition days_before_month (y m : Z) : Z :=
  days_before_month_upto y (Z.to_nat (m - 1)).

Definition ymd2ord (y m d : Z) : Z :=
  days_before_year y + days_before_month y m + d.

(** The number written by a string of decimal digits. *)
Fixpoint digits_val (acc : Z) (s : string) : Z :=
  match s with
  | EmptyString => acc
  | String c s' => digits_val (10 * acc + Py.digit_val c) s'
  end.

Definition ISO_DATE : list item :=
  [ Item Py.isdigit (Exactly 4) (Some "y");
    Item (is_char "-") (Exactly 1) None;
    Item Py.isdigit (Exactly 2) (Some "m");
    Item (is_char "-") (Exactly 1) None;
    Item Py.isdigit (Exactly 2) (Some "d") ].

(** [datetime.fromisoformat(s)] on the strings the converter passes to
    it, ten characters [dddd-dd-dd]: midnight of that day, or a
    [ValueError] when year, month or day is out of range.  Any other
    string is reported as invalid. *)
Definition fromisoformat (s : string) : result Z :=
  match (if Nat.eqb (String.length s) 10 then re_match ISO_DATE s else None) with
  | Some m =>
      let y := digits_val 0 (group "y" m) in
      let mo := digits_val 0 (group "m" m) in
      let d := digits_val 0 (group "d" m) in
      if ((1 <=? y) && (1 <=? mo) && (mo <=? 12)
          && (1 <=? d) && (d <=? days_in_month y mo))%bool
      then Ok (ymd2ord y mo d * DAY_US)
      else Raise (ValueError_isoformat s)
  | None => Raise (ValueError_isoformat s)
  end.

(** [t + timedelta(days=n)] *)
Definition add_days (t n : Z) : result Z :=
  if (Z.abs n <=? MAX_DELTA_DAYS)%Z
  then (let r := t + n * DAY_US in
        if in_range r then Ok r else Raise OverflowError)
  else Raise OverflowError.

(** [(a - b).days]: the difference in whole days, rounded down. *)
Definition days_between (a b : Z) : Z := (a - b) / DAY_US.

Definition toordinal (t : Z) : Z := t / DAY_US.

(** Year, month and day of a proleptic ordinal. *)
Definition ord2ymd (ordinal : Z) : Z * Z * Z :=
  let n := ordinal - 1 in
  let n400 := n / 146097 in
  let n := n mod 146097 in
  let n100 := n / 36524 in
  let n := n mod 36524 in
  let n4 := n / 1461 in
  let n := n mod 1461 in
  let n1 := n / 365 in
  let n := n mod 365 in
  let year := n400 * 400 + 1 + n100 * 100 + n4 * 4 + n1 in
  if ((n1 =? 4) || (n100 =? 4))%bool then (year - 1, 12, 31)
  else
    let leapyear := ((n1 =? 3) && (negb (n4 =? 24) || (n100 =? 3)))%bool in
    let month := (n + 50) / 32 in
    let preceding :=
      days_before_month 1 month + (if ((2 <? month) && leapyear)%bool then 1 else 0) in
    if n <? preceding
    then
      let month := month - 1 in
      let preceding :=
        preceding - (days_in_month 1 month
                     + (if ((month =? 2) && leapyear)%bool then 1 else 0)) in
      (year, month, n - preceding + 1)
    else (year, month, n - preceding + 1).

Definition two_digits (z : Z) : string :=
  if z <? 10 then "0" +:+ Py.str z else Py.str z.

(** [t.strftime("%m/%d")] *)
Definition strftime_md (t : Z) : string :=
  let '(_, m, d) := ord2ymd (toordinal t) in
  two_digits m +:+ "/" +:+ two_digits d.

End DT.

(** ** Tasks and raw task records *)

(** The dictionary appended to [raw_tasks] for one task line. *)
Record RawTask : Type := mkRaw {
  raw_name : string;
  raw_id : string;
  start_raw : string;
  len_raw : string;
  raw_section : option string
}.

(** class [Task]; [task_start] is a [datetime]. *)
Record Task : Type := mkTask {
  task_name : string;
  task_id : string;
  task_start : Z;
  length_days : Z;
  task_section : option string
}.

(** [Task.__init__] *)
Definition Task_init (name id_ : string) (start length : Z)
    (section : option string) : Task :=
  {| task_name := Py.strip name;
     task_id := Py.strip id_;
     task_start := start;
     length_days := length;
     task_section := section |}.

(** [Task.end] *)
Definition Task_end (t : Task) : result Z :=
  DT.add_days (task_start t) (length_days t).

(** ** Line classifier and raw record collector *)

Record scan_state : Type := mkScan {
  in_gantt : bool;
  current_section : option string;
  raw_tasks : list RawTask
}.

(** The body of the loop over [text.splitlines()]. *)
Definition scan_line (st : scan_state) (line0 : string) : scan_state :=
  let line := Py.rstrip line0 in
  if negb (in_gantt st) then
    if Py.startswith (Py.lower (Py.strip line)) "gantt"
    then mkScan true (current_section st) (raw_tasks st)
    else st
  else if (Py.is_empty (Py.strip line) || Py.startswith (Py.strip line) "%%")%bool
  then st
  else
    match re_match TASK_RE line with
    | None =>
        let s := Py.strip line in
        if Py.startswith (Py.lower s) "section"
        then mkScan (in_gantt st) (Some (Py.strip (Py.drop 7 s))) (raw_tasks st)
        else st
    | Some m =>
        let r := {| raw_name := Py.strip (group "name" m);
                    raw_id := Py.strip (group "id" m);
                    start_raw := Py.strip (group "start" m);
                    len_raw := Py.strip (group "len" m);
                    raw_section := current_section st |} in
        mkScan (in_gantt st) (current_section st) (raw_tasks st ++ [r])
    end.

Definition scan_lines (st : scan_state) (lines : list string) : scan_state :=
  fold_left scan_line lines st.

(** The first half of [parse_mermaid]: the raw records of a text. *)
Definition collect_raw (text : string) : list RawTask :=
  raw_tasks (scan_lines (mkScan false None []) (Py.splitlines text)).

(** ** Dependency resolver *)

(** The nested function [parse_length]. *)
Definition parse_length (len_raw : string) (start_dt : Z) : result Z :=
  let lr := Py.strip len_raw in
  if Py.endswith_char lr "d" then Py.int (Py.drop_last lr)
  else if Py.endswith_char lr "w" then
    n <- Py.int (Py.drop_last lr) ;; Ok (n * 7)
  else
    match DATE_RE_search lr with
    | Some lit =>
        end_dt <- DT.fromisoformat (Py.replace "/" "-" lit) ;;
        Ok (DT.days_between end_dt start_dt)
    | None =>
        match Py.int lr with
        | Ok n => Ok n
        | Raise _ => Ok 1
        end
    end.

(** The resolver's variables that outlive a pass: the table
    [id_to_task], the list [tasks], and the number of clock reads. *)
Record rstate : Type := mkState {
  id_to_task : gmap string Task;
  tasks : list Task;
  clock : nat
}.

(** What the start field of a record gives in a pass. *)
Inductive start_outcome : Type :=
| StartAt (start_dt : Z) (clock' : nat)
| NotYet.

(** Minimum of a non-empty sequence of dates, or [default]. *)
Definition min_start (ts : list Task) (default : Z) : Z :=
  match ts with
  | [] => default
  | t :: ts' => fold_left Z.min (map task_start ts') (task_start t)
  end.

Section Resolver.

(** [now k]: what the [k]-th call of [datetime.now()] returns. *)
Variable now : nat -> Z.

Definition resolve_start (st : rstate) (s : string) : result start_outcome :=
  match DATE_RE_search s with
  | Some lit =>
      start_dt <- DT.fromisoformat (Py.replace "/" "-" lit) ;;
      Ok (StartAt start_dt (clock st))
  | None =>
      if Py.startswith (Py.lower s) "after" then
        match Py.split s with
        | _ :: p1 :: _ =>
            let ref_id := Py.strip_commas (Py.strip p1) in
            match id_to_task st !! ref_id with
            | None => Ok NotYet
            | Some ref_task =>
                start_dt <- Task_end ref_task ;;
                Ok (StartAt start_dt (clock st))
            end
        | _ => Ok NotYet
        end
      else Ok (StartAt (now (clock st)) (S (clock st)))
  end.

(** One iteration of [for r in unresolved]: the state, the list
    [remaining] and the flag [progressed] before and after. *)
Definition pass_step (acc : rstate * list RawTask * bool) (r : RawTask)
  : result (rstate * list RawTask * bool) :=
  let '(st, remaining, progressed) := acc in
  o <- resolve_start st (start_raw r) ;;
  match o with
  | NotYet => Ok (st, remaining ++ [r], progressed)
  | StartAt start_dt clk =>
      n <- parse_length (len_raw r) start_dt ;;
      let task := Task_init (raw_name r) (raw_id r) start_dt (Z.max 1 n)
                    (raw_section r) in
      Ok (mkState (<[task_id task := task]> (id_to_task st))
                  (tasks st ++ [task]) clk,
          remaining, true)
  end.

Fixpoint pass_loop (acc : rstate * list RawTask * bool)
    (unresolved : list RawTask) : result (rstate * list RawTask * bool) :=
  match unresolved with
  | [] => Ok acc
  | r :: rs => acc' <- pass_step acc r ;; pass_loop acc' rs
  end.

(** One pass over [unresolved]. *)
Definition run_pass (st : rstate) (unresolved : list RawTask)
  : result (rstate * list RawTask * bool) :=
  pass_loop (st, [], false) unresolved.

(** [for _ in range(fuel)]: the passes, with the [break] on a pass
    without progress.  The third component counts the passes run. *)
Fixpoint passes (fuel : nat) (st : rstate) (unresolved : list RawTask)
  : result (rstate * list RawTask * nat) :=
  match fuel with
  | O => Ok (st, unresolved, O)
  | S fuel' =>
      p <- run_pass st unresolved ;;
      let '(st', remaining, progressed) := p in
      if progressed
      then q <- passes fuel' st' remaining ;;
           let '(st'', u, n) := q in Ok (st'', u, S n)
      else Ok (st', unresolved, 1%nat)
  end.

Definition max_passes : nat := 10.

(** The loop over the records left when the passes end. *)
Fixpoint force_loop (fallback : Z) (ts : list Task) (unresolved : list RawTask)
  : result (list Task) :=
  match unresolved with
  | [] => Ok ts
  | r :: rs =>
      n <- parse_length (len_raw r) fallback ;;
      force_loop fallback
        (ts ++ [Task_init (raw_name r) (raw_id r) fallback (Z.max 1 n)
                  (raw_section r)]) rs
  end.

(** [if unresolved: ...]: forced resolution; the table is not touched. *)
Definition force_resolve (st : rstate) (unresolved : list RawTask)
  : result rstate :=
  match unresolved with
  | [] => Ok st
  | _ :: _ =>
      let fallback := min_start (tasks st) (now (clock st)) in
      ts <- force_loop fallback (tasks st) unresolved ;;
      Ok (mkState (id_to_task st) ts (S (clock st)))
  end.

(** The resolution phase of [parse_mermaid], started after [clk] clock
    reads: the final state. *)
Definition resolve_state (clk : nat) (records : list RawTask) : result rstate :=
  p <- passes max_passes (mkState ∅ [] clk) records ;;
  let '(st, unresolved, _) := p in
  force_resolve st unresolved.

Definition resolve (clk : nat) (records : list RawTask) : result (list Task) :=
  st <- resolve_state clk records ;; Ok (tasks st).

Definition parse_mermaid (clk : nat) (text : string) : result (list Task) :=
  resolve clk (collect_raw text).

End Resolver.

(** The concrete scenario of the specification. *)
Definition spec_scenario : string :=
  "gantt" +:+ String Re.newline "section S1" +:+ String Re.newline
  "Task A :a1, 2024-01-01, 5d" +:+ String Re.newline
  "Task B :a2, after a1, 3d" +:+ String Re.newline EmptyString.

(** ** Layout: [build_drawio_xml] *)

(** Configuration constants of the module. *)
Definition DAY_WIDTH : Z := 20.
Definition TASK_HEIGHT : Z := 20.
Definition MARGIN : Z := 40.
Definition ROW_GAP : Z := 0.
Definition FILL_COLOR : string := "#CDEBFF".
Definition TICK_INTERVAL : Z := 7.
Definition LABEL_MIN_GAP : Z := 48.
Definition SECTION_COL_WIDTH : Z := 120.
Definition SECTION_BG_COLORS : list string := ["#FBF7F3"; "#F3F7FB"].

(** The [mxCell] children of the [root] element, in document order.  A
    vertex carries a rectangle geometry, an edge a source and a target
    point; the numbers are the integers that [str] writes into the
    attributes. *)
Inductive mxCell : Type :=
| RootCell (id : string) (parent : option string)
| VertexCell (id value style parent : string) (x y width height : Z)
| EdgeCell (id value style parent : string) (sx sy tx ty : Z).

Definition parent_cell : string := "1".

Definition TICK_STYLE : string := "endArrow=none;strokeColor=#000000;dashed=1;".
Definition TEXT_STYLE : string :=
  "text;verticalAlign=middle;align=center;whiteSpace=wrap;".

(** [range(0, stop, step)] for a positive [step]. *)
Definition range_step (stop step : Z) : list Z :=
  map (fun k => Z.of_nat k * step) (seq 0 (Z.to_nat ((stop + step - 1) / step))).

(** [max(t.end() for t in ts)] continued from the running maximum [cur]. *)
Fixpoint max_end (cur : Z) (ts : list Task) : result Z :=
  match ts with
  | [] => Ok cur
  | t :: ts' => e <- Task_end t ;; max_end (Z.max cur e) ts'
  end.

(** The loop that fills [grouped] and [section_order]. *)
Definition group_step
    (acc : gmap (option string) (list Task) * list (option string)) (t : Task)
  : gmap (option string) (list Task) * list (option string) :=
  let '(grouped, section_order) := acc in
  let '(grouped, section_order) :=
    match grouped !! task_section t with
    | None => (<[task_section t := []]> grouped, section_order ++ [task_section t])
    | Some _ => (grouped, section_order)
    end in
  (<[task_section t := default [] (grouped !! task_section t) ++ [t]]> grouped,
   section_order).

Definition group_tasks (ts : list Task)
  : gmap (option string) (list Task) * list (option string) :=
  fold_left group_step ts (∅, []).

(** [rows]: the tasks flattened in section order. *)
Definition rows_of (grouped : gmap (option string) (list Task))
    (section_order : list (option string)) : list (Task * option string) :=
  flat_map (fun section => map (fun t => (t, section))
                             (default [] (grouped !! section))) section_order.

Section Layout.

Variables day_width task_height margin : Z.

Definition row_height : Z := task_height + ROW_GAP.
Definition y_start : Z := margin.

(** [int(block_start_y + (block_height - task_height) / 2)]: the
    quotient and the sum are floats. *)
Definition label_y (block_start_y block_height : Z) : result Z :=
  half <- Float.int_truediv_2 (block_height - task_height) ;;
  top <- Float.of_int block_start_y ;;
  Float.to_int (Float.add top half).

(** Background and label of each section block; [si] is the index of
    the section and [row_index] the first row of its block. *)
Fixpoint section_cells (grouped : gmap (option string) (list Task))
    (total_days : Z) (si : Z) (row_index : Z)
    (section_order : list (option string)) : result (list mxCell) :=
  match section_order with
  | [] => Ok []
  | section :: rest =>
      let tlist := default [] (grouped !! section) in
      match tlist with
      | [] => section_cells grouped total_days (si + 1) row_index rest
      | _ :: _ =>
          let n := Z.of_nat (length tlist) in
          let block_start_y := y_start + row_index * row_height in
          let block_height := n * row_height - (if 0 <? n then ROW_GAP else 0) in
          let bg_color :=
            nth (Z.to_nat (si mod Z.of_nat (length SECTION_BG_COLORS)))
                SECTION_BG_COLORS EmptyString in
          let bg :=
            VertexCell ("bg" +:+ Py.str (si + 1)) EmptyString
              ("rounded=0;fillColor=" +:+ bg_color +:+ ";strokeColor=none;")
              parent_cell
              margin block_start_y
              (SECTION_COL_WIDTH + total_days * day_width) block_height in
          y <- label_y block_start_y block_height ;;
          let header :=
            VertexCell ("sec_" +:+ Py.str (si + 1)) (default EmptyString section)
              TEXT_STYLE parent_cell
              margin y (SECTION_COL_WIDTH - 8) task_height in
          cells <- section_cells grouped total_days (si + 1) (row_index + n) rest ;;
          Ok (bg :: header :: cells)
      end
  end.

(** One rectangle per row; [counter] is [cell_counter] and [row_index]
    the row, both before the iteration. *)
Fixpoint task_cells (min_date : Z) (counter row_index : Z)
    (rows : list (Task * option string)) : list mxCell :=
  match rows with
  | [] => []
  | (t, _) :: rest =>
      let counter := counter + 1 in
      let x := margin + SECTION_COL_WIDTH
               + DT.days_between (task_start t) min_date * day_width in
      let w := Z.max 4 (length_days t * day_width) in
      VertexCell ("task" +:+ Py.str counter) (task_name t)
        ("rounded=0;whiteSpace=wrap;fillColor=" +:+ FILL_COLOR) parent_cell
        x (y_start + row_index * row_height) w task_height
      :: task_cells min_date counter (row_index + 1) rest
  end.

Definition tick_x (d : Z) : Z := margin + SECTION_COL_WIDTH + d * day_width.

Definition tick_cell (rows_height d : Z) : mxCell :=
  EdgeCell ("tick" +:+ Py.str (d + 1)) EmptyString TICK_STYLE parent_cell
    (tick_x d) y_start
    (tick_x d) (y_start + (if 0 <? rows_height then rows_height else task_height)).

Definition label_cell (day d : Z) : mxCell :=
  let lbl_w := Z.max 40 LABEL_MIN_GAP in
  VertexCell ("lbl" +:+ Py.str (d + 1)) (DT.strftime_md day) TEXT_STYLE parent_cell
    (tick_x d - lbl_w / 2) (margin - 40) lbl_w task_height.

(** The loop [for d in range(0, total_days, TICK_INTERVAL)] over the
    offsets [ds] still to visit. *)
Fixpoint tick_loop (min_date rows_height : Z) (last_label_x : Z) (ds : list Z)
  : result (list mxCell) :=
  match ds with
  | [] => Ok []
  | d :: ds' =>
      day <- DT.add_days min_date d ;;
      if LABEL_MIN_GAP <=? tick_x d - last_label_x
      then rest <- tick_loop min_date rows_height (tick_x d) ds' ;;
           Ok (tick_cell rows_height d :: label_cell day d :: rest)
      else rest <- tick_loop min_date rows_height last_label_x ds' ;;
           Ok (tick_cell rows_height d :: rest)
  end.

(** [total_days] *)
Definition total_days_of (min_date max_date : Z) : Z :=
  DT.days_between max_date min_date + 1.

(** The cells under [root], or the exception raised.  The enclosing
    [mxfile], [diagram] and [mxGraphModel] elements are constant. *)
Definition build_drawio_xml (ts : list Task) : result (list mxCell) :=
  match ts with
  | [] => Raise ValueError_no_tasks
  | t0 :: ts' =>
      let min_date := fold_left Z.min (map task_start ts') (task_start t0) in
      e0 <- Task_end t0 ;;
      max_date <- max_end e0 ts' ;;
      let '(grouped, section_order) := group_tasks ts in
      let rows := rows_of grouped section_order in
      let total_rows := Z.of_nat (length rows) in
      let rows_height :=
        total_rows * row_height - (if 0 <? total_rows then ROW_GAP else 0) in
      let total_days := total_days_of min_date max_date in
      sections <- section_cells grouped total_days 0 0 section_order ;;
      ticks <- tick_loop min_date rows_height (-1000000)
                 (range_step total_days TICK_INTERVAL) ;;
      Ok ([RootCell "0" None; RootCell "1" (Some "0")]
          ++ sections
          ++ task_cells min_date 0 0 rows
          ++ ticks)
  end.

End Layout.

(** ** Notions used to state the properties *)

(** The reference id of a start field that the resolver treats as an
    "after" reference: no date literal, the lowered field begins with
    [after], and a second whitespace-separated token exists; the id is
    that token stripped of whitespace and commas. *)
Definition after_ref (s : string) : option string :=
  match DATE_RE_search s with
  | Some _ => None
  | None =>
      if Py.startswith (Py.lower s) "after" then
        match Py.split s with
        | _ :: p1 :: _ => Some (Py.strip_commas (Py.strip p1))
        | _ => None
        end
      else None
  end.

(** The last task of [ts] that carries the id [k]. *)
Definition last_with_id (k : string) (ts : list Task) : option Task :=
  find (fun t => String.eqb (task_id t) k) (rev ts).

(** [t] is the task that forced resolution builds from the record [r]
    with the start [fallback]. *)
Definition forced_from (fallback : Z) (r : RawTask) (t : Task) : Prop :=
  exists n, parse_length (len_raw r) fallback = Ok n
            /\ t = Task_init (raw_name r) (raw_id r) fallback (Z.max 1 n) (raw_section r).

(** A [datetime] value within the range of the type. *)
Definition representable (t : Z) : Prop := DT.in_range t = true.

(** A task whose start is a [datetime], whose duration is at least one
    day, and whose end is a [datetime] too. *)
Record wf_task (t : Task) : Prop := {
  wf_start : representable (task_start t);
  wf_length : 1 <= length_days t;
  wf_end : is_ok (Task_end t) = true
}.

(** [m] is the least, respectively greatest, element of [l]. *)
Definition is_min_of (m : Z) (l : list Z) : Prop := In m l /\ Forall (fun x => m <= x) l.
Definition is_max_of (m : Z) (l : list Z) : Prop := In m l /\ Forall (fun x => x <= m) l.

(** The end of a task as a date, whether or not it is representable. *)
Definition end_date (t : Task) : Z := task_start t + length_days t * DT.DAY_US.

Definition is_edge (c : mxCell) : bool :=
  match c with EdgeCell _ _ _ _ _ _ _ _ => true | _ => false end.

Definition cell_id (c : mxCell) : string :=
  match c with
  | RootCell id _ => id
  | VertexCell id _ _ _ _ _ _ _ => id
  | EdgeCell id _ _ _ _ _ _ _ => id
  end.

(** The tick-label cells, recognised by their role prefix. *)
Definition is_label (c : mxCell) : bool :=
  match c with
  | VertexCell id _ _ _ _ _ _ _ => Py.startswith id "lbl"
  | _ => false
  end.

(** The task rectangles, recognised by their role prefix. *)
Definition is_task_cell (c : mxCell) : bool :=
  match c with
  | VertexCell id _ _ _ _ _ _ _ => Py.startswith id "task"
  | _ => false
  end.

(** Horizontal position of a vertex cell (its [x] attribute). *)
Definition cell_x (c : mxCell) : Z :=
  match c with
  | VertexCell _ _ _ _ x _ _ _ => x
  | EdgeCell _ _ _ _ sx _ _ _ => sx
  | RootCell _ _ => 0
  end.

(** Vertical extent of a cell: its top and its bottom. *)
Definition cell_span (c : mxCell) : Z * Z :=
  match c with
  | VertexCell _ _ _ _ _ y _ height => (y, y + height)
  | EdgeCell _ _ _ _ _ sy _ ty => (sy, ty)
  | RootCell _ _ => (0, 0)
  end.

(** The horizontal position a tick label is centred on: the [x] of its
    tick, which the loop compares with [last_label_x]. *)
Definition label_anchor (c : mxCell) : Z := cell_x c + Z.max 40 LABEL_MIN_GAP / 2.



(** Length parsing as the specification lists it, on the stripped
    field [lr]: a trailing [d] after an integer, a trailing [w] after an
    integer, an embedded date literal taken as the end date, a bare
    integer, and 1 for anything else. *)
Inductive length_case (lr : string) (start_dt : Z) : Z -> Prop :=
| length_days_suffix n :
    Py.endswith_char lr "d" = true ->
    Py.int (Py.drop_last lr) = Ok n ->
    length_case lr start_dt n
| length_weeks_suffix n :
    Py.endswith_char lr "d" = false ->
    Py.endswith_char lr "w" = true ->
    Py.int (Py.drop_last lr) = Ok n ->
    length_case lr start_dt (n * 7)
| length_end_date lit end_dt :
    Py.endswith_char lr "d" = false ->
    Py.endswith_char lr "w" = false ->
    DATE_RE_search lr = Some lit ->
    DT.fromisoformat (Py.replace "/" "-" lit) = Ok end_dt ->
    length_case lr start_dt (DT.days_between end_dt start_dt)
| length_bare_integer n :
    Py.endswith_char lr "d" = false ->
    Py.endswith_char lr "w" = false ->
    DATE_RE_search lr = None ->
    Py.int lr = Ok n ->
    length_case lr start_dt n
| length_unparseable :
    Py.endswith_char lr "d" = false ->
    Py.endswith_char lr "w" = false ->
    DATE_RE_search lr = None ->
    is_ok (Py.int lr) = false ->
    length_case lr start_dt 1.

(** No character of [s] is a colon. *)
Fixpoint no_colon (s : string) : bool :=
  match s with
  | EmptyString => true
  | String c s' => (negb (Ascii.eqb c ":") && no_colon s')%bool
  end.

(** The tasks and the document of the specification's scenario. *)
Definition spec_scenario_tasks_list : list Task :=
  [ mkTask "Task A" "a1" (738886 * DT.DAY_US) 5 (Some "S1");
    mkTask "Task B" "a2" (738891 * DT.DAY_US) 3 (Some "S1") ].

Definition spec_scenario_doc : list mxCell :=
  [ RootCell "0" None; RootCell "1" (Some "0");
    VertexCell "bg1" EmptyString "rounded=0;fillColor=#FBF7F3;strokeColor=none;"
      "1" 40 40 300 40;
    VertexCell "sec_1" "S1" TEXT_STYLE "1" 40 50 112 20;
    VertexCell "task1" "Task A" "rounded=0;whiteSpace=wrap;fillColor=#CDEBFF"
      "1" 160 40 100 20;
    VertexCell "task2" "Task B" "rounded=0;whiteSpace=wrap;fillColor=#CDEBFF"
      "1" 260 60 60 20;
    EdgeCell "tick1" EmptyString TICK_STYLE "1" 160 40 160 80;
    VertexCell "lbl1" "01/01" TEXT_STYLE "1" 136 0 48 20;
    EdgeCell "tick8" EmptyString TICK_STYLE "1" 300 40 300 80;
    VertexCell "lbl8" "01/08" TEXT_STYLE "1" 276 0 48 20 ].

(** The rows lie far inside the range of a float: no label position
    overflows. *)
Definition float_range (margin task_height : Z) (rows : nat) : Prop :=
  Z.abs margin + Z.of_nat rows * Z.abs task_height < 2 ^ 1020.

(** The rows lie where a float holds every integer and every half. *)
Definition float_exact_range (margin task_height : Z) (rows : nat) : Prop :=
  Z.abs margin + Z.of_nat rows * Z.abs task_height < 2 ^ 51.

(** The float [x] and the value [s] of the Standard Library's
    specification of IEEE 754 arithmetic are the same number. *)
Definition same_float (x : option Float.t) (s : SpecFloat.spec_float) : bool :=
  match x, s with
  | None, SpecFloat.S754_infinity _ => true
  | Some f, SpecFloat.S754_zero _ => Float.mant f =? 0
  | Some f, SpecFloat.S754_finite sign m e =>
      let v := if sign then Z.neg m else Z.pos m in
      let e0 := Z.min (Float.expo f) e in
      Float.mant f * 2 ^ (Float.expo f - e0) =? v * 2 ^ (e - e0)
  | _, _ => false
  end.

(** ** Notions used in the proofs *)

Section ResolverSpec.

Variable now : nat -> Z.

(** What an iteration of a pass does to the state: either the record is
    carried over, or one task is appended and entered into the table. *)
Inductive step_spec (st : rstate) (rem : list RawTask) (pr : bool) (r : RawTask)
  : rstate * list RawTask * bool -> Prop :=
| step_deferred :
    resolve_start now st (start_raw r) = Ok NotYet ->
    step_spec st rem pr r (st, rem ++ [r], pr)
| step_resolved start_dt clk n :
    resolve_start now st (start_raw r) = Ok (StartAt start_dt clk) ->
    parse_length (len_raw r) start_dt = Ok n ->
    let task := Task_init (raw_name r) (raw_id r) start_dt (Z.max 1 n) (raw_section r) in
    step_spec st rem pr r
      (mkState (<[task_id task := task]> (id_to_task st)) (tasks st ++ [task]) clk,
       rem, true).

(** A pass as the chain of its iterations. *)
Inductive pass_spec
  : rstate * list RawTask * bool -> list RawTask -> rstate * list RawTask * bool -> Prop :=
| pass_done acc : pass_spec acc [] acc
| pass_next st rem pr r rs acc' res :
    step_spec st rem pr r acc' -> pass_spec acc' rs res ->
    pass_spec (st, rem, pr) (r :: rs) res.

End ResolverSpec.

(** The table maps every id to the last task of [tasks] that carries it. *)
Definition table_ok (st : rstate) : Prop :=
  forall k, id_to_task st !! k = last_with_id k (tasks st).

(** What the grouping loop maintains after [n] tasks. *)
Definition group_inv (acc : gmap (option string) (list Task) * list (option string))
    (n : nat) : Prop :=
  NoDup acc.2
  /\ (forall s, s ∈ acc.2 <-> is_Some (acc.1 !! s))
  /\ length (rows_of acc.1 acc.2) = n.

(** A cell that is neither a tick line, nor a tick label, nor a task bar. *)
Definition other_role (c : mxCell) : Prop :=
  is_edge c = false /\ is_label c = false /\ is_task_cell c = false.

(** ** Notions used for the further properties *)

(** What a task keeps of its record whatever its dates: the stripped
    name, the stripped id and the section. *)
Definition raw_key (r : RawTask) : string * string * option string :=
  (Py.strip (raw_name r), Py.strip (raw_id r), raw_section r).

Definition task_key (t : Task) : string * string * option string :=
  (task_name t, task_id t, task_section t).

(** [r] cannot be deferred when the ids [seen] are in the table: its
    start holds a date literal, or is an "after" reference to one of
    [seen], or is of no recognised form. *)
Definition resolves_at_once (seen : list string) (r : RawTask) : bool :=
  match DATE_RE_search (start_raw r) with
  | Some _ => true
  | None =>
      if Py.startswith (Py.lower (start_raw r)) "after" then
        match after_ref (start_raw r) with
        | Some x => bool_decide (x ∈ seen)
        | None => false
        end
      else true
  end.

(** Every "after" reference of [rs] points to the id of an earlier
    record of [rs] or to one of [seen]. *)
Fixpoint backward_only (seen : list string) (rs : list RawTask) : bool :=
  match rs with
  | [] => true
  | r :: rs' =>
      (resolves_at_once seen r && backward_only (Py.strip (raw_id r) :: seen) rs')%bool
  end.

(** Every character of [s] satisfies [p]. *)
Fixpoint string_forall (p : ascii -> bool) (s : string) : bool :=
  match s with
  | EmptyString => true
  | String c s' => (p c && string_forall p s')%bool
  end.

(** A repetition count allowed by a quantifier. *)
Definition quant_ok (q : quant) (n : nat) : Prop :=
  match q with
  | Exactly k => n = k
  | Many k => (k <= n)%nat
  end.

(** [captured p caps m s]: a prefix of [s] splits into consecutive
    pieces, one per item of [p], each made of characters of the item's
    class and of a length its quantifier allows, and [m] is [caps]
    extended with the pieces of the items that are groups. *)
Fixpoint captured (p : list item) (caps m : captures) (s : string) : Prop :=
  match p with
  | [] => m = caps
  | it :: p' =>
      exists text rest,
        s = text +:+ rest
        /\ string_forall (cls it) text = true
        /\ quant_ok (qt it) (String.length text)
        /\ captured p'
             (match grp it with Some name => (name, text) :: caps | None => caps end)
             m rest
  end.

(** What holds of every record the collector appends. *)
Record record_shape (r : RawTask) : Prop := {
  shape_name_stripped : Py.strip (raw_name r) = raw_name r;
  shape_id_stripped : Py.strip (raw_id r) = raw_id r;
  shape_start_stripped : Py.strip (start_raw r) = start_raw r;
  shape_len_stripped : Py.strip (len_raw r) = len_raw r;
  shape_id_nonempty : raw_id r <> EmptyString;
  shape_id_token :
    string_forall (fun c => (negb (Ascii.eqb c ",") && negb (Py.isspace c))%bool)
      (raw_id r) = true;
  shape_name_no_colon : no_colon (raw_name r) = true;
  shape_start_no_comma :
    string_forall (fun c => negb (Ascii.eqb c ",")) (start_raw r) = true
}.

(** The role prefix of a cell id: its first two characters. *)
Definition id_role (id : string) : string :=
  match id with
  | String a (String b _) => String a (String b EmptyString)
  | s => s
  end.

(** *** Layout: sections, rows and backgrounds *)

(** The sections of a list in the order of their first occurrence. *)
Fixpoint first_seen (l : list (option string)) : list (option string) :=
  match l with
  | [] => []
  | x :: l' => x :: List.filter (fun y => negb (bool_decide (y = x))) (first_seen l')
  end.

(** The tasks of section [s], in the order of the list. *)
Definition tasks_of_section (s : option string) (ts : list Task) : list Task :=
  List.filter (fun t => bool_decide (task_section t = s)) ts.

(** The tasks regrouped by section: sections in the order of their
    first occurrence, the tasks of a section in their original order. *)
Definition stable_groups (ts : list Task) : list Task :=
  flat_map (fun s => tasks_of_section s ts) (first_seen (map task_section ts)).

Definition is_background (c : mxCell) : bool :=
  match c with
  | VertexCell id _ _ _ _ _ _ _ => Py.startswith id "bg"
  | _ => false
  end.

Definition is_section_label (c : mxCell) : bool :=
  match c with
  | VertexCell id _ _ _ _ _ _ _ => Py.startswith id "sec_"
  | _ => false
  end.

Definition cell_value (c : mxCell) : string :=
  match c with
  | VertexCell _ value _ _ _ _ _ _ => value
  | EdgeCell _ value _ _ _ _ _ _ => value
  | RootCell _ _ => EmptyString
  end.

Definition cell_width (c : mxCell) : Z :=
  match c with
  | VertexCell _ _ _ _ _ _ width _ => width
  | _ => 0
  end.

(** The spans follow one another without gap or overlap from [from]
    down to [to]. *)
Fixpoint tiling (from : Z) (spans : list (Z * Z)) (to : Z) : Prop :=
  match spans with
  | [] => from = to
  | (top, bottom) :: rest => top = from /\ tiling bottom rest to
  end.

(** What the grouping loop has built after the tasks [l]. *)
Definition grouped_as (acc : gmap (option string) (list Task) * list (option string))
    (l : list Task) : Prop :=
  acc.2 = first_seen (map task_section l)
  /\ forall s, acc.1 !! s
               = if bool_decide (s ∈ map task_section l)
                 then Some (tasks_of_section s l) else None.

(** What a task bar shows of its task: the name, the left edge and the
    width. *)
Definition bar_of (day_width margin min_date : Z) (t : Task) : string * Z * Z :=
  (task_name t,
   margin + SECTION_COL_WIDTH + DT.days_between (task_start t) min_date * day_width,
   Z.max 4 (length_days t * day_width)).

Definition cell_bar (c : mxCell) : string * Z * Z := (cell_value c, cell_x c, cell_width c).

Definition cell_height (c : mxCell) : Z := (cell_span c).2 - (cell_span c).1.

(** The cell [inner] lies in the section column of [outer] and between
    its top and its bottom, half way up to a pixel. *)
Definition labels_block (outer inner : mxCell) : Prop :=
  cell_x inner = cell_x outer
  /\ cell_x inner + cell_width inner <= cell_x outer + SECTION_COL_WIDTH
  /\ (cell_span outer).1 <= (cell_span inner).1
  /\ (cell_span inner).2 <= (cell_span outer).2
  /\ Z.abs (((cell_span inner).1 + (cell_span inner).2)
            - ((cell_span outer).1 + (cell_span outer).2)) <= 1.

(** *** Scanner: task lines written from records *)

(** Whitespace that is not a line feed. *)
Definition blanks (w : string) : Prop :=
  string_forall (fun c => (Py.isspace c && not_in [newline] c)%bool) w = true.

(** A task line written from a record: the four fields in order, the
    separators [:] and [,] between them, and the gaps [w 0] .. [w 7]
    around the fields and the separators. *)
Definition task_line (r : RawTask) (w : nat -> string) : string :=
  w 0%nat +:+ raw_name r +:+ w 1%nat
  +:+ String ":" (w 2%nat +:+ raw_id r +:+ w 3%nat
  +:+ String "," (w 4%nat +:+ start_raw r +:+ w 5%nat
  +:+ String "," (w 6%nat +:+ len_raw r +:+ w 7%nat))).

(** Fields that a task line can carry: none is empty or has whitespace
    around it, each holds only characters of its group of [TASK_RE], and
    the name does not open a comment. *)
Record line_fields (r : RawTask) : Prop := {
  name_nonempty : raw_name r <> EmptyString;
  name_stripped : Py.strip (raw_name r) = raw_name r;
  name_class : string_forall (not_in [":"%char; newline]) (raw_name r) = true;
  name_no_comment : Py.startswith (raw_name r) "%%" = false;
  id_nonempty : raw_id r <> EmptyString;
  id_class :
    string_forall (fun c => (not_in [","%char] c && negb (Py.isspace c))%bool)
      (raw_id r) = true;
  start_nonempty : start_raw r <> EmptyString;
  start_stripped : Py.strip (start_raw r) = start_raw r;
  start_class : string_forall (not_in [","%char]) (start_raw r) = true;
  len_nonempty : len_raw r <> EmptyString;
  len_stripped : Py.strip (len_raw r) = len_raw r;
  len_class : string_forall (not_in [newline]) (len_raw r) = true
}.

(** The string is empty or begins with a character outside the class. *)
Definition starts_outside (c : ascii -> bool) (s : string) : Prop :=
  match s with
  | String a _ => c a = false
  | EmptyString => True
  end.

(** A gantt text written from records: the header line, then one task
    line per record. *)
Definition gantt_text (rs : list RawTask) (w : nat -> string) : string :=
  "gantt" +:+ String newline
    (fold_right (fun r acc => task_line r w +:+ String newline acc) EmptyString rs).

Definition no_linebreak (s : string) : Prop :=
  string_forall (fun c => negb (Py.is_linebreak c)) s = true.

(** *** Resolver: the passes as the specification schedules them *)

(** The id under which the task of a record enters the table. *)
Definition record_id (r : RawTask) : string := Py.strip (raw_id r).

(** One pass over the unresolved records, in the words of the
    specification: a record resolves if its start is a literal date, an
    "after" reference whose target is already resolved ([resolved] holds
    the ids resolved so far, those of this pass included), or of another
    format; the others are carried to the next pass.  The result is the
    records resolved in the pass and the records carried over. *)
Fixpoint schedule_pass (resolved : list string) (unresolved : list RawTask)
  : list RawTask * list RawTask :=
  match unresolved with
  | [] => ([], [])
  | r :: rs =>
      if resolves_at_once resolved r
      then let p := schedule_pass (record_id r :: resolved) rs in (r :: p.1, p.2)
      else let p := schedule_pass resolved rs in (p.1, r :: p.2)
  end.

(** The passes: repeated until one resolves nothing new, [max] passes
    at most.  The result is the records each pass resolved, pass by
    pass, and the records still unresolved at the end. *)
Fixpoint schedule (max : nat) (resolved : list string) (unresolved : list RawTask)
  : list (list RawTask) * list RawTask :=
  match max with
  | O => ([], unresolved)
  | S max' =>
      let p := schedule_pass resolved unresolved in
      match p.1 with
      | [] => ([[]], unresolved)
      | _ :: _ =>
          let q := schedule max' (rev (map record_id p.1) ++ resolved) p.2 in
          (p.1 :: q.1, q.2)
      end
  end.

(** [t] is the task that a pass builds from the record [r] when [pre]
    are the tasks resolved before it: its start is the date literal of
    the start field, or the end of the last task of [pre] under the
    referenced id, or a reading of the clock. *)
Definition pass_made (now : nat -> Z) (pre : list Task) (r : RawTask) (t : Task) : Prop :=
  exists start_dt n,
    parse_length (len_raw r) start_dt = Ok n
    /\ t = Task_init (raw_name r) (raw_id r) start_dt (Z.max 1 n) (raw_section r)
    /\ match DATE_RE_search (start_raw r), after_ref (start_raw r) with
       | Some lit, _ => DT.fromisoformat (Py.replace "/" "-" lit) = Ok start_dt
       | None, Some x => exists A, last_with_id x pre = Some A /\ Task_end A = Ok start_dt
       | None, None =>
           Py.startswith (Py.lower (start_raw r)) "after" = false
           /\ exists k, start_dt = now k
       end.

(** The tasks [ts] are built from the records [rs], one by one in
    order, each after [pre] and the tasks built before it. *)
Fixpoint made_in_order (now : nat -> Z) (pre : list Task) (rs : list RawTask)
    (ts : list Task) : Prop :=
  match rs, ts with
  | [], [] => True
  | r :: rs', t :: ts' => pass_made now pre r t /\ made_in_order now (pre ++ [t]) rs' ts'
  | _, _ => False
  end.

(** The fallback start of forced resolution: the earliest start among
    the tasks resolved in the passes, or a reading of the clock when
    there is none. *)
Definition is_fallback (now : nat -> Z) (passed : list Task) (fb : Z) : Prop :=
  match passed with
  | [] => exists k, fb = now k
  | _ :: _ => is_min_of fb (map task_start passed)
  end.

(** The ids [seen] are those the table holds. *)
Definition table_holds (seen : list string) (st : rstate) : Prop :=
  forall x, x ∈ seen <-> is_Some (id_to_task st !! x).



(** * Checks on concrete inputs *)

Example int_examples :
  Py.int "10" = Ok 10 /\ Py.int " -5 " = Ok (-5) /\ Py.int "1_0" = Ok 10
  /\ Py.int "+007" = Ok 7 /\ Py.int "2.5" = Raise (ValueError_int "2.5")
  /\ Py.int EmptyString = Raise (ValueError_int EmptyString) /\ Py.int "1__0" = Raise (ValueError_int "1__0")
  /\ Py.int "_1" = Raise (ValueError_int "_1") /\ Py.int "1_" = Raise (ValueError_int "1_")
  /\ Py.int "+ 5" = Raise (ValueError_int "+ 5").
Proof. repeat split; reflexivity. Qed.

Example str_examples :
  Py.split " after  a1 , x " = ["after"; "a1"; ","; "x"]
  /\ Py.strip "  ab c  " = "ab c" /\ Py.strip_commas ",a,," = "a"
  /\ Py.lower "AfTeR" = "after" /\ Py.drop_last "5d" = "5"
  /\ Py.str 12 = "12" /\ Py.str 0 = "0" /\ Py.str (-3) = "-3".
Proof. repeat split; reflexivity. Qed.

Example date_search_examples :
  DATE_RE_search "x 2024/01-10 y" = Some "2024/01-10"
  /\ DATE_RE_search "after a1" = None
  /\ DATE_RE_search "12024-13-45" = Some "2024-13-45".
Proof. repeat split; vm_compute; reflexivity. Qed.

Example task_re_examples :
  re_match TASK_RE "    Task A :a1, 2024-01-01, 5d"
    = Some [("len", "5d"); ("start", "2024-01-01"); ("id", "a1"); ("name", "Task A ")]
  /\ re_match TASK_RE "section Build" = None
  /\ re_match TASK_RE "x : a b, c, d" = None
  /\ re_match TASK_RE "a:b,c ,d, e" = Some [("len", "d, e"); ("start", "c "); ("id", "b"); ("name", "a")].
Proof. repeat split; vm_compute; reflexivity. Qed.

Example fromisoformat_examples :
  DT.fromisoformat "2024-01-01" = Ok (738886 * DT.DAY_US)
  /\ DT.fromisoformat "2024-02-29" = Ok (738945 * DT.DAY_US)
  /\ DT.fromisoformat "9999-12-31" = Ok (DT.MAXORDINAL * DT.DAY_US)
  /\ DT.fromisoformat "2024-13-45" = Raise (ValueError_isoformat "2024-13-45")
  /\ DT.fromisoformat "2023-02-29" = Raise (ValueError_isoformat "2023-02-29")
  /\ DT.fromisoformat "0000-01-01" = Raise (ValueError_isoformat "0000-01-01").
Proof. repeat split; vm_compute; reflexivity. Qed.

Example strftime_examples :
  DT.strftime_md (738886 * DT.DAY_US) = "01/01"
  /\ DT.strftime_md (738945 * DT.DAY_US + 5) = "02/29"
  /\ DT.strftime_md (DT.MAXORDINAL * DT.DAY_US) = "12/31"
  /\ DT.strftime_md (738886 * DT.DAY_US - 1) = "12/31"
  /\ DT.ord2ymd 738946 = (2024, 3, 1).
Proof. repeat split; vm_compute; reflexivity. Qed.

Example spec_scenario_tasks :
  parse_mermaid (fun _ => 0) 0 spec_scenario = Ok spec_scenario_tasks_list.
Proof. vm_compute. reflexivity. Qed.

Example spec_scenario_layout :
  build_drawio_xml DAY_WIDTH TASK_HEIGHT MARGIN spec_scenario_tasks_list
  = Ok spec_scenario_doc.
Proof. vm_compute. reflexivity. Qed.

Example dense_ticks_labels :
  (doc <- build_drawio_xml 2 TASK_HEIGHT MARGIN
            [mkTask "A" "a" (738886 * DT.DAY_US) 60 None] ;;
   Ok (map cell_id (List.filter is_label doc), map label_anchor (List.filter is_label doc)))
  = Ok (["lbl1"; "lbl29"; "lbl57"], [160; 216; 272]).
Proof. vm_compute. reflexivity. Qed.

(** Rounding, against the Standard Library's binary64: exact values,
    ties to even on both sides, the carry into the next power of two,
    and the overflow threshold. *)
Example float_round_examples :
  forallb (fun '(m, e) =>
             same_float (Float.round m e) (SpecFloat.binary_normalize 53 1024 m e false))
    [ (0, 0); (1, 0); (-1, 0); (3, -1); (-3, -1); (2 ^ 53, 0); (2 ^ 53 + 1, 0);
      (2 ^ 53 + 2, 0); (2 ^ 53 + 3, 0); (- (2 ^ 53 + 1), 0); (- (2 ^ 53 + 3), 0);
      (2 ^ 54 + 2, 0); (2 ^ 54 + 6, 0); (2 ^ 54 + 5, -1); (2 ^ 54 - 1, 0);
      (2 ^ 55 - 1, -1); (2 ^ 100 + 2 ^ 47, 0); (2 ^ 100 + 2 ^ 47 + 1, 0);
      (2 ^ 100 + 2 ^ 47 - 1, 0); (2 ^ 100 + 3 * 2 ^ 47, 0);
      (123456789123456789123456789, 0); (-123456789123456789123456789, -1);
      (10 ^ 310, 0); (2 ^ 1024, 0); (2 ^ 1024 - 1, 0); (2 ^ 1024 - 2 ^ 970, 0);
      (2 ^ 1024 - 2 ^ 970 - 1, 0); (- (2 ^ 1024 - 2 ^ 970), 0);
      (2 ^ 1025 - 2 ^ 971, -1); (2 ^ 1025 - 2 ^ 971 - 1, -1) ] = true
  /\ forallb (fun '(a, b) =>
       match Float.round a 0, Float.round b (-1) with
       | Some x, Some y =>
           same_float (Float.add x y)
             (SpecFloat.SFadd 53 1024 (SpecFloat.binary_normalize 53 1024 a 0 false)
                (SpecFloat.binary_normalize 53 1024 b (-1) false))
       | _, _ => false
       end)
    [ (40, 20); (2 ^ 53 + 1, 0); (2 ^ 53, 1); (2 ^ 53, 3); (2 ^ 53 - 1, 1);
      (- (2 ^ 53), -3); (2 ^ 60 + 2 ^ 7, 2 ^ 8 + 1); (2 ^ 1023, 2 ^ 1024);
      (2 ^ 1023 + 2 ^ 1022, 2 ^ 1024); (- (2 ^ 1023), - (2 ^ 1024)); (5, -10);
      (2 ^ 80, - (2 ^ 81) + 3) ] = true.
Proof. split; vm_compute; reflexivity. Qed.

(** The label position: exact below 2^53, rounded from there on, and an
    error beyond the range of a float. *)
Example label_y_examples :
  label_y 20 40 40 = Ok 50
  /\ label_y 20 40 20 = Ok 40
  /\ label_y 21 40 42 = Ok 50
  /\ label_y 20 (-41) 41 = Ok (-30)
  /\ label_y 20 (2 ^ 53 + 1) 20 = Ok (2 ^ 53)
  /\ label_y 20 (2 ^ 53 + 3) 20 = Ok (2 ^ 53 + 4)
  /\ label_y 20 (10 ^ 310) 20 = Raise OverflowError
  /\ label_y 20 40 (10 ^ 310) = Raise OverflowError
  /\ label_y 20 (2 ^ 1023) (2 ^ 1024 + 20) = Raise OverflowError.
Proof. repeat split; vm_compute; reflexivity. Qed.

(** * Properties *)

(** ** The result monad *)

Lemma bind_Ok {A B : Type} (m : result A) (k : A -> result B) (b : B) :
  bind m k = Ok b -> exists a, m = Ok a /\ k a = Ok b.
Proof. destruct m as [a|e]; simpl; [eauto | discriminate]. Qed.

Ltac inv_bind H :=
  let a := fresh "a" in
  let Ha := fresh "Ha" in
  apply bind_Ok in H; destruct H as (a & Ha & H).

(** Projections of a state triple, without unfolding the tasks in it. *)
Ltac proj_simpl := cbn [fst snd id_to_task tasks clock] in *.

(** ** The resolver: one record, one pass *)

Section ResolverFacts.

Variable now : nat -> Z.

Lemma pass_step_spec st rem pr r acc' :
  pass_step now (st, rem, pr) r = Ok acc' -> step_spec now st rem pr r acc'.
Proof.
  unfold pass_step. intros H. inv_bind H.
  destruct a as [start_dt clk|].
  - inv_bind H. injection H as <-. eapply step_resolved; eauto.
  - injection H as <-. by apply step_deferred.
Qed.

Lemma pass_loop_spec rs : forall acc res,
  pass_loop now acc rs = Ok res -> pass_spec now acc rs res.
Proof.
  induction rs as [|r rs IH]; simpl; intros acc res H.
  - injection H as <-. constructor.
  - inv_bind H. destruct acc as [[st rem] pr].
    eapply pass_next; [by apply pass_step_spec | by apply IH].
Qed.

(** The start field of an "after" reference is decided by the table alone. *)
Lemma resolve_start_after st s x :
  after_ref s = Some x ->
  resolve_start now st s =
    match id_to_task st !! x with
    | None => Ok NotYet
    | Some ref_task => start_dt <- Task_end ref_task ;; Ok (StartAt start_dt (clock st))
    end.
Proof.
  unfold after_ref, resolve_start.
  destruct (DATE_RE_search s); [discriminate|].
  destruct (Py.startswith (Py.lower s) "after"); [|discriminate].
  destruct (Py.split s) as [|p0 [|p1 ps]]; try discriminate.
  intros [= <-]. reflexivity.
Qed.

(** Every record of a pass ends up either as a new task or in [remaining]. *)
Lemma pass_spec_count acc rs res :
  pass_spec now acc rs res ->
  (length (tasks res.1.1) + length res.1.2
   = length (tasks acc.1.1) + length acc.1.2 + length rs)%nat.
Proof.
  induction 1 as [acc|st rem pr r rs acc' res Hstep _ IH]; simpl in *; [lia|].
  rewrite IH. inversion Hstep; subst; simpl; rewrite ?length_app; simpl; lia.
Qed.

(** The tasks of a pass are appended, each with a duration of at least 1. *)
Lemma pass_spec_tasks acc rs res :
  pass_spec now acc rs res ->
  exists new, tasks res.1.1 = tasks acc.1.1 ++ new
              /\ Forall (fun t => 1 <= length_days t) new.
Proof.
  induction 1 as [acc|st rem pr r rs acc' res Hstep _ (new & IH & Hnew)]; simpl in *.
  - exists []. by rewrite app_nil_r.
  - inversion Hstep; subst; simpl in *.
    + by exists new.
    + exists (task :: new). rewrite IH, <- app_assoc. split; [done|].
      constructor; [|done]. subst task. simpl. lia.
Qed.

(** A pass that reports no progress has changed nothing and carried every
    record over. *)
Lemma pass_spec_no_progress acc rs res :
  pass_spec now acc rs res -> res.2 = false ->
  acc.2 = false /\ res.1.1 = acc.1.1 /\ res.1.2 = acc.1.2 ++ rs.
Proof.
  induction 1 as [acc|st rem pr r rs acc' res Hstep _ IH]; simpl in *; intros Hres.
  - by rewrite app_nil_r.
  - destruct (IH Hres) as (Hpr & Hst & Hrem).
    inversion Hstep; subst; simpl in *; [|discriminate].
    rewrite Hrem, <- app_assoc. done.
Qed.

Lemma last_with_id_snoc k ts t :
  last_with_id k (ts ++ [t]) =
    if String.eqb (task_id t) k then Some t else last_with_id k ts.
Proof. unfold last_with_id. rewrite rev_app_distr. reflexivity. Qed.

Lemma step_spec_table_ok st rem pr r acc' :
  step_spec now st rem pr r acc' -> table_ok st -> table_ok acc'.1.1.
Proof.
  intros Hstep Hok. inversion Hstep; subst; [done|].
  intros k. cbn [fst id_to_task tasks]. rewrite last_with_id_snoc.
  destruct (String.eqb_spec (task_id task) k) as [->|Hne].
  - by rewrite lookup_insert_eq.
  - by rewrite lookup_insert_ne.
Qed.

Lemma pass_spec_table_ok acc rs res :
  pass_spec now acc rs res -> table_ok acc.1.1 -> table_ok res.1.1.
Proof.
  induction 1 as [acc|st rem pr r rs acc' res Hstep _ IH]; [done|].
  intros Hok. apply IH. by eapply step_spec_table_ok.
Qed.

(** Keys are never removed from the table. *)
Lemma pass_spec_table_mono acc rs res k :
  pass_spec now acc rs res ->
  is_Some (id_to_task acc.1.1 !! k) -> is_Some (id_to_task res.1.1 !! k).
Proof.
  induction 1 as [acc|st rem pr r rs acc' res Hstep _ IH]; [done|].
  intros Hk. apply IH. inversion Hstep; subst; proj_simpl; [done|].
  destruct (decide (task_id task = k)) as [->|Hne].
  - rewrite lookup_insert_eq. eauto.
  - by rewrite lookup_insert_ne.
Qed.

(** A reference whose target never enters the table stays unresolved. *)
Lemma pass_spec_deferred acc rs res B x :
  pass_spec now acc rs res ->
  after_ref (start_raw B) = Some x ->
  id_to_task res.1.1 !! x = None ->
  B ∈ acc.1.2 \/ B ∈ rs -> B ∈ res.1.2.
Proof.
  induction 1 as [acc|st rem pr r rs acc' res Hstep Hpass IH]; simpl;
    intros Href Hnone Hin.
  - destruct Hin as [Hin|Hin]; [done|]. by apply elem_of_nil in Hin.
  - apply IH; [done|done|].
    assert (Hcase : B ∈ rem \/ B = r \/ B ∈ rs).
    { destruct Hin as [Hin|Hin]; [by left|].
      apply elem_of_cons in Hin. tauto. }
    inversion Hstep; subst; proj_simpl.
    + destruct Hcase as [Hin'|[->|Hin']]; [left|left|by right];
        apply elem_of_app; [by left|right]. by apply list_elem_of_singleton.
    + destruct Hcase as [Hin'|[->|Hin']]; [by left| |by right].
      exfalso.
      match goal with
      | Hrs : resolve_start _ _ _ = Ok (StartAt _ _) |- _ =>
          rewrite (resolve_start_after _ _ _ Href) in Hrs;
          destruct (id_to_task st !! x) as [ref_task|] eqn:Hx; [|discriminate Hrs]
      end.
      assert (Hs : is_Some (id_to_task res.1.1 !! x)).
      { eapply pass_spec_table_mono; [exact Hpass|]. proj_simpl.
        destruct (decide (task_id task = x)) as [->|Hne].
        - rewrite lookup_insert_eq. eauto.
        - rewrite lookup_insert_ne by done. eauto. }
      rewrite Hnone in Hs. by destruct Hs.
Qed.

(** ** The resolver: the bounded loop of passes *)

(** Induction over the passes that were run: a property that holds when
    no pass runs and is carried backwards over a pass with progress holds
    of the whole loop. *)
Lemma passes_spec (P : rstate -> list RawTask -> rstate -> list RawTask -> Prop) :
  (forall st u, P st u st u) ->
  (forall st u st1 rem st' u',
      pass_spec now (st, [], false) u (st1, rem, true) -> P st1 rem st' u' -> P st u st' u') ->
  forall fuel st u st' u' n,
    passes now fuel st u = Ok (st', u', n) -> P st u st' u'.
Proof.
  intros Hrefl Hstep. induction fuel as [|fuel IH]; simpl; intros st u st' u' n H.
  - injection H as <- <- _. apply Hrefl.
  - inv_bind H. destruct a as [[st1 rem] pr].
    apply pass_loop_spec in Ha. destruct pr.
    + inv_bind H. destruct a as [[st2 u2] n2]. injection H as <- <- _.
      eapply Hstep; [exact Ha|]. eapply IH. exact Ha0.
    + injection H as <- <- _.
      destruct (pass_spec_no_progress _ _ _ Ha eq_refl) as (_ & Hst & _).
      simpl in Hst. subst st1. apply Hrefl.
Qed.

Lemma passes_count fuel st u st' u' n :
  passes now fuel st u = Ok (st', u', n) ->
  (length (tasks st') + length u' = length (tasks st) + length u)%nat.
Proof.
  apply (passes_spec (fun st u st' u' =>
    (length (tasks st') + length u' = length (tasks st) + length u)%nat)); [done|].
  clear. intros st u st1 rem st' u' Hpass IH.
  apply pass_spec_count in Hpass. simpl in Hpass. lia.
Qed.

Lemma passes_tasks fuel st u st' u' n :
  passes now fuel st u = Ok (st', u', n) ->
  exists new, tasks st' = tasks st ++ new /\ Forall (fun t => 1 <= length_days t) new.
Proof.
  apply (passes_spec (fun st u st' u' =>
    exists new, tasks st' = tasks st ++ new
                /\ Forall (fun t => 1 <= length_days t) new)); clear.
  - intros st u. exists []. by rewrite app_nil_r.
  - intros st u st1 rem st' u' Hpass (new2 & -> & H2).
    apply pass_spec_tasks in Hpass as (new1 & Hnew1 & H1). simpl in Hnew1.
    exists (new1 ++ new2). rewrite Hnew1, <- app_assoc. split; [done|].
    by apply Forall_app.
Qed.

Lemma passes_table_ok fuel st u st' u' n :
  passes now fuel st u = Ok (st', u', n) -> table_ok st -> table_ok st'.
Proof.
  apply (passes_spec (fun st u st' u' => table_ok st -> table_ok st')); [done|].
  clear. intros st u st1 rem st' u' Hpass IH Hok. apply IH.
  by apply (pass_spec_table_ok _ _ _ Hpass).
Qed.

Lemma passes_table_mono k fuel st u st' u' n :
  passes now fuel st u = Ok (st', u', n) ->
  is_Some (id_to_task st !! k) -> is_Some (id_to_task st' !! k).
Proof.
  apply (passes_spec (fun st u st' u' =>
    is_Some (id_to_task st !! k) -> is_Some (id_to_task st' !! k))); [done|].
  clear. intros st u st1 rem st' u' Hpass IH Hk. apply IH.
  by apply (pass_spec_table_mono _ _ _ k Hpass).
Qed.

Lemma passes_deferred B x fuel st u st' u' n :
  passes now fuel st u = Ok (st', u', n) ->
  after_ref (start_raw B) = Some x ->
  id_to_task st' !! x = None -> B ∈ u -> B ∈ u'.
Proof.
  intros H Href.
  cut ((is_Some (id_to_task st !! x) -> is_Some (id_to_task st' !! x))
       /\ (id_to_task st' !! x = None -> B ∈ u -> B ∈ u')); [tauto|].
  revert H.
  apply (passes_spec (fun st u st' u' =>
    (is_Some (id_to_task st !! x) -> is_Some (id_to_task st' !! x))
    /\ (id_to_task st' !! x = None -> B ∈ u -> B ∈ u'))); [done|].
  intros st0 u0 st1 rem st2 u2 Hpass [IHmono IH]. split.
  - intros Hk. apply IHmono. by apply (pass_spec_table_mono _ _ _ x Hpass).
  - intros Hnone Hin. apply IH; [done|].
    assert (Hmid : id_to_task st1 !! x = None).
    { destruct (id_to_task st1 !! x) eqn:Hx; [|done].
      destruct IHmono as [t' Ht']; [eauto|]. congruence. }
    apply (pass_spec_deferred _ _ _ B x Hpass Href Hmid). by right.
Qed.

(** The loop runs at least one and at most [fuel] passes, and when it
    stops early the pass it stopped on resolved nothing: run again from
    the final state, a pass leaves everything as it is. *)
Lemma passes_bound fuel st u st' u' n :
  passes now fuel st u = Ok (st', u', n) ->
  (n <= fuel)%nat
  /\ (0 < fuel -> 1 <= n)%nat
  /\ ((n < fuel)%nat -> run_pass now st' u' = Ok (st', u', false)).
Proof.
  revert st u st' u' n. induction fuel as [|fuel IH]; simpl; intros st u st' u' n H.
  - injection H as <- <- <-. repeat split; lia.
  - inv_bind H. destruct a as [[st1 rem] pr]. destruct pr.
    + inv_bind H. destruct a as [[st2 u2] n2]. injection H as <- <- <-.
      destruct (IH _ _ _ _ _ Ha0) as (Hle & _ & Hstop).
      repeat split; [lia|lia|]. intros Hlt. apply Hstop. lia.
    + injection H as <- <- <-.
      destruct (pass_spec_no_progress _ _ _ (pass_loop_spec _ _ _ Ha) eq_refl)
        as (_ & Hst & Hrem).
      simpl in Hst, Hrem. subst st1 rem.
      repeat split; [lia|lia|]. intros _. exact Ha.
Qed.

(** ** The resolver: forced resolution and the whole phase *)

Lemma force_loop_spec fallback u : forall ts ts',
  force_loop fallback ts u = Ok ts' ->
  exists forced, ts' = ts ++ forced /\ Forall2 (forced_from fallback) u forced.
Proof.
  induction u as [|r u IH]; simpl; intros ts ts' H.
  - injection H as <-. exists []. by rewrite app_nil_r.
  - inv_bind H. apply IH in H as (forced & -> & HF).
    eexists (_ :: forced). rewrite <- app_assoc. split; [reflexivity|].
    constructor; [|done]. by exists a.
Qed.

(** The phase as a whole: the passes end in a state [st] with the
    records [u] left over; every record of [u] then becomes a task that
    starts at the fallback, appended after the tasks of the passes, and
    the table stays as the passes left it. *)
Lemma resolve_state_spec clk records st_final :
  resolve_state now clk records = Ok st_final ->
  exists st u n forced,
    passes now max_passes (mkState ∅ [] clk) records = Ok (st, u, n)
    /\ tasks st_final = tasks st ++ forced
    /\ id_to_task st_final = id_to_task st
    /\ Forall2 (forced_from (min_start (tasks st) (now (clock st)))) u forced.
Proof.
  unfold resolve_state. intros H. inv_bind H. destruct a as [[st u] n].
  exists st, u, n. unfold force_resolve in H. destruct u as [|r u].
  - injection H as <-. exists []. rewrite app_nil_r.
    split; [exact Ha|]. split; [done|]. split; [done|]. constructor.
  - inv_bind H. injection H as <-. simpl.
    apply force_loop_spec in Ha0 as (forced & -> & HF). by exists forced.
Qed.

Lemma table_ok_init clk : table_ok (mkState ∅ [] clk).
Proof. intros k. cbn [id_to_task tasks]. by rewrite lookup_empty. Qed.

End ResolverFacts.

(** ** Dates of tasks *)


(** ** C1: exceptions escape the resolver *)

(** The resolver gives one task per record whenever it returns. *)
Lemma resolve_one_task_per_record now clk records out :
  resolve now clk records = Ok out -> length out = length records.
Proof.
  unfold resolve. intros H. inv_bind H. injection H as <-.
  apply resolve_state_spec in Ha as (st & u & n & forced & Hp & -> & _ & HF).
  apply passes_count in Hp. simpl in Hp. apply Forall2_length in HF.
  rewrite length_app. lia.
Qed.

Lemma resolve_one_task_per_record_witness :
  length spec_scenario_tasks_list = length (collect_raw spec_scenario).
Proof.
  apply (resolve_one_task_per_record (fun _ => 0) 0%nat). vm_compute. reflexivity.
Defined.

(** C1 (the code departs from the claim): on a record whose length field
    is [2.5d] or [1.5w], or whose start or length field holds the
    date-shaped token [2024-13-45], the resolver raises [ValueError] and
    returns no task; the same happens from the text of a gantt block. *)
Theorem resolver_raises_on_malformed_fields (now : nat -> Z) (clk : nat) :
  resolve now clk [mkRaw "A" "a1" "2024-01-01" "2.5d" None]
    = Raise (ValueError_int "2.5")
  /\ resolve now clk [mkRaw "A" "a1" "2024-01-01" "1.5w" None]
    = Raise (ValueError_int "1.5")
  /\ resolve now clk [mkRaw "A" "a1" "2024-13-45" "5d" None]
    = Raise (ValueError_isoformat "2024-13-45")
  /\ resolve now clk [mkRaw "A" "a1" "2024-01-01" "2024-13-45" None]
    = Raise (ValueError_isoformat "2024-13-45")
  /\ parse_mermaid now clk ("gantt" +:+ String Re.newline "A :a1, 2024-01-01, 2.5d")
    = Raise (ValueError_int "2.5").
Proof. repeat split; vm_compute; reflexivity. Qed.

(** ** C3: durations and ends of resolved tasks *)



(** ** C4: a pass over references into an empty table *)

(** A pass over records that are all "after" references into an empty
    table carries every one of them over. *)
Lemma pass_loop_all_deferred now clk rs : forall rem,
  Forall (fun r => exists x, after_ref (start_raw r) = Some x) rs ->
  pass_loop now (mkState ∅ [] clk, rem, false) rs
  = Ok (mkState ∅ [] clk, rem ++ rs, false).
Proof.
  induction rs as [|r rs IH]; intros rem Hall; simpl.
  - by rewrite app_nil_r.
  - apply Forall_cons in Hall as [[x Hx] Hall].
    rewrite (resolve_start_after now _ _ _ Hx). cbn [id_to_task].
    rewrite lookup_empty. simpl. rewrite IH by done.
    by rewrite <- app_assoc.
Qed.

(** ** C10: forced tasks and the table *)

(** C10: when the resolver ends, its table holds exactly what the passes
    put there: every id maps to the last task resolved in the passes that
    carries it, and forced resolution leaves the table as it was, so no
    forced task is in it and none replaces an entry.  A record whose
    "after" target is the id of no task resolved in the passes is left for
    forced resolution and becomes a task that starts at the fallback. *)
Theorem forced_tasks_stay_out_of_table now clk records st_final :
  resolve_state now clk records = Ok st_final ->
  exists st u n forced,
    passes now max_passes (mkState ∅ [] clk) records = Ok (st, u, n)
    /\ tasks st_final = tasks st ++ forced
    /\ Forall2 (forced_from (min_start (tasks st) (now (clock st)))) u forced
    /\ id_to_task st_final = id_to_task st
    /\ (forall k, id_to_task st_final !! k = last_with_id k (tasks st))
    /\ (forall B x,
          B ∈ records -> after_ref (start_raw B) = Some x ->
          (forall t, t ∈ tasks st -> task_id t <> x) ->
          B ∈ u
          /\ exists TB, TB ∈ forced
               /\ forced_from (min_start (tasks st) (now (clock st))) B TB
               /\ task_start TB = min_start (tasks st) (now (clock st))).
Proof.
  intros H.
  apply resolve_state_spec in H as (st & u & n & forced & Hp & Ht & Htab & HF).
  exists st, u, n, forced.
  assert (Hok : table_ok st).
  { eapply passes_table_ok; [exact Hp|]. apply table_ok_init. }
  repeat (split; [done|]). split.
  { intros k. rewrite Htab. apply Hok. }
  intros B x HB Href Hno.
  assert (Hnone : id_to_task st !! x = None).
  { rewrite Hok. unfold last_with_id.
    destruct (find _ _) as [t|] eqn:Hfind; [|done]. exfalso.
    apply find_some in Hfind as [Hin Heq].
    apply String.eqb_eq in Heq. apply (Hno t); [|done].
    apply list_elem_of_In. by apply in_rev. }
  assert (Hu : B ∈ u) by (eapply passes_deferred; eauto).
  split; [done|].
  destruct (proj1 (list_elem_of_lookup u B) Hu) as [i Hi].
  destruct (Forall2_lookup_l _ _ _ _ _ HF Hi) as (TB & HTB & Hfrom).
  exists TB. split; [by eapply list_elem_of_lookup_2|]. split; [done|].
  destruct Hfrom as (m & _ & ->). reflexivity.
Qed.

Lemma forced_tasks_stay_out_of_table_witness :
  exists st u n forced,
    passes (fun _ => 0) max_passes (mkState ∅ [] 0)
      [ mkRaw "A" "a1" "after zz" "5d" None; mkRaw "B" "a2" "after a1" "3d" None;
        mkRaw "C" "a3" "2024-01-01" "2d" None ] = Ok (st, u, n)
    /\ tasks (mkState {[ "a3" := mkTask "C" "a3" (738886 * DT.DAY_US) 2 None ]}
                [ mkTask "C" "a3" (738886 * DT.DAY_US) 2 None;
                  mkTask "A" "a1" (738886 * DT.DAY_US) 5 None;
                  mkTask "B" "a2" (738886 * DT.DAY_US) 3 None ] 1)
       = tasks st ++ forced.
Proof.
  destruct (forced_tasks_stay_out_of_table (fun _ => 0) 0%nat
     [ mkRaw "A" "a1" "after zz" "5d" None; mkRaw "B" "a2" "after a1" "3d" None;
       mkRaw "C" "a3" "2024-01-01" "2d" None ]
     (mkState {[ "a3" := mkTask "C" "a3" (738886 * DT.DAY_US) 2 None ]}
                [ mkTask "C" "a3" (738886 * DT.DAY_US) 2 None;
                  mkTask "A" "a1" (738886 * DT.DAY_US) 5 None;
                  mkTask "B" "a2" (738886 * DT.DAY_US) 3 None ] 1))
    as (st & u & n & forced & Hp & Ht & _).
  - vm_compute. reflexivity.
  - exists st, u, n, forced. split; [exact Hp|exact Ht].
Defined.

(** ** C2: "after" references, a forced target and a pair *)


Section AfterPair.

Variable now : nat -> Z.
Variables (clk : nat) (A B : RawTask) (lit : string) (D e nA nB : Z).

Hypothesis A_date : DATE_RE_search (start_raw A) = Some lit.
Hypothesis A_start : DT.fromisoformat (Py.replace "/" "-" lit) = Ok D.
Hypothesis A_length : parse_length (len_raw A) D = Ok nA.
Hypothesis B_after : after_ref (start_raw B) = Some (Py.strip (raw_id A)).
Hypothesis A_end : DT.add_days D (Z.max 1 nA) = Ok e.
Hypothesis B_length : parse_length (len_raw B) e = Ok nB.

Let TA := Task_init (raw_name A) (raw_id A) D (Z.max 1 nA) (raw_section A).
Let TB := Task_init (raw_name B) (raw_id B) e (Z.max 1 nB) (raw_section B).

Lemma step_dated st rem pr :
  pass_step now (st, rem, pr) A
  = Ok (mkState (<[task_id TA := TA]> (id_to_task st)) (tasks st ++ [TA]) (clock st),
        rem, true).
Proof.
  unfold pass_step, resolve_start. rewrite A_date, A_start. cbn [bind].
  rewrite A_length. reflexivity.
Qed.

Lemma step_after st rem pr :
  id_to_task st !! Py.strip (raw_id A) = Some TA ->
  pass_step now (st, rem, pr) B
  = Ok (mkState (<[task_id TB := TB]> (id_to_task st)) (tasks st ++ [TB]) (clock st),
        rem, true).
Proof.
  intros Htab. unfold pass_step.
  rewrite (resolve_start_after now _ _ _ B_after), Htab.
  unfold Task_end. cbn [TA Task_init task_start length_days].
  rewrite A_end. cbn [bind]. rewrite B_length. reflexivity.
Qed.

(** A dated task followed by a reference to it, and the same two records
    in the opposite order (a forward reference, resolved in the second
    pass): in both cases the second task starts where the first ends. *)
Lemma after_pair_resolves :
  resolve now clk [A; B] = Ok [TA; TB]
  /\ resolve now clk [B; A] = Ok [TA; TB]
  /\ task_start TB = task_start TA + length_days TA * DT.DAY_US.
Proof.
  split; [|split].
  - unfold resolve, resolve_state, max_passes. cbn [passes]. unfold run_pass.
    cbn [pass_loop]. rewrite step_dated. cbn [bind].
    rewrite step_after by (cbn [id_to_task]; apply lookup_insert_eq).
    reflexivity.
  - unfold resolve, resolve_state, max_passes. cbn [passes]. unfold run_pass.
    cbn [pass_loop]. unfold pass_step at 1.
    rewrite (resolve_start_after now _ _ _ B_after). cbn [id_to_task].
    rewrite lookup_empty. cbn [bind]. rewrite step_dated. cbn [bind app pass_loop].
    rewrite step_after by (cbn [id_to_task]; apply lookup_insert_eq).
    reflexivity.
  - cbn [TA TB Task_init task_start length_days]. revert A_end. unfold DT.add_days.
    destruct (Z.abs _ <=? _); [|discriminate].
    destruct (DT.in_range _); [|discriminate]. by intros [= <-].
Qed.

End AfterPair.

Lemma after_pair_resolves_witness :
  resolve (fun _ => 0) 0
    [ mkRaw "Task B" "a2" "after a1" "3d" (Some "S1");
      mkRaw "Task A" "a1" "2024-01-01" "5d" (Some "S1") ]
  = Ok spec_scenario_tasks_list.
Proof.
  refine (proj1 (proj2 (after_pair_resolves (fun _ => 0) 0%nat
            (mkRaw "Task A" "a1" "2024-01-01" "5d" (Some "S1"))
            (mkRaw "Task B" "a2" "after a1" "3d" (Some "S1"))
            "2024-01-01" (738886 * DT.DAY_US) (738891 * DT.DAY_US) 5 3 _ _ _ _ _ _)));
    vm_compute; reflexivity.
Defined.

(** ** C6: length parsing *)

Lemma parse_length_iff s start_dt n :
  parse_length s start_dt = Ok n <-> length_case (Py.strip s) start_dt n.
Proof.
  unfold parse_length. split.
  - destruct (Py.endswith_char (Py.strip s) "d") eqn:Hd.
    { intros H. by apply length_days_suffix. }
    destruct (Py.endswith_char (Py.strip s) "w") eqn:Hw.
    { intros H. inv_bind H. injection H as <-. by apply length_weeks_suffix. }
    destruct (DATE_RE_search (Py.strip s)) as [lit|] eqn:Hlit.
    { intros H. inv_bind H. injection H as <-. by eapply length_end_date. }
    destruct (Py.int (Py.strip s)) as [m|err] eqn:Hint; intros [= <-].
    + by apply length_bare_integer.
    + apply length_unparseable; try done. by rewrite Hint.
  - intros [m Hd Hint|m Hd Hw Hint|lit end_dt Hd Hw Hlit Hiso|m Hd Hw Hlit Hint
            |Hd Hw Hlit Hint].
    + by rewrite Hd.
    + by rewrite Hd, Hw, Hint.
    + by rewrite Hd, Hw, Hlit, Hiso.
    + by rewrite Hd, Hw, Hlit, Hint.
    + rewrite Hd, Hw, Hlit. by destruct (Py.int (Py.strip s)).
Qed.

Lemma parse_length_Raise s start_dt e :
  parse_length s start_dt = Raise e <->
  (Py.endswith_char (Py.strip s) "d" = true
   /\ Py.int (Py.drop_last (Py.strip s)) = Raise e)
  \/ (Py.endswith_char (Py.strip s) "d" = false
      /\ Py.endswith_char (Py.strip s) "w" = true
      /\ Py.int (Py.drop_last (Py.strip s)) = Raise e)
  \/ (Py.endswith_char (Py.strip s) "d" = false
      /\ Py.endswith_char (Py.strip s) "w" = false
      /\ exists lit, DATE_RE_search (Py.strip s) = Some lit
                     /\ DT.fromisoformat (Py.replace "/" "-" lit) = Raise e).
Proof.
  unfold parse_length.
  destruct (Py.endswith_char (Py.strip s) "d") eqn:Hd.
  { split; [by left|]. by intros [[_ H]|[[[=] _]|[[=] _]]]. }
  destruct (Py.endswith_char (Py.strip s) "w") eqn:Hw.
  { destruct (Py.int (Py.drop_last (Py.strip s))) as [m|err]; cbn [bind].
    - split; [done|]. by intros [[[=] _]|[(_ & _ & [=])|(_ & [=] & _)]].
    - split; [intros [= <-]; right; by left|].
      by intros [[[=] _]|[(_ & _ & H)|(_ & [=] & _)]]. }
  destruct (DATE_RE_search (Py.strip s)) as [lit|] eqn:Hlit.
  { destruct (DT.fromisoformat (Py.replace "/" "-" lit)) as [d|err] eqn:Hiso; cbn [bind].
    - split; [done|].
      intros [[[=] _]|[(_ & [=] & _)|(_ & _ & lit' & [= <-] & H)]]. congruence.
    - split; [intros [= <-]; right; right; eauto|].
      intros [[[=] _]|[(_ & [=] & _)|(_ & _ & lit' & [= <-] & H)]]. congruence. }
  split.
  - by destruct (Py.int (Py.strip s)).
  - by intros [[[=] _]|[(_ & [=] & _)|(_ & _ & lit' & [=] & _)]].
Qed.

(** C6 (the code departs from the claim): a field that is no length at
    all but ends in [d] or [w], such as [tbd] or [weekend], or one that
    holds a date-shaped token that is no date, does not give 1:
    [parse_length] raises [ValueError] and the resolver returns no task.
    [parse_length] returns [n] exactly in these cases, taken in this
    order on the stripped field: trailing [d] after an integer gives that
    integer; trailing [w] gives the integer times 7; an embedded date
    literal gives the whole days from the start to that date; a bare
    integer gives itself; a field of none of these shapes, without a
    trailing [d] or [w] and without a date-shaped token, gives 1.  It
    raises exactly when the text before a trailing [d] or [w] is no
    integer or a date-shaped token is no date.  The duration of the task
    is the returned value floored to 1.  In particular [2w] gives 14,
    [2024-01-10] from 2024-01-01 gives 9, and [xyz] gives 1. *)
Theorem length_parsing_cases :
  (forall s start_dt n,
      parse_length s start_dt = Ok n <-> length_case (Py.strip s) start_dt n)
  /\ (forall s start_dt e,
        parse_length s start_dt = Raise e <->
        (Py.endswith_char (Py.strip s) "d" = true
         /\ Py.int (Py.drop_last (Py.strip s)) = Raise e)
        \/ (Py.endswith_char (Py.strip s) "d" = false
            /\ Py.endswith_char (Py.strip s) "w" = true
            /\ Py.int (Py.drop_last (Py.strip s)) = Raise e)
        \/ (Py.endswith_char (Py.strip s) "d" = false
            /\ Py.endswith_char (Py.strip s) "w" = false
            /\ exists lit, DATE_RE_search (Py.strip s) = Some lit
                           /\ DT.fromisoformat (Py.replace "/" "-" lit) = Raise e))
  /\ (forall start_dt,
        parse_length "tbd" start_dt = Raise (ValueError_int "tb")
        /\ parse_length "weekend" start_dt = Raise (ValueError_int "weeken")
        /\ parse_length "2.5d" start_dt = Raise (ValueError_int "2.5")
        /\ parse_length "1.5w" start_dt = Raise (ValueError_int "1.5")
        /\ parse_length "2024-13-45" start_dt = Raise (ValueError_isoformat "2024-13-45"))
  /\ (forall now clk,
        parse_mermaid now clk ("gantt" +:+ String Re.newline "A :a1, 2024-01-01, tbd")
        = Raise (ValueError_int "tb"))
  /\ (forall now clk r lit D n,
        DATE_RE_search (start_raw r) = Some lit ->
        DT.fromisoformat (Py.replace "/" "-" lit) = Ok D ->
        parse_length (len_raw r) D = Ok n ->
        resolve now clk [r]
        = Ok [Task_init (raw_name r) (raw_id r) D (Z.max 1 n) (raw_section r)])
  /\ (forall start_dt,
        parse_length "2w" start_dt = Ok 14
        /\ parse_length "5d" start_dt = Ok 5
        /\ parse_length "12" start_dt = Ok 12
        /\ parse_length "xyz" start_dt = Ok 1)
  /\ parse_length "2024-01-10" (738886 * DT.DAY_US) = Ok 9
  /\ (forall now clk,
        resolve now clk [ mkRaw "A" "a1" "2024-01-01" "2024-01-10" None;
                          mkRaw "B" "a2" "2024-01-01" "2w" None;
                          mkRaw "C" "a3" "2024-01-01" "xyz" None;
                          mkRaw "D" "a4" "2024-01-01" "0d" None;
                          mkRaw "E" "a5" "2024-01-01" "-3" None ]
        = Ok [ mkTask "A" "a1" (738886 * DT.DAY_US) 9 None;
               mkTask "B" "a2" (738886 * DT.DAY_US) 14 None;
               mkTask "C" "a3" (738886 * DT.DAY_US) 1 None;
               mkTask "D" "a4" (738886 * DT.DAY_US) 1 None;
               mkTask "E" "a5" (738886 * DT.DAY_US) 1 None ]).
Proof.
  split; [exact parse_length_iff|]. split; [exact parse_length_Raise|].
  split; [intros start_dt; repeat split; vm_compute; reflexivity|].
  split; [intros now clk; vm_compute; reflexivity|].
  split.
  { intros now clk r lit D n Hlit HD Hn.
    unfold resolve, resolve_state, max_passes. cbn [passes]. unfold run_pass.
    cbn [pass_loop]. unfold pass_step, resolve_start. rewrite Hlit, HD.
    cbn [bind]. rewrite Hn. reflexivity. }
  split; [intros start_dt; repeat split; vm_compute; reflexivity|].
  split; [vm_compute; reflexivity|].
  intros now clk. vm_compute. reflexivity.
Qed.

Lemma length_parsing_cases_witness :
  resolve (fun _ => 0) 0 [mkRaw "A" "a1" "2024/01/01" "3w" (Some "S")]
  = Ok [Task_init "A" "a1" (738886 * DT.DAY_US) (Z.max 1 21) (Some "S")].
Proof.
  refine (proj1 (proj2 (proj2 (proj2 (proj2 length_parsing_cases)))) (fun _ => 0) 0%nat
            (mkRaw "A" "a1" "2024/01/01" "3w" (Some "S")) "2024/01/01"
            (738886 * DT.DAY_US) 21 _ _ _); vm_compute; reflexivity.
Defined.

(** ** C7: section lines *)

Lemma rstrip_by_idem p s : Py.rstrip_by p (Py.rstrip_by p s) = Py.rstrip_by p s.
Proof.
  induction s as [|c s IH]; simpl; [done|].
  destruct (Py.is_empty (Py.rstrip_by p s) && p c)%bool eqn:Hc; simpl; [done|].
  by rewrite IH, Hc.
Qed.

Lemma lstrip_rstrip_comm p s :
  Py.lstrip_by p (Py.rstrip_by p s) = Py.rstrip_by p (Py.lstrip_by p s).
Proof.
  induction s as [|c s IH]; simpl; [done|].
  destruct (p c) eqn:Hp.
  - destruct (Py.rstrip_by p s) eqn:Hr; simpl.
    + by rewrite <- IH.
    + rewrite Hp. by rewrite <- IH.
  - rewrite andb_false_r. simpl. by rewrite Hp, andb_false_r.
Qed.

(** Stripping the right end first does not change the stripped line. *)
Lemma strip_rstrip s : Py.strip (Py.rstrip s) = Py.strip s.
Proof.
  unfold Py.strip, Py.rstrip, Py.strip_by.
  by rewrite lstrip_rstrip_comm, rstrip_by_idem.
Qed.

Lemma prefix_cons a p b s :
  String.prefix (String a p) (String b s) = true -> a = b /\ String.prefix p s = true.
Proof. cbn [String.prefix]. destruct (ascii_dec a b); [auto|discriminate]. Qed.

(** A line that begins with [section] is neither blank nor a comment. *)
Lemma section_not_blank_or_comment s :
  Py.startswith (Py.lower s) "section" = true ->
  Py.is_empty s = false /\ Py.startswith s "%%" = false.
Proof.
  destruct s as [|c s]; [discriminate|]. unfold Py.startswith. cbn [Py.lower].
  intros H. apply prefix_cons in H as [Hc _]. split; [done|].
  destruct (String.prefix "%%" (String c s)) eqn:Hp; [|done].
  apply prefix_cons in Hp as [<- _]. revert Hc. vm_compute. discriminate.
Qed.

(** A continuation that fails on every colon-free rest makes the item
    before it fail on a colon-free string. *)
Lemma greedy_no_colon c min k s : forall count taken,
  (forall taken' rest, no_colon rest = true -> k taken' rest = None) ->
  no_colon s = true -> greedy c min count taken k s = None.
Proof.
  induction s as [|a s IH]; intros count taken Hk Hs; simpl.
  - destruct (Nat.leb min count); [by apply Hk|done].
  - assert (Hstop : (if Nat.leb min count then k taken (String a s) else None) = None).
    { destruct (Nat.leb min count); [|done]. by apply Hk. }
    simpl in Hs. apply andb_true_iff in Hs as [_ Hs'].
    destruct (c a); [|done]. by rewrite IH.
Qed.

(** The task pattern needs a colon: a line without one is no task line. *)
Lemma no_colon_not_task line :
  no_colon line = true -> re_match TASK_RE line = None.
Proof.
  intros Hline. unfold re_match, TASK_RE. cbn [match_items qt cls grp].
  apply greedy_no_colon; [|done]. intros t1 r1 Hr1.
  apply greedy_no_colon; [|done]. intros t2 r2 Hr2.
  apply greedy_no_colon; [|done]. intros t3 r3 Hr3.
  cbn [exactly]. destruct r3 as [|a r3]; [done|].
  simpl in Hr3. apply andb_true_iff in Hr3 as [Ha _].
  unfold is_char. by destruct (Ascii.eqb a ":").
Qed.

(** C7 as stated fails: a section line whose name holds a colon and two
    commas matches the task pattern, which is tried first; it is
    collected as a task record and the active section stays as it was. *)
Lemma section_line_with_colon_counterexample :
  Py.startswith (Py.lower (Py.strip "section Phase 1: design, build, ship")) "section" = true
  /\ scan_line (mkScan true (Some "S1") []) "section Phase 1: design, build, ship"
     = mkScan true (Some "S1")
         [mkRaw "section Phase 1" "design" "build" "ship" (Some "S1")].
Proof. split; vm_compute; reflexivity. Qed.

(** A line without a colon keeps none after [rstrip]. *)
Lemma no_colon_rstrip line : no_colon line = true -> no_colon (Py.rstrip line) = true.
Proof.
  unfold Py.rstrip. induction line as [|c s IH]; simpl; [done|].
  intros Hcol. apply andb_true_iff in Hcol as [Hc Hs].
  destruct (Py.is_empty _ && _)%bool; [done|]. simpl. by rewrite Hc, IH.
Qed.

(** In particular every section line without a colon is a section line. *)
Lemma section_line_without_colon st line :
  in_gantt st = true ->
  Py.startswith (Py.lower (Py.strip line)) "section" = true ->
  no_colon line = true ->
  scan_line st line
  = mkScan true (Some (Py.strip (Py.drop 7 (Py.strip line)))) (raw_tasks st).
Proof.
  intros Hin Hsec Hcol. unfold scan_line.
  rewrite Hin, strip_rstrip, Hsec, (no_colon_not_task _ (no_colon_rstrip _ Hcol)).
  cbn [negb]. destruct (section_not_blank_or_comment _ Hsec) as [-> ->]. reflexivity.
Qed.

Lemma section_line_without_colon_witness :
  scan_line (mkScan true None []) "section Design, build"
  = mkScan true (Some "Design, build") [].
Proof.
  refine (section_line_without_colon (mkScan true None []) "section Design, build" _ _ _);
    vm_compute; reflexivity.
Defined.

(** ** Layout: dates, minima and maxima *)

Lemma add_days_Ok t n r :
  DT.add_days t n = Ok r ->
  r = t + n * DT.DAY_US /\ representable r /\ Z.abs n <= DT.MAX_DELTA_DAYS.
Proof.
  unfold DT.add_days, representable.
  destruct (Z.leb_spec (Z.abs n) DT.MAX_DELTA_DAYS); [|discriminate].
  destruct (DT.in_range _) eqn:Hr; [|discriminate]. intros [= <-]. done.
Qed.

Lemma add_days_Raise t n err : DT.add_days t n = Raise err -> err = OverflowError.
Proof.
  unfold DT.add_days. destruct (_ <=? _); [|by intros [= <-]].
  destruct (DT.in_range _); [discriminate|by intros [= <-]].
Qed.

Lemma add_days_in_range t n :
  Z.abs n <= DT.MAX_DELTA_DAYS -> representable (t + n * DT.DAY_US) ->
  DT.add_days t n = Ok (t + n * DT.DAY_US).
Proof.
  unfold DT.add_days, representable. intros Hn ->.
  by destruct (Z.leb_spec (Z.abs n) DT.MAX_DELTA_DAYS); [|lia].
Qed.

Lemma representable_bounds t :
  representable t <-> DT.DAY_US <= t < (DT.MAXORDINAL + 1) * DT.DAY_US.
Proof.
  unfold representable, DT.in_range. rewrite andb_true_iff, Z.leb_le, Z.ltb_lt. tauto.
Qed.

Lemma fold_min_spec l : forall x,
  is_min_of (fold_left Z.min l x) (x :: l).
Proof.
  induction l as [|y l IH]; intros x; simpl.
  - split; [by left|]. constructor; [lia|constructor].
  - destruct (IH (Z.min x y)) as [Hin Hall]. split.
    + destruct Hin as [Heq|Hin]; [|by right; right].
      rewrite <- Heq. destruct (Z.min_spec x y) as [[_ ->]|[_ ->]]; [by left|by right; left].
    + apply Forall_cons in Hall as [Hm Hall].
      constructor; [lia|]. constructor; [lia|done].
Qed.

(** [max_end] succeeds exactly when every end is a date, and then gives
    the greatest of the running maximum and the ends. *)
Lemma max_end_spec ts : forall cur m,
  max_end cur ts = Ok m ->
  is_max_of m (cur :: map end_date ts)
  /\ Forall (fun t => Task_end t = Ok (end_date t)) ts.
Proof.
  induction ts as [|t ts IH]; simpl; intros cur m H.
  - injection H as <-. split; [|constructor]. split; [by left|].
    constructor; [lia|constructor].
  - inv_bind H. apply IH in H as [[Hin Hall] Hends].
    destruct (add_days_Ok _ _ _ Ha) as (He & _ & _). fold (end_date t) in He. subst a.
    apply Forall_cons in Hall as [Hm Hall]. split; [split|].
    + destruct Hin as [Heq|Hin]; [|by right; right].
      rewrite <- Heq.
      destruct (Z.max_spec cur (end_date t)) as [[_ ->]|[_ ->]]; [by right; left|by left].
    + constructor; [lia|]. constructor; [lia|done].
    + by constructor.
Qed.

Lemma max_end_ok ts : forall cur,
  Forall (fun t => is_ok (Task_end t) = true) ts -> exists m, max_end cur ts = Ok m.
Proof.
  induction ts as [|t ts IH]; intros cur Hall; simpl; [eauto|].
  apply Forall_cons in Hall as [Ht Hall].
  destruct (Task_end t) as [e|]; [|discriminate]. simpl. by apply IH.
Qed.

Lemma max_end_Raise ts : forall cur err,
  max_end cur ts = Raise err ->
  err = OverflowError /\ Exists (fun t => is_ok (Task_end t) = false) ts.
Proof.
  induction ts as [|t ts IH]; simpl; intros cur err H; [discriminate|].
  destruct (Task_end t) as [e|err'] eqn:He; simpl in H.
  - apply IH in H as [-> Hex]. split; [done|]. by apply Exists_cons_tl.
  - injection H as <-. split; [by eapply add_days_Raise|].
    apply Exists_cons_hd. by rewrite He.
Qed.

(** ** Layout: the tick offsets *)

Lemma range_step_In stop step d :
  0 < step ->
  In d (range_step stop step) <-> 0 <= d < stop /\ d mod step = 0.
Proof.
  intros Hstep. unfold range_step. rewrite in_map_iff. split.
  - intros (k & <- & Hk). apply in_seq in Hk.
    assert (Hlt : Z.of_nat k < (stop + step - 1) / step) by lia.
    split; [|by apply Z.mod_mul; lia].
    split; [lia|].
    assert (Z.of_nat k + 1 <= (stop + step - 1) / step) by lia.
    assert (step * ((stop + step - 1) / step) <= stop + step - 1)
      by (apply Z.mul_div_le; lia).
    nia.
  - intros [[Hd0 Hd] Hmod]. exists (Z.to_nat (d / step)).
    assert (Hds : d = step * (d / step)) by (apply Z.div_exact; lia).
    assert (0 <= d / step) by (apply Z.div_pos; lia).
    split; [rewrite Z2Nat.id by done; lia|].
    apply in_seq. split; [lia|]. simpl.
    apply Z2Nat.inj_lt; [done| |].
    + apply Z.div_pos; lia.
    + apply Z.div_lt_upper_bound; [lia|].
      assert (stop + step - 1 < step * ((stop + step - 1) / step) + step).
      { pose proof (Z.mod_pos_bound (stop + step - 1) step Hstep).
        pose proof (Z.div_mod (stop + step - 1) step). lia. }
      lia.
Qed.

Lemma range_step_NoDup stop step : 0 < step -> NoDup (range_step stop step).
Proof.
  intros Hstep. unfold range_step. apply NoDup_fmap_2.
  - intros a b Hab. nia.
  - apply NoDup_seq.
Qed.

Lemma range_step_head stop step :
  0 < step -> 1 <= stop -> exists rest, range_step stop step = 0 :: rest.
Proof.
  intros Hstep Hstop. unfold range_step.
  assert (1 <= (stop + step - 1) / step) by (apply Z.div_le_lower_bound; lia).
  destruct (Z.to_nat ((stop + step - 1) / step)) as [|k] eqn:Hk; [lia|].
  simpl. eauto.
Qed.

(** ** Layout: grouping keeps every task as one row *)

Lemma rows_of_insert_fresh (g : gmap (option string) (list Task)) o s v :
  s ∉ o -> rows_of (<[s := v]> g) o = rows_of g o.
Proof.
  unfold rows_of. induction o as [|s0 o IH]; simpl; intros Hs; [done|].
  apply not_elem_of_cons in Hs as [Hne Hs].
  rewrite lookup_insert_ne by done. by rewrite IH.
Qed.

Lemma rows_of_insert_length (g : gmap (option string) (list Task)) o s v t :
  NoDup o -> s ∈ o -> g !! s = Some v ->
  length (rows_of (<[s := v ++ [t]]> g) o) = S (length (rows_of g o)).
Proof.
  induction o as [|s0 o IH]; intros Hnd Hin Hv.
  - by apply elem_of_nil in Hin.
  - apply NoDup_cons in Hnd as [Hs0 Hnd].
    change (rows_of ?g' (s0 :: o))
      with (map (fun t => (t, s0)) (default [] (g' !! s0)) ++ rows_of g' o).
    rewrite !length_app, !length_map.
    destruct (decide (s0 = s)) as [->|Hne].
    + rewrite lookup_insert_eq, Hv, rows_of_insert_fresh by done.
      simpl. rewrite length_app. simpl. lia.
    + rewrite lookup_insert_ne by done.
      apply elem_of_cons in Hin as [Heq|Hin]; [congruence|].
      rewrite IH by done. lia.
Qed.

Lemma rows_of_app (g : gmap (option string) (list Task)) o1 o2 :
  rows_of g (o1 ++ o2) = rows_of g o1 ++ rows_of g o2.
Proof. unfold rows_of. apply flat_map_app. Qed.

Lemma group_step_inv acc n t : group_inv acc n -> group_inv (group_step acc t) (S n).
Proof.
  destruct acc as [g o]. intros (Hnd & Hdom & Hlen). simpl in *.
  unfold group_step. destruct (g !! task_section t) as [v|] eqn:Hv.
  - rewrite Hv. unfold group_inv. cbn [fst snd default]. split; [done|]. split.
    + intros s. rewrite Hdom. destruct (decide (task_section t = s)) as [<-|Hne].
      * rewrite lookup_insert_eq, Hv. split; eauto.
      * by rewrite lookup_insert_ne.
    + rewrite rows_of_insert_length; [lia|done| |done].
      apply Hdom. eauto.
  - rewrite lookup_insert_eq, insert_insert_eq. unfold group_inv.
    cbn [fst snd default app].
    assert (Hfresh : task_section t ∉ o).
    { intros Hin. apply Hdom in Hin as [v' Hv']. congruence. }
    split; [|split].
    + apply NoDup_app. split; [done|]. split; [|apply NoDup_singleton].
      intros s Hs Hs'. apply list_elem_of_singleton in Hs'. by subst.
    + intros s. rewrite elem_of_app, list_elem_of_singleton, Hdom.
      destruct (decide (task_section t = s)) as [<-|Hne].
      * rewrite lookup_insert_eq. split; eauto.
      * rewrite lookup_insert_ne by done. split; [|tauto].
        intros [H|H]; [done|congruence].
    + rewrite rows_of_app, length_app, rows_of_insert_fresh by done.
      unfold rows_of at 2. simpl. rewrite lookup_insert_eq. simpl. lia.
Qed.

Lemma group_fold_inv ts : forall acc n,
  group_inv acc n -> group_inv (fold_left group_step ts acc) (n + length ts).
Proof.
  induction ts as [|t ts IH]; simpl; intros acc n Hinv.
  - by rewrite Nat.add_0_r.
  - replace (n + S (length ts))%nat with (S n + length ts)%nat by lia.
    apply IH. by apply group_step_inv.
Qed.

(** The rows are as many as the tasks. *)
Lemma group_tasks_rows ts :
  length (rows_of (group_tasks ts).1 (group_tasks ts).2) = length ts.
Proof.
  unfold group_tasks.
  destruct (group_fold_inv ts (∅, []) 0) as (_ & _ & Hlen); [|exact Hlen].
  split; [constructor|]. split; [|done].
  intros s. simpl. rewrite lookup_empty. split; [by intros ?%elem_of_nil|by intros [? ?]].
Qed.

(** ** Floats: exact and finite results *)

Lemma bit_length_le m n : 0 <= n -> Z.abs m < 2 ^ n -> Float.bit_length m <= n.
Proof.
  intros Hn Hm. unfold Float.bit_length. destruct (Z.eqb_spec m 0) as [->|Hne]; [done|].
  assert (Z.log2 (Z.abs m) < n); [|lia]. apply Z.log2_lt_pow2; lia.
Qed.

Lemma bit_length_nonneg m : 0 <= Float.bit_length m.
Proof.
  unfold Float.bit_length. destruct (m =? 0); [done|].
  pose proof (Z.log2_nonneg (Z.abs m)). lia.
Qed.

Lemma lt_pow2_bit_length m : Z.abs m < 2 ^ Float.bit_length m.
Proof.
  unfold Float.bit_length. destruct (Z.eqb_spec m 0) as [->|Hne]; [done|].
  destruct (Z.log2_spec (Z.abs m)) as [_ H]; [lia|]. by rewrite <- Z.add_1_r in H.
Qed.

(** A value of at most 53 bits is a float. *)
Lemma round_exact m e :
  Z.abs m < 2 ^ 53 -> e <= 0 -> Float.round m e = Some (Float.mk m e).
Proof.
  intros Hm He. pose proof (bit_length_le m 53 ltac:(done) Hm) as Hb.
  unfold Float.round, Float.PREC, Float.EMAX.
  destruct (Z.ltb_spec 0 (Float.bit_length m - 53)) as [?|_]; [lia|].
  cbn [Float.mant Float.expo].
  destruct (Z.leb_spec (Float.bit_length m + e) 1024) as [_|?]; [done|lia].
Qed.

(** Rounding adds at most one to the binary order of magnitude. *)
Lemma round_half_even_bound m k :
  0 < k -> Z.abs m < 2 ^ (k + 53) -> Z.abs (Float.round_half_even m k) <= 2 ^ 53.
Proof.
  intros Hk Hm. unfold Float.round_half_even.
  assert (Hpos : 0 < 2 ^ k) by (apply Z.pow_pos_nonneg; lia).
  rewrite Z.pow_add_r in Hm by lia.
  assert (Hq : - 2 ^ 53 <= m / 2 ^ k < 2 ^ 53).
  { split.
    - apply Z.div_le_lower_bound; [done|]. lia.
    - apply Z.div_lt_upper_bound; [done|]. lia. }
  repeat match goal with |- context [if ?b then _ else _] => destruct b end; lia.
Qed.

Lemma round_finite m e n :
  Float.bit_length m + e <= n -> n < 1024 ->
  exists r, Float.round m e = Some r
            /\ Float.bit_length (Float.mant r) + Float.expo r <= n + 1
            /\ e <= Float.expo r.
Proof.
  intros Hn Hmax. unfold Float.round, Float.PREC, Float.EMAX.
  destruct (Z.ltb_spec 0 (Float.bit_length m - 53)) as [Hk|Hk]; cbn [Float.mant Float.expo].
  - assert (Hb : Float.bit_length (Float.round_half_even m (Float.bit_length m - 53)) <= 54).
    { apply bit_length_le; [done|].
      assert (Z.abs (Float.round_half_even m (Float.bit_length m - 53)) <= 2 ^ 53); [|lia].
      apply round_half_even_bound; [done|].
      replace (Float.bit_length m - 53 + 53) with (Float.bit_length m) by lia.
      apply lt_pow2_bit_length. }
    destruct (Z.leb_spec (Float.bit_length (Float.round_half_even m (Float.bit_length m - 53))
                          + (e + (Float.bit_length m - 53))) 1024); [|lia].
    eexists. split; [done|]. cbn [Float.mant Float.expo]. lia.
  - destruct (Z.leb_spec (Float.bit_length m + e) 1024); [|lia].
    eexists. split; [done|]. cbn [Float.mant Float.expo]. lia.
Qed.

Lemma scaled_lt_pow2 m d n :
  0 <= d -> Float.bit_length m + d <= n -> Z.abs (m * 2 ^ d) < 2 ^ n.
Proof.
  intros Hd Hn. pose proof (lt_pow2_bit_length m) as Hm.
  pose proof (bit_length_nonneg m) as Hb.
  rewrite Z.abs_mul, (Z.abs_eq (2 ^ d)) by (apply Z.pow_nonneg; lia).
  assert (Hp : 0 < 2 ^ d) by (apply Z.pow_pos_nonneg; lia).
  apply Z.lt_le_trans with (2 ^ Float.bit_length m * 2 ^ d); [nia|].
  rewrite <- Z.pow_add_r by lia. apply Z.pow_le_mono_r; lia.
Qed.

Lemma add_finite a b n :
  Float.bit_length (Float.mant a) + Float.expo a <= n ->
  Float.bit_length (Float.mant b) + Float.expo b <= n ->
  n + 1 < 1024 ->
  exists r, Float.add a b = Some r.
Proof.
  intros Ha Hb Hn. unfold Float.add.
  set (e := Z.min (Float.expo a) (Float.expo b)).
  destruct (round_finite (Float.mant a * 2 ^ (Float.expo a - e)
                          + Float.mant b * 2 ^ (Float.expo b - e)) e (n + 1))
    as (r & -> & _); [|lia|eauto].
  assert (H1 : Z.abs (Float.mant a * 2 ^ (Float.expo a - e)) < 2 ^ (n - e))
    by (apply scaled_lt_pow2; lia).
  assert (H2 : Z.abs (Float.mant b * 2 ^ (Float.expo b - e)) < 2 ^ (n - e))
    by (apply scaled_lt_pow2; lia).
  pose proof (bit_length_nonneg (Float.mant a)). 
  assert (Float.bit_length (Float.mant a * 2 ^ (Float.expo a - e)
                            + Float.mant b * 2 ^ (Float.expo b - e)) <= n - e + 1); [|lia].
  apply bit_length_le; [lia|]. rewrite Z.pow_add_r by lia. lia.
Qed.

Lemma label_y_Raise task_height y h err :
  label_y task_height y h = Raise err -> err = OverflowError.
Proof.
  unfold label_y, Float.int_truediv_2, Float.of_int, Float.to_int.
  destruct (Float.round (h - task_height) (-1)); cbn [bind]; [|by intros [= <-]].
  destruct (Float.round y 0); cbn [bind]; [|by intros [= <-]].
  destruct (Float.add _ _); [discriminate|by intros [= <-]].
Qed.

(** Below 2^53 the float computation of the label position is exact. *)
Lemma label_y_exact task_height y h :
  Z.abs y < 2 ^ 53 -> Z.abs (h - task_height) < 2 ^ 53 ->
  Z.abs (2 * y + (h - task_height)) < 2 ^ 53 ->
  label_y task_height y h = Ok (Z.quot (2 * y + (h - task_height)) 2).
Proof.
  intros Hy Hh Hs. unfold label_y, Float.int_truediv_2, Float.of_int, Float.to_int.
  rewrite (round_exact (h - task_height) (-1)) by done. cbn [bind].
  rewrite (round_exact y 0) by done. cbn [bind].
  unfold Float.add. cbn [Float.mant Float.expo].
  change (Z.min 0 (-1)) with (-1). change (2 ^ (0 - -1)) with 2. change (2 ^ (-1 - -1)) with 1.
  replace (y * 2 + (h - task_height) * 1) with (2 * y + (h - task_height)) by ring.
  rewrite round_exact by done. reflexivity.
Qed.

(** Far below 2^1024 it returns. *)
Lemma label_y_ok task_height y h :
  Z.abs y < 2 ^ 1020 -> Z.abs (h - task_height) < 2 ^ 1020 ->
  exists v, label_y task_height y h = Ok v.
Proof.
  intros Hy Hh. unfold label_y, Float.int_truediv_2, Float.of_int, Float.to_int.
  destruct (round_finite (h - task_height) (-1) 1020) as (b & -> & Hb & _); [|done|].
  { pose proof (bit_length_le _ 1020 ltac:(done) Hh). lia. }
  cbn [bind].
  destruct (round_finite y 0 1020) as (a & -> & Ha & _); [|done|].
  { pose proof (bit_length_le _ 1020 ltac:(done) Hy). lia. }
  cbn [bind].
  destruct (add_finite a b 1021) as [r ->]; [lia|lia|done|]. eauto.
Qed.

(** ** Layout: the cells by role *)

Section LayoutFacts.

Variables day_width task_height margin : Z.

Local Abbreviation tick_x' := (tick_x day_width margin).
Local Abbreviation tick_cell' := (tick_cell day_width task_height margin).
Local Abbreviation tick_loop' := (tick_loop day_width task_height margin).
Local Abbreviation section_cells' := (section_cells day_width task_height margin).
Local Abbreviation task_cells' := (task_cells day_width task_height margin).
Local Abbreviation build' := (build_drawio_xml day_width task_height margin).

Lemma filter_none {A} (P : A -> bool) l :
  Forall (fun x => P x = false) l -> List.filter P l = [].
Proof. induction 1 as [|x l Hx _ IH]; simpl; [done|]. by rewrite Hx. Qed.

Lemma filter_all {A} (P : A -> bool) l :
  Forall (fun x => P x = true) l -> List.filter P l = l.
Proof. induction 1 as [|x l Hx _ IH]; simpl; [done|]. by rewrite Hx, IH. Qed.

Lemma section_cells_roles g total_days o : forall si row_index cells,
  section_cells' g total_days si row_index o = Ok cells ->
  Forall other_role cells.
Proof.
  induction o as [|section o IH]; intros si row_index cells; cbn [section_cells].
  - intros [= <-]. constructor.
  - destruct (default [] (g !! section)) as [|t tl]; [apply IH|].
    intros H. inv_bind H. inv_bind H. injection H as <-.
    constructor; [repeat split; reflexivity|].
    constructor; [repeat split; reflexivity|]. by eapply IH.
Qed.

Lemma section_cells_Raise g total_days o : forall si row_index err,
  section_cells' g total_days si row_index o = Raise err -> err = OverflowError.
Proof.
  induction o as [|section o IH]; intros si row_index err; cbn [section_cells]; [done|].
  destruct (default [] (g !! section)) as [|t tl]; [apply IH|].
  destruct (label_y _ _ _) as [y|e] eqn:Hy; cbn [bind].
  - destruct (section_cells' _ _ _ _ _) as [cells|e] eqn:Hc; cbn [bind]; [done|].
    intros [= <-]. by eapply IH.
  - intros [= <-]. by eapply label_y_Raise.
Qed.

(** The section blocks are laid out whenever their coordinates are far
    inside the range of a float. *)
Lemma section_cells_ok g total_days o : forall si row_index,
  0 <= row_index ->
  Z.abs margin + (row_index + Z.of_nat (length (rows_of g o))) * Z.abs task_height < 2 ^ 1020 ->
  exists cells, section_cells' g total_days si row_index o = Ok cells.
Proof.
  induction o as [|section o IH]; intros si row_index Hri Hb; cbn [section_cells]; [eauto|].
  unfold rows_of in Hb. cbn [flat_map] in Hb. fold (rows_of g o) in Hb.
  rewrite length_app, length_map in Hb.
  destruct (default [] (g !! section)) as [|t tl]; [by apply IH|].
  set (n := Z.of_nat (length (t :: tl))) in *.
  assert (Hn : 1 <= n) by (unfold n; simpl; lia).
  rewrite Nat2Z.inj_add in Hb. fold n in Hb.
  destruct (label_y_ok task_height (y_start margin + row_index * row_height task_height)
              (n * row_height task_height - (if 0 <? n then ROW_GAP else 0)))
    as [y ->].
  { unfold y_start, row_height, ROW_GAP. nia. }
  { unfold row_height, ROW_GAP.
    replace (if 0 <? n then 0 else 0) with 0 by (by destruct (0 <? n)). nia. }
  cbn [bind]. destruct (IH (si + 1) (row_index + n)) as [cells ->]; [lia|nia|].
  cbn [bind]. eauto.
Qed.

Lemma startswith_append pre s : Py.startswith (pre +:+ s) pre = true.
Proof.
  unfold Py.startswith. induction pre as [|a pre IH]; simpl.
  - by destruct s.
  - by destruct (ascii_dec a a).
Qed.

Lemma task_cells_roles min_date rows : forall counter row_index,
  Forall (fun c => is_edge c = false /\ is_label c = false /\ is_task_cell c = true)
    (task_cells' min_date counter row_index rows).
Proof.
  induction rows as [|[t s] rows IH]; intros counter row_index; simpl; [constructor|].
  constructor; [|apply IH].
  split; [done|]. split; [done|]. apply (startswith_append "task").
Qed.

(** The task bars stack from [row_index] downwards, one row each. *)
Lemma task_cells_spans min_date rows : forall counter row_index,
  map cell_span (task_cells' min_date counter row_index rows)
  = map (fun k => let y := margin + (row_index + Z.of_nat k) * (task_height + ROW_GAP) in
                  (y, y + task_height))
        (seq 0 (length rows)).
Proof.
  induction rows as [|[t s] rows IH]; intros counter row_index; [done|].
  cbn [task_cells length seq map cell_span]. f_equal.
  - unfold y_start, row_height. f_equal; f_equal; lia.
  - rewrite IH, <- seq_shift, map_map. apply map_ext. intros k.
    cbn zeta. f_equal; f_equal; lia.
Qed.

(** ** Layout: the tick loop *)

Lemma tick_loop_ok min_date rows_height ds : forall last,
  Forall (fun d => is_ok (DT.add_days min_date d) = true) ds ->
  exists cells, tick_loop' min_date rows_height last ds = Ok cells.
Proof.
  induction ds as [|d ds IH]; intros last Hall; simpl; [eauto|].
  apply Forall_cons in Hall as [Hd Hall].
  destruct (DT.add_days min_date d) as [day|]; [|discriminate]. simpl.
  destruct (LABEL_MIN_GAP <=? _).
  - destruct (IH (tick_x' d) Hall) as [cells ->]. simpl. eauto.
  - destruct (IH last Hall) as [cells ->]. simpl. eauto.
Qed.

Lemma tick_loop_Raise min_date rows_height ds : forall last err,
  tick_loop' min_date rows_height last ds = Raise err -> err = OverflowError.
Proof.
  induction ds as [|d ds IH]; intros last err; simpl; [discriminate|].
  destruct (DT.add_days min_date d) as [day|err'] eqn:Hd; simpl.
  - destruct (LABEL_MIN_GAP <=? _).
    + destruct (tick_loop' _ _ (tick_x' d) ds) eqn:Hl; simpl; [discriminate|].
      intros [= <-]. by eapply IH.
    + destruct (tick_loop' _ _ last ds) eqn:Hl; simpl; [discriminate|].
      intros [= <-]. by eapply IH.
  - intros [= <-]. by eapply add_days_Raise.
Qed.

(** The loop draws one line per offset, in order, and no task bar. *)
Lemma tick_loop_edges min_date rows_height ds : forall last cells,
  tick_loop' min_date rows_height last ds = Ok cells ->
  List.filter is_edge cells = map (tick_cell' rows_height) ds
  /\ List.filter is_task_cell cells = [].
Proof.
  induction ds as [|d ds IH]; intros last cells; simpl.
  - by intros [= <-].
  - intros H. inv_bind H. destruct (LABEL_MIN_GAP <=? _); inv_bind H;
      injection H as <-; apply IH in Ha0 as [IH1 IH2]; simpl; by rewrite IH1.
Qed.




End LayoutFacts.

(** ** Greedy selection keeps its distance *)



(** ** Layout: the document as a whole *)

Section BuildFacts.

Variables day_width task_height margin : Z.

Local Abbreviation build' := (build_drawio_xml day_width task_height margin).

(** What a returned document is made of. *)
Lemma build_shape ts doc :
  build' ts = Ok doc ->
  exists min_date max_date sections ticks,
    is_min_of min_date (map task_start ts)
    /\ is_max_of max_date (map end_date ts)
    /\ Forall (fun t => Task_end t = Ok (end_date t)) ts
    /\ section_cells day_width task_height margin (group_tasks ts).1
         (DT.days_between max_date min_date + 1) 0 0 (group_tasks ts).2 = Ok sections
    /\ tick_loop day_width task_height margin min_date
         (Z.of_nat (length ts) * task_height) (-1000000)
         (range_step (DT.days_between max_date min_date + 1) TICK_INTERVAL) = Ok ticks
    /\ doc = [RootCell "0" None; RootCell "1" (Some "0")]
             ++ sections
             ++ task_cells day_width task_height margin min_date 0 0
                  (rows_of (group_tasks ts).1 (group_tasks ts).2)
             ++ ticks.
Proof.
  unfold build_drawio_xml. destruct ts as [|t0 ts']; [discriminate|].
  intros H. inv_bind H. inv_bind H.
  pose proof (group_tasks_rows (t0 :: ts')) as Hrows.
  destruct (group_tasks (t0 :: ts')) as [grouped section_order] eqn:Hg.
  cbn [fst snd] in Hrows. inv_bind H. inv_bind H. injection H as <-.
  destruct (add_days_Ok _ _ _ Ha) as (He0 & _ & _). fold (end_date t0) in He0. subst a.
  apply max_end_spec in Ha0 as [Hmax Hends].
  exists (fold_left Z.min (map task_start ts') (task_start t0)), a0, a1, a2.
  split; [apply fold_min_spec|]. split; [exact Hmax|]. split; [by constructor|].
  split; [exact Ha1|]. split; [|reflexivity].
  rewrite <- Ha2. f_equal. rewrite Hrows. unfold row_height, ROW_GAP.
  match goal with |- context [if ?b then 0 else 0] => destruct b end; ring.
Qed.

(** The layout returns when every start and every end is a date and
    the rows lie far inside the range of a float. *)
Lemma build_ok ts :
  ts <> [] ->
  Forall (fun t => representable (task_start t)) ts ->
  Forall (fun t => is_ok (Task_end t) = true) ts ->
  float_range margin task_height (length ts) ->
  exists doc, build' ts = Ok doc.
Proof.
  intros Hne Hstarts Hends Hfloat. unfold build_drawio_xml.
  destruct ts as [|t0 ts']; [done|].
  apply Forall_cons in Hends as [He0 Hends].
  destruct (Task_end t0) as [e0|] eqn:Hend0; [|discriminate]. cbn [bind].
  destruct (max_end_ok ts' e0 Hends) as [max_date Hmaxe]. rewrite Hmaxe. cbn [bind].
  pose proof (group_tasks_rows (t0 :: ts')) as Hrows.
  destruct (group_tasks (t0 :: ts')) as [grouped section_order].
  cbn [fst snd] in Hrows.
  set (min_date := fold_left Z.min (map task_start ts') (task_start t0)).
  assert (Hmin : representable min_date).
  { destruct (fold_min_spec (map task_start ts') (task_start t0)) as [Hin _].
    fold min_date in Hin. change (In min_date (map task_start (t0 :: ts'))) in Hin.
    apply in_map_iff in Hin as (t & <- & Hin).
    rewrite Forall_forall in Hstarts. apply Hstarts. by apply list_elem_of_In. }
  assert (Hmax : representable max_date).
  { apply max_end_spec in Hmaxe as [[Hin _] Hall].
    destruct (add_days_Ok _ _ _ Hend0) as (-> & Hr0 & _).
    destruct Hin as [<-|Hin]; [done|].
    apply in_map_iff in Hin as (t & <- & Hin).
    rewrite Forall_forall in Hall. apply list_elem_of_In in Hin.
    specialize (Hall t Hin). by destruct (add_days_Ok _ _ _ Hall) as (_ & Hr & _). }
  apply representable_bounds in Hmin, Hmax.
  destruct (section_cells_ok day_width task_height margin grouped
              (total_days_of min_date max_date) section_order 0 0) as [sections ->];
    [done| |].
  { rewrite Hrows. unfold float_range in Hfloat. lia. }
  cbn [bind].
  match goal with
  | |- context [tick_loop _ _ _ ?m ?rh ?l ?ds] =>
      destruct (tick_loop_ok day_width task_height margin m rh ds l) as [ticks ->]
  end; [|cbn [bind]; eauto].
  apply Forall_forall. intros d Hd. apply list_elem_of_In in Hd.
  apply range_step_In in Hd as [[Hd0 Hd1] _]; [|done].
  unfold total_days_of, DT.days_between in Hd1.
  assert (HDAY : 0 < DT.DAY_US) by done.
  assert (Hq : DT.DAY_US * ((max_date - min_date) / DT.DAY_US) <= max_date - min_date)
    by (apply Z.mul_div_le; lia).
  assert (Hq2 : (max_date - min_date) / DT.DAY_US < DT.MAXORDINAL + 1).
  { apply Z.div_lt_upper_bound; [done|]. lia. }
  rewrite add_days_in_range; [done| |].
  - unfold DT.MAX_DELTA_DAYS, DT.MAXORDINAL in *. lia.
  - apply representable_bounds. nia.
Qed.

(** Anything else the layout raises on a non-empty list is
    [OverflowError]: an end that is not a date, or a label position
    outside the range of a float. *)
Lemma build_Raise ts err :
  build' ts = Raise err ->
  (ts = [] /\ err = ValueError_no_tasks)
  \/ (ts <> [] /\ err = OverflowError).
Proof.
  unfold build_drawio_xml. destruct ts as [|t0 ts']; [intros [= <-]; by left|].
  intros H. right. split; [done|].
  destruct (Task_end t0) as [e0|err0] eqn:He0; cbn [bind] in H.
  2:{ injection H as <-. by eapply add_days_Raise. }
  destruct (max_end e0 ts') as [max_date|err1] eqn:Hm; cbn [bind] in H.
  2:{ injection H as <-. by apply max_end_Raise in Hm as [-> _]. }
  destruct (group_tasks (t0 :: ts')) as [grouped section_order].
  match type of H with
  | context [section_cells ?a ?b ?c ?g ?td ?si ?ri ?o] =>
      destruct (section_cells a b c g td si ri o) as [sections|err2] eqn:Hs
  end; cbn [bind] in H.
  2:{ injection H as <-. by eapply section_cells_Raise. }
  match type of H with
  | context [tick_loop ?a ?b ?c ?m ?rh ?l ?ds] =>
      destruct (tick_loop a b c m rh l ds) as [ticks|err2] eqn:Ht
  end; cbn [bind] in H; [discriminate|].
  injection H as <-. by eapply tick_loop_Raise.
Qed.

End BuildFacts.

(** ** C5: when the layout raises *)

(** C5 as stated fails: a one-task list, read from a gantt block whose
    task starts on 9999-12-31, is not empty, and the layout raises
    [OverflowError] on it because the task's end is past the last date;
    and on the two tasks of the specification's scenario it raises
    [OverflowError] with a margin of 10^310, which no float holds. *)
Lemma layout_overflow_counterexample :
  parse_mermaid (fun _ => 0) 0 ("gantt" +:+ String Re.newline "A :a1, 9999-12-31, 1d")
  = Ok [mkTask "A" "a1" (DT.MAXORDINAL * DT.DAY_US) 1 None]
  /\ build_drawio_xml DAY_WIDTH TASK_HEIGHT MARGIN
       [mkTask "A" "a1" (DT.MAXORDINAL * DT.DAY_US) 1 None]
     = Raise OverflowError
  /\ build_drawio_xml DAY_WIDTH TASK_HEIGHT (10 ^ 310) spec_scenario_tasks_list
     = Raise OverflowError.
Proof. repeat split; vm_compute; reflexivity. Qed.

(** C5 (amended): the layout raises the empty-input error
    ([ValueError("no tasks provided")]) if and only if its task list is
    empty, and then returns no document; on a non-empty list of tasks
    whose starts are dates it returns a document when every task's end is
    a representable date and the rows lie far inside the range of a
    float; it raises [OverflowError] when some task's end is not a
    representable date, and [OverflowError] is all it ever raises on a
    non-empty list. *)
Theorem layout_raises_iff_empty (day_width task_height margin : Z) :
  (forall ts,
      build_drawio_xml day_width task_height margin ts = Raise ValueError_no_tasks
      <-> ts = [])
  /\ (forall ts,
        ts <> [] ->
        Forall (fun t => representable (task_start t)) ts ->
        Forall (fun t => is_ok (Task_end t) = true) ts ->
        float_range margin task_height (length ts) ->
        exists doc, build_drawio_xml day_width task_height margin ts = Ok doc)
  /\ (forall ts,
        ts <> [] ->
        Exists (fun t => is_ok (Task_end t) = false) ts ->
        build_drawio_xml day_width task_height margin ts = Raise OverflowError)
  /\ (forall ts err,
        ts <> [] ->
        build_drawio_xml day_width task_height margin ts = Raise err ->
        err = OverflowError).
Proof.
  split; [|split; [|split]].
  - intros ts. split; [|by intros ->].
    intros H. apply build_Raise in H as [[-> _]|[_ [=]]]. done.
  - apply build_ok.
  - intros ts Hne Hex.
    destruct (build_drawio_xml day_width task_height margin ts) as [doc|err] eqn:Hb.
    + exfalso. apply build_shape in Hb as (_ & _ & _ & _ & _ & _ & Hends & _).
      apply Exists_exists in Hex as (t & Hin & Hbad).
      rewrite Forall_forall in Hends. by rewrite (Hends t Hin) in Hbad.
    + by apply build_Raise in Hb as [[-> _]|[_ ->]].
  - intros ts err Hne Hb. by apply build_Raise in Hb as [[-> _]|[_ ->]].
Qed.

Lemma layout_raises_iff_empty_witness :
  exists doc, build_drawio_xml DAY_WIDTH TASK_HEIGHT MARGIN spec_scenario_tasks_list = Ok doc.
Proof.
  apply (proj1 (proj2 (layout_raises_iff_empty DAY_WIDTH TASK_HEIGHT MARGIN))).
  - discriminate.
  - repeat constructor.
  - repeat constructor.
  - vm_compute. reflexivity.
Defined.

(** ** C8: tick lines *)

(** C8 as stated fails: the one task read from a gantt block whose task
    starts on 9999-12-31 makes a non-empty list on which the layout
    returns no document, so no tick line at all, none at offset 0; nor
    does it return one for the two tasks of the specification's scenario
    with a margin of 10^310, which no float holds.  With a row height of
    -20 the two rows of the scenario run from 40 to 0 and the tick lines
    from 40 to 20 only; and a single task with a duration of -5 days
    gives a document without any tick line. *)
Lemma tick_lines_counterexample :
  parse_mermaid (fun _ => 0) 0 ("gantt" +:+ String Re.newline "A :a1, 9999-12-31, 1d")
  = Ok [mkTask "A" "a1" (DT.MAXORDINAL * DT.DAY_US) 1 None]
  /\ (forall doc,
        build_drawio_xml DAY_WIDTH TASK_HEIGHT MARGIN
          [mkTask "A" "a1" (DT.MAXORDINAL * DT.DAY_US) 1 None] <> Ok doc)
  /\ (forall doc,
        build_drawio_xml DAY_WIDTH TASK_HEIGHT (10 ^ 310) spec_scenario_tasks_list <> Ok doc)
  /\ (exists doc,
        build_drawio_xml DAY_WIDTH (-20) MARGIN spec_scenario_tasks_list = Ok doc
        /\ map cell_span (List.filter is_task_cell doc) = [(40, 20); (20, 0)]
        /\ map cell_span (List.filter is_edge doc) = [(40, 20); (40, 20)])
  /\ (exists doc,
        build_drawio_xml DAY_WIDTH TASK_HEIGHT MARGIN
          [mkTask "A" "a1" (738886 * DT.DAY_US) (-5) None] = Ok doc
        /\ List.filter is_edge doc = []).
Proof.
  split; [vm_compute; reflexivity|].
  split; [intros doc; vm_compute; discriminate|].
  split; [intros doc; vm_compute; discriminate|].
  split; eexists; (split; [vm_compute; reflexivity|]); [split|]; vm_compute; reflexivity.
Qed.

(** C8 (amended): on a non-empty list of well-formed tasks (start and
    end representable dates, a duration of at least one day), with a
    non-negative row height and rows far inside the range of a float,
    the layout returns a document whose edge cells are exactly one
    dashed line per offset [d], in increasing order, where [d] runs over
    the multiples of the tick interval with [0 <= d < total_days] and
    [total_days] is the whole days from the least start to the greatest
    end, plus one; [total_days >= 1], so the line at offset 0 is always
    there.  Each line is vertical at
    [margin + SECTION_COL_WIDTH + d * day_width] and runs from [margin],
    the top of the first row, to [margin + rows * task_height], the
    bottom of the last row, the rows being one per task. *)
Theorem ticks_at_every_interval day_width task_height margin ts :
  ts <> [] -> Forall wf_task ts -> 0 <= task_height ->
  float_range margin task_height (length ts) ->
  exists doc min_date max_date offsets,
    build_drawio_xml day_width task_height margin ts = Ok doc
    /\ is_min_of min_date (map task_start ts)
    /\ is_max_of max_date (map end_date ts)
    /\ 1 <= DT.days_between max_date min_date + 1
    /\ (forall d, In d offsets <->
                  0 <= d < DT.days_between max_date min_date + 1
                  /\ d mod TICK_INTERVAL = 0)
    /\ NoDup offsets
    /\ hd_error offsets = Some 0
    /\ List.filter is_edge doc
       = map (fun d =>
                EdgeCell ("tick" +:+ Py.str (d + 1)) EmptyString TICK_STYLE parent_cell
                  (margin + SECTION_COL_WIDTH + d * day_width) margin
                  (margin + SECTION_COL_WIDTH + d * day_width)
                  (margin + Z.of_nat (length ts) * task_height)) offsets
    /\ map cell_span (List.filter is_task_cell doc)
       = map (fun k => (margin + Z.of_nat k * task_height,
                        margin + (Z.of_nat k + 1) * task_height))
             (seq 0 (length ts)).
Proof.
  intros Hne Hwf Hth Hfloat.
  destruct (build_ok day_width task_height margin ts Hne) as [doc Hdoc]; [| |done|].
  { eapply Forall_impl; [exact Hwf|]. by intros t []. }
  { eapply Forall_impl; [exact Hwf|]. by intros t []. }
  destruct (build_shape _ _ _ _ _ Hdoc)
    as (min_date & max_date & sections & ticks & Hmin & Hmax & Hends & Hsecs & Hticks & ->).
  set (total_days := DT.days_between max_date min_date + 1) in *.
  eexists. exists min_date, max_date, (range_step total_days TICK_INTERVAL).
  assert (Htotal : 1 <= total_days).
  { destruct ts as [|t0 ts']; [done|].
    destruct Hmin as [_ Hmin]. destruct Hmax as [_ Hmax].
    apply Forall_cons in Hmin as [Hmin _]. apply Forall_cons in Hmax as [Hmax _].
    apply Forall_cons in Hwf as [[_ HL _] _]. unfold end_date in Hmax.
    assert (0 <= (max_date - min_date) / DT.DAY_US).
    { apply Z.div_pos; [|done]. unfold DT.DAY_US in *. lia. }
    unfold total_days, DT.days_between. lia. }
  split; [exact Hdoc|]. split; [done|]. split; [done|]. split; [done|].
  split; [intros d; by apply range_step_In|].
  split; [by apply range_step_NoDup|].
  split. { destruct (range_step_head total_days TICK_INTERVAL) as [rest ->]; done. }
  apply tick_loop_edges in Hticks as [Hedges Hnotask].
  pose proof (section_cells_roles _ _ _ _ _ _ _ _ _ Hsecs) as Hsec.
  pose proof (task_cells_roles day_width task_height margin min_date
                (rows_of (group_tasks ts).1 (group_tasks ts).2) 0 0) as Htask.
  split.
  - rewrite !List.filter_app. cbn [List.filter is_edge app].
    rewrite (filter_none is_edge sections)
      by (eapply Forall_impl; [exact Hsec|]; by intros c (? & ? & ?)).
    rewrite (filter_none is_edge (task_cells _ _ _ _ _ _ _))
      by (eapply Forall_impl; [exact Htask|]; by intros c (? & ? & ?)).
    cbn [app]. rewrite Hedges. apply map_ext. intros d.
    unfold tick_cell, tick_x, y_start. f_equal.
    destruct (Z.ltb_spec 0 (Z.of_nat (length ts) * task_height)) as [Hpos|Hnpos]; [done|].
    assert (1 <= Z.of_nat (length ts)) by (destruct ts; [done|simpl; lia]).
    f_equal. nia.
  - rewrite !List.filter_app. cbn [List.filter is_task_cell app].
    rewrite (filter_none is_task_cell sections)
      by (eapply Forall_impl; [exact Hsec|]; by intros c (? & ? & ?)).
    rewrite (filter_all is_task_cell (task_cells _ _ _ _ _ _ _))
      by (eapply Forall_impl; [exact Htask|]; by intros c (? & ? & ?)).
    rewrite Hnotask, app_nil_r. cbn [app].
    rewrite task_cells_spans, group_tasks_rows. apply map_ext. intros k.
    unfold ROW_GAP. cbn zeta. f_equal; ring.
Qed.

Lemma ticks_at_every_interval_witness :
  exists doc min_date max_date offsets,
    build_drawio_xml DAY_WIDTH TASK_HEIGHT MARGIN spec_scenario_tasks_list = Ok doc
    /\ is_min_of min_date (map task_start spec_scenario_tasks_list)
    /\ is_max_of max_date (map end_date spec_scenario_tasks_list)
    /\ 1 <= DT.days_between max_date min_date + 1
    /\ (forall d, In d offsets <->
                  0 <= d < DT.days_between max_date min_date + 1
                  /\ d mod TICK_INTERVAL = 0)
    /\ NoDup offsets
    /\ hd_error offsets = Some 0
    /\ List.filter is_edge doc
       = map (fun d =>
                EdgeCell ("tick" +:+ Py.str (d + 1)) EmptyString TICK_STYLE parent_cell
                  (MARGIN + SECTION_COL_WIDTH + d * DAY_WIDTH) MARGIN
                  (MARGIN + SECTION_COL_WIDTH + d * DAY_WIDTH)
                  (MARGIN + Z.of_nat (length spec_scenario_tasks_list) * TASK_HEIGHT))
             offsets
    /\ map cell_span (List.filter is_task_cell doc)
       = map (fun k => (MARGIN + Z.of_nat k * TASK_HEIGHT,
                        MARGIN + (Z.of_nat k + 1) * TASK_HEIGHT))
             (seq 0 (length spec_scenario_tasks_list)).
Proof.
  apply (ticks_at_every_interval DAY_WIDTH TASK_HEIGHT MARGIN spec_scenario_tasks_list).
  - discriminate.
  - repeat constructor; vm_compute; congruence.
  - vm_compute. congruence.
  - vm_compute. reflexivity.
Defined.

(** ** C9: tick labels *)






(** * Further properties of the converter *)

(** ** Line classifier: input without a gantt block or without task lines *)

(** Until a line begins with [gantt], scanning changes nothing. *)
Lemma scan_lines_before_gantt lines : forall st,
  in_gantt st = false ->
  Forall (fun l => Py.startswith (Py.lower (Py.strip l)) "gantt" = false) lines ->
  scan_lines st lines = st.
Proof.
  unfold scan_lines. induction lines as [|l lines IH]; intros st Hst Hall; [done|].
  apply Forall_cons in Hall as [Hl Hall]. cbn [fold_left].
  assert (Hline : scan_line st l = st).
  { unfold scan_line. by rewrite Hst, strip_rstrip, Hl. }
  rewrite Hline. by apply IH.
Qed.

(** The resolver on no record at all returns no task. *)
Lemma resolve_nil now clk : resolve now clk [] = Ok [].
Proof. reflexivity. Qed.

(** A text none of whose lines begins with [gantt] (after trimming,
    whatever the case) has no record: [parse_mermaid] returns the empty
    list, and the layout applied to it raises the empty-input error. *)
Theorem text_without_gantt_line now clk day_width task_height margin text :
  Forall (fun l => Py.startswith (Py.lower (Py.strip l)) "gantt" = false)
    (Py.splitlines text) ->
  collect_raw text = []
  /\ parse_mermaid now clk text = Ok []
  /\ (ts <- parse_mermaid now clk text ;;
      build_drawio_xml day_width task_height margin ts)
     = Raise ValueError_no_tasks.
Proof.
  intros Hall.
  assert (Hraw : collect_raw text = []).
  { unfold collect_raw. by rewrite scan_lines_before_gantt. }
  unfold parse_mermaid. rewrite Hraw, resolve_nil. done.
Qed.

Lemma text_without_gantt_line_witness :
  parse_mermaid (fun _ => 0) 0
    ("Notes: a, b, c" +:+ String Re.newline "Task A :a1, 2024-01-01, 5d")
  = Ok [].
Proof.
  refine (proj1 (proj2 (text_without_gantt_line (fun _ => 0) 0%nat
            DAY_WIDTH TASK_HEIGHT MARGIN
            ("Notes: a, b, c" +:+ String Re.newline "Task A :a1, 2024-01-01, 5d") _))).
  vm_compute. repeat constructor.
Defined.

Lemma no_colon_rev_onto s : forall acc,
  no_colon (Py.rev_onto s acc) = (no_colon s && no_colon acc)%bool.
Proof.
  induction s as [|c s IH]; intros acc; simpl; [done|].
  rewrite IH. simpl. destruct (Ascii.eqb c ":"), (no_colon s); simpl; done.
Qed.

Lemma splitlines_from_no_colon s : forall cur after_cr,
  no_colon cur = true -> no_colon s = true ->
  Forall (fun l => no_colon l = true) (Py.splitlines_from cur after_cr s).
Proof.
  induction s as [|c s IH]; intros cur after_cr Hcur Hs; simpl.
  - destruct (Py.is_empty cur); constructor; [|constructor].
    unfold Py.rev. by rewrite no_colon_rev_onto, Hcur.
  - simpl in Hs. apply andb_true_iff in Hs as [Hc Hs].
    destruct (after_cr && _)%bool; [by apply IH|].
    destruct (Py.is_linebreak c).
    + constructor; [|by apply IH].
      unfold Py.rev. by rewrite no_colon_rev_onto, Hcur.
    + apply IH; [|done]. simpl. by rewrite Hc, Hcur.
Qed.

(** A line without a colon adds no record, in a gantt block or before. *)
Lemma scan_line_no_colon st l :
  no_colon l = true -> raw_tasks (scan_line st l) = raw_tasks st.
Proof.
  intros Hl. unfold scan_line.
  rewrite (no_colon_not_task _ (no_colon_rstrip _ Hl)).
  repeat match goal with |- context [if ?b then _ else _] => destruct b end; done.
Qed.

(** A text without any colon has no task line: whatever else it holds
    (a gantt line, sections, comments), no record is collected,
    [parse_mermaid] returns the empty list and the layout applied to it
    raises the empty-input error. *)
Theorem text_without_colon now clk day_width task_height margin text :
  no_colon text = true ->
  collect_raw text = []
  /\ parse_mermaid now clk text = Ok []
  /\ (ts <- parse_mermaid now clk text ;;
      build_drawio_xml day_width task_height margin ts)
     = Raise ValueError_no_tasks.
Proof.
  intros Htext.
  assert (Hraw : collect_raw text = []).
  { unfold collect_raw, scan_lines.
    assert (Hgen : forall lines st,
               Forall (fun l => no_colon l = true) lines ->
               raw_tasks (fold_left scan_line lines st) = raw_tasks st).
    { induction lines as [|l lines IH]; intros st Hall; [done|].
      apply Forall_cons in Hall as [Hl Hall]. cbn [fold_left].
      rewrite IH by done. by apply scan_line_no_colon. }
    rewrite Hgen; [done|]. by apply splitlines_from_no_colon. }
  unfold parse_mermaid. rewrite Hraw, resolve_nil. done.
Qed.

Lemma text_without_colon_witness :
  parse_mermaid (fun _ => 0) 0
    ("gantt" +:+ String Re.newline "section S1" +:+ String Re.newline "Task A, a1, 5d")
  = Ok [].
Proof.
  refine (proj1 (proj2 (text_without_colon (fun _ => 0) 0%nat DAY_WIDTH TASK_HEIGHT MARGIN
            ("gantt" +:+ String Re.newline "section S1" +:+ String Re.newline
             "Task A, a1, 5d") _))).
  vm_compute. reflexivity.
Defined.

(** ** Resolver: what each record becomes *)

(** The first pass of the loop, and what the later ones add to it. *)
Lemma first_pass now fuel st u st' u' n :
  passes now (S fuel) st u = Ok (st', u', n) ->
  exists st1 rem pr new,
    pass_spec now (st, [], false) u (st1, rem, pr)
    /\ tasks st' = tasks st1 ++ new
    /\ (length (tasks st') + length u' = length (tasks st1) + length rem)%nat.
Proof.
  cbn [passes]. intros H. inv_bind H. destruct a as [[st1 rem] pr].
  pose proof (pass_loop_spec now _ _ _ Ha) as Hpass.
  exists st1, rem, pr. destruct pr.
  - inv_bind H. destruct a as [[st2 u2] n2]. injection H as <- <- _.
    destruct (passes_tasks now _ _ _ _ _ _ Ha0) as (new & Hnew & _).
    exists new. split; [done|]. split; [done|].
    by apply passes_count in Ha0.
  - injection H as <- <- _. exists []. rewrite app_nil_r.
    destruct (pass_spec_no_progress now _ _ _ Hpass eq_refl) as (_ & _ & Hrem).
    simpl in Hrem. by subst rem.
Qed.

(** In a pass, a record whose start is not an "after" reference becomes
    a task on the spot. *)
Lemma pass_spec_immediate now acc rs res r :
  pass_spec now acc rs res -> r ∈ rs ->
  after_ref (start_raw r) = None ->
  (DATE_RE_search (start_raw r) = None ->
   Py.startswith (Py.lower (start_raw r)) "after" = false) ->
  exists start_dt n,
    match DATE_RE_search (start_raw r) with
    | Some lit => DT.fromisoformat (Py.replace "/" "-" lit) = Ok start_dt
    | None => exists k, start_dt = now k
    end
    /\ parse_length (len_raw r) start_dt = Ok n
    /\ Task_init (raw_name r) (raw_id r) start_dt (Z.max 1 n) (raw_section r)
       ∈ tasks res.1.1.
Proof.
  induction 1 as [acc|st rem pr r0 rs acc' res Hstep Hpass IH]; intros Hin Href Hkind.
  - by apply elem_of_nil in Hin.
  - apply elem_of_cons in Hin as [->|Hin]; [|by apply IH].
    destruct (pass_spec_tasks now _ _ _ Hpass) as (new & Hnew & _).
    inversion Hstep as [Hrs|start_dt clk n Hrs Hlen task]; subst.
    + exfalso. revert Hrs. unfold resolve_start.
      destruct (DATE_RE_search (start_raw r0)) as [lit|] eqn:Hlit.
      * destruct (DT.fromisoformat _); discriminate.
      * by rewrite (Hkind eq_refl).
    + exists start_dt, n. split; [|split; [done|]].
      * revert Hrs. unfold resolve_start.
        destruct (DATE_RE_search (start_raw r0)) as [lit|] eqn:Hlit.
        -- destruct (DT.fromisoformat _); [|discriminate]. by intros [= <- _].
        -- rewrite (Hkind eq_refl). intros [= <- _]. eauto.
      * rewrite Hnew. proj_simpl. apply elem_of_app. left.
        apply elem_of_app. right. by apply list_elem_of_singleton.
Qed.

(** Every record whose start field holds a date literal becomes a task
    that starts on that date, and every record whose start field is of no
    recognised form becomes a task that starts at a reading of the clock,
    whatever the other records are and wherever they stand; the duration
    is the parsed length floored to 1. *)
Theorem undeferred_records_resolve now clk records out r :
  resolve now clk records = Ok out ->
  r ∈ records ->
  (DATE_RE_search (start_raw r) = None ->
   Py.startswith (Py.lower (start_raw r)) "after" = false) ->
  exists start_dt n,
    match DATE_RE_search (start_raw r) with
    | Some lit => DT.fromisoformat (Py.replace "/" "-" lit) = Ok start_dt
    | None => exists k, start_dt = now k
    end
    /\ parse_length (len_raw r) start_dt = Ok n
    /\ Task_init (raw_name r) (raw_id r) start_dt (Z.max 1 n) (raw_section r) ∈ out.
Proof.
  intros H Hin Hkind. unfold resolve in H. inv_bind H. injection H as <-.
  apply resolve_state_spec in Ha as (st & u & n & forced & Hp & -> & _ & _).
  apply first_pass in Hp as (st1 & rem & pr & new & Hpass & -> & _).
  assert (Href : after_ref (start_raw r) = None).
  { unfold after_ref. destruct (DATE_RE_search (start_raw r)); [done|].
    by rewrite (Hkind eq_refl). }
  destruct (pass_spec_immediate now _ _ _ r Hpass Hin Href Hkind)
    as (start_dt & m & Hstart & Hlen & Ht).
  exists start_dt, m. split; [done|]. split; [done|].
  apply elem_of_app. left. apply elem_of_app. by left.
Qed.

Lemma undeferred_records_resolve_witness :
  exists start_dt n,
    DT.fromisoformat (Py.replace "/" "-" "2024/01/01") = Ok start_dt
    /\ parse_length "5d" start_dt = Ok n
    /\ Task_init "Task A" "a1" start_dt (Z.max 1 n) (Some "S1")
       ∈ [ mkTask "Task A" "a1" (738886 * DT.DAY_US) 5 (Some "S1");
           mkTask "Task B" "a2" (738886 * DT.DAY_US) 3 (Some "S1") ].
Proof.
  refine (undeferred_records_resolve (fun _ => 0) 0%nat
            [ mkRaw "Task B" "a2" "after zz" "3d" (Some "S1");
              mkRaw "Task A" "a1" "x 2024/01/01" "5d" (Some "S1") ]
            _ (mkRaw "Task A" "a1" "x 2024/01/01" "5d" (Some "S1")) _ _ _).
  - vm_compute. reflexivity.
  - apply elem_of_cons. right. apply elem_of_cons. by left.
  - vm_compute. discriminate.
Defined.

(** ** Resolver: names, ids and sections are carried over *)

Lemma pass_spec_keys now acc rs res :
  pass_spec now acc rs res ->
  map task_key (tasks res.1.1) ++ map raw_key res.1.2
  ≡ₚ map task_key (tasks acc.1.1) ++ map raw_key acc.1.2 ++ map raw_key rs.
Proof.
  induction 1 as [acc|st rem pr r rs acc' res Hstep _ IH]; proj_simpl.
  - by rewrite app_nil_r.
  - rewrite IH. inversion Hstep; subst; proj_simpl.
    + rewrite map_app, <- !app_assoc. reflexivity.
    + rewrite map_app, <- !app_assoc. cbn [map app].
      apply Permutation_app_head. change (task_key task) with (raw_key r).
      apply Permutation_middle.
Qed.

Lemma passes_keys now fuel st u st' u' n :
  passes now fuel st u = Ok (st', u', n) ->
  map task_key (tasks st') ++ map raw_key u'
  ≡ₚ map task_key (tasks st) ++ map raw_key u.
Proof.
  apply (passes_spec now (fun st u st' u' =>
    map task_key (tasks st') ++ map raw_key u'
    ≡ₚ map task_key (tasks st) ++ map raw_key u)); [done|].
  clear. intros st u st1 rem st' u' Hpass IH. rewrite IH.
  apply pass_spec_keys in Hpass. proj_simpl. by rewrite Hpass.
Qed.

Lemma forced_keys fallback u forced :
  Forall2 (forced_from fallback) u forced -> map task_key forced = map raw_key u.
Proof.
  induction 1 as [|r t u forced (n & _ & ->) _ IH]; [done|].
  cbn [map]. by rewrite IH.
Qed.

(** The tasks returned are the records, each once, as far as name, id
    and section go: the list of (name, id, section) of the tasks is a
    rearrangement of the stripped names and ids and the sections of the
    records.  Resolution may reorder tasks, it never drops, repeats or
    relabels one, also when ids repeat. *)
Theorem resolve_keeps_identities now clk records out :
  resolve now clk records = Ok out ->
  map task_key out ≡ₚ map raw_key records.
Proof.
  unfold resolve. intros H. inv_bind H. injection H as <-.
  apply resolve_state_spec in Ha as (st & u & n & forced & Hp & -> & _ & HF).
  apply passes_keys in Hp. proj_simpl.
  rewrite map_app, (forced_keys _ _ _ HF). exact Hp.
Qed.

Lemma resolve_keeps_identities_witness :
  map task_key
    [ mkTask "C" "a3" (738886 * DT.DAY_US) 2 None;
      mkTask "A" "a1" (738886 * DT.DAY_US) 5 None;
      mkTask "B" "a2" (738886 * DT.DAY_US) 3 None ]
  ≡ₚ map raw_key
       [ mkRaw "A" "a1" "after zz" "5d" None; mkRaw "B" "a2" "after a1" "3d" None;
         mkRaw " C" "a3 " "2024-01-01" "2d" None ].
Proof.
  apply (resolve_keeps_identities (fun _ => 0) 0%nat). vm_compute. reflexivity.
Defined.

(** ** Resolver: input in dependency order keeps its order *)

Lemma pass_spec_in_order now acc rs res : 
  pass_spec now acc rs res ->
  forall seen,
    backward_only seen rs = true ->
    (forall x, x ∈ seen -> is_Some (id_to_task acc.1.1 !! x)) ->
    res.1.2 = acc.1.2
    /\ map task_key (tasks res.1.1) = map task_key (tasks acc.1.1) ++ map raw_key rs.
Proof.
  induction 1 as [acc|st rem pr r rs acc' res Hstep _ IH]; intros seen Hback Hseen.
  - by rewrite app_nil_r.
  - cbn [backward_only] in Hback. apply andb_true_iff in Hback as [Hr Hback].
    proj_simpl. inversion Hstep as [Hrs|start_dt clk n Hrs Hlen task]; subst.
    + exfalso. revert Hr Hrs. unfold resolves_at_once, resolve_start.
      destruct (DATE_RE_search (start_raw r)) as [lit|] eqn:Hlit.
      { intros _. destruct (DT.fromisoformat _); discriminate. }
      destruct (Py.startswith _ "after") eqn:Hafter; [|discriminate].
      unfold after_ref. rewrite Hlit, Hafter.
      destruct (Py.split (start_raw r)) as [|p0 [|p1 ps]]; try discriminate.
      intros Hx%bool_decide_eq_true. destruct (Hseen _ Hx) as [t ->].
      destruct (Task_end t); discriminate.
    + destruct (IH (Py.strip (raw_id r) :: seen) Hback) as [Hrem Hkeys].
      { intros x Hx. proj_simpl. apply elem_of_cons in Hx as [->|Hx].
        - change (Py.strip (raw_id r)) with (task_id task).
          rewrite lookup_insert_eq. eauto.
        - destruct (decide (task_id task = x)) as [->|Hne].
          + rewrite lookup_insert_eq. eauto.
          + rewrite lookup_insert_ne by done. by apply Hseen. }
      proj_simpl. split; [done|]. rewrite Hkeys, map_app, <- app_assoc. done.
Qed.

(** When every "after" reference points to the id of a record listed
    before it, and no reference lacks its target token, the resolver
    returns the tasks in the order of the records: the k-th task carries
    the name, id and section of the k-th record. *)
Theorem dependency_ordered_input_keeps_order now clk records out :
  backward_only [] records = true ->
  resolve now clk records = Ok out ->
  map task_key out = map raw_key records.
Proof.
  intros Hback H. unfold resolve in H. inv_bind H. injection H as <-.
  apply resolve_state_spec in Ha as (st & u & n & forced & Hp & -> & _ & HF).
  apply first_pass in Hp as (st1 & rem & pr & new & Hpass & Hnew & Hcount).
  destruct (pass_spec_in_order now _ _ _ Hpass [] Hback) as [Hrem Hkeys].
  { intros x Hx. by apply elem_of_nil in Hx. }
  proj_simpl. subst rem. rewrite Hnew, length_app in Hcount. simpl in Hcount.
  assert (new = []) as -> by (destruct new; [done|simpl in Hcount; lia]).
  assert (u = []) as -> by (destruct u; [done|simpl in Hcount; lia]).
  apply Forall2_nil_inv_l in HF as ->.
  rewrite Hnew, !app_nil_r. exact Hkeys.
Qed.

Lemma dependency_ordered_input_keeps_order_witness :
  map task_key spec_scenario_tasks_list = map raw_key (collect_raw spec_scenario).
Proof.
  apply (dependency_ordered_input_keeps_order (fun _ => 0) 0%nat);
    vm_compute; reflexivity.
Defined.

(** ** Regular expressions: what a match captures *)

Lemma rev_onto_rev_onto s : forall a b,
  Py.rev_onto (Py.rev_onto s a) b = Py.rev_onto a (s +:+ b).
Proof. induction s as [|c s IH]; intros a b; simpl; [done|]. by rewrite IH. Qed.

Lemma string_app_nil_r s : s +:+ EmptyString = s.
Proof.
  induction s as [|c s IH]; [done|].
  change (String c (s +:+ EmptyString) = String c s). by f_equal.
Qed.

Lemma rev_rev_onto text : Py.rev (Py.rev_onto text EmptyString) = text.
Proof. unfold Py.rev. rewrite rev_onto_rev_onto. simpl. apply string_app_nil_r. Qed.

Lemma exactly_inv c n k m : forall taken s,
  exactly c n taken k s = Some m ->
  exists text rest,
    s = text +:+ rest /\ string_forall c text = true /\ String.length text = n
    /\ k (Py.rev_onto text taken) rest = Some m.
Proof.
  induction n as [|n IH]; intros taken s; simpl.
  - intros H. by exists EmptyString, s.
  - destruct s as [|a s]; [discriminate|]. destruct (c a) eqn:Hca; [|discriminate].
    intros H. apply IH in H as (text & rest & -> & Hall & Hlen & Hk).
    exists (String a text), rest. simpl. rewrite Hca, Hall, Hlen. done.
Qed.

Lemma greedy_inv c min k m s : forall count taken,
  greedy c min count taken k s = Some m ->
  exists text rest,
    s = text +:+ rest /\ string_forall c text = true
    /\ (min <= count + String.length text)%nat
    /\ k (Py.rev_onto text taken) rest = Some m.
Proof.
  induction s as [|a s IH]; intros count taken H.
  - simpl in H. destruct (Nat.leb_spec min count); [|discriminate].
    exists EmptyString, EmptyString. simpl. repeat split; [lia|done].
  - cbn [greedy] in H.
    assert (Hstop : (if Nat.leb min count then k taken (String a s) else None) = Some m ->
              exists text rest,
                String a s = text +:+ rest /\ string_forall c text = true
                /\ (min <= count + String.length text)%nat
                /\ k (Py.rev_onto text taken) rest = Some m).
    { destruct (Nat.leb_spec min count); [|discriminate]. intros Hk.
      exists EmptyString, (String a s). simpl. repeat split; [lia|done]. }
    destruct (c a) eqn:Hca; [|by apply Hstop].
    destruct (greedy c min (S count) (String a taken) k s) as [r|] eqn:Hg;
      [|by apply Hstop].
    injection H as ->. apply IH in Hg as (text & rest & -> & Hall & Hlen & Hk).
    exists (String a text), rest. simpl. rewrite Hca, Hall.
    repeat split; [lia|done].
Qed.

(** The matcher is sound: what it returns is a split of the text along
    the pattern, with the groups' texts as captures. *)
Lemma match_items_captured p : forall caps s m,
  match_items p caps s = Some m -> captured p caps m s.
Proof.
  induction p as [|it p IH]; intros caps s m; cbn [match_items captured].
  - by intros [= <-].
  - destruct (qt it) as [n|n] eqn:Hq; intros H.
    + apply exactly_inv in H as (text & rest & -> & Hall & Hlen & Hk).
      exists text, rest. repeat split; [done|done|]. apply IH in Hk.
      unfold capture in Hk. by rewrite rev_rev_onto in Hk.
    + apply greedy_inv in H as (text & rest & -> & Hall & Hlen & Hk).
      exists text, rest. repeat split; [done|simpl; lia|]. apply IH in Hk.
      unfold capture in Hk. by rewrite rev_rev_onto in Hk.
Qed.

(** The four groups of a line that matches the task pattern. *)
Lemma TASK_RE_groups line m :
  re_match TASK_RE line = Some m ->
  exists name id_ start len,
    m = [("len", len); ("start", start); ("id", id_); ("name", name)]
    /\ string_forall (not_in [":"%char; newline]) name = true
    /\ string_forall (fun c => (not_in [","%char] c && negb (Py.isspace c))%bool) id_ = true
    /\ (1 <= String.length id_)%nat
    /\ string_forall (not_in [","%char]) start = true.
Proof.
  intros H. apply match_items_captured in H. unfold TASK_RE in H.
  cbn [captured grp cls qt quant_ok] in H.
  destruct H as (t1 & r1 & _ & _ & _ & name & r2 & _ & Hname & _ & H).
  destruct H as (t3 & r3 & _ & _ & _ & t4 & r4 & _ & _ & _ & H).
  destruct H as (t5 & r5 & _ & _ & _ & id_ & r6 & _ & Hid & Hidlen & H).
  destruct H as (t7 & r7 & _ & _ & _ & t8 & r8 & _ & _ & _ & H).
  destruct H as (t9 & r9 & _ & _ & _ & start & r10 & _ & Hstart & _ & H).
  destruct H as (t11 & r11 & _ & _ & _ & t12 & r12 & _ & _ & _ & H).
  destruct H as (t13 & r13 & _ & _ & _ & len & r14 & _ & _ & _ & ->).
  by exists name, id_, start, len.
Qed.

(** ** Line classifier: the shape of a collected record *)

Lemma string_forall_impl (p q : ascii -> bool) s :
  (forall c, p c = true -> q c = true) ->
  string_forall p s = true -> string_forall q s = true.
Proof.
  intros Hpq. induction s as [|c s IH]; simpl; [done|].
  intros [Hc Hs]%andb_true_iff. by rewrite (Hpq _ Hc), IH.
Qed.

Lemma string_forall_lstrip p q s :
  string_forall p s = true -> string_forall p (Py.lstrip_by q s) = true.
Proof.
  induction s as [|c s IH]; simpl; [done|]. intros H.
  destruct (q c); [|done]. apply andb_true_iff in H as [_ H]. by apply IH.
Qed.

Lemma string_forall_rstrip p q s :
  string_forall p s = true -> string_forall p (Py.rstrip_by q s) = true.
Proof.
  induction s as [|c s IH]; simpl; [done|]. intros [Hc Hs]%andb_true_iff.
  destruct (Py.is_empty _ && q c)%bool; [done|]. simpl. by rewrite Hc, IH.
Qed.

Lemma string_forall_strip p q s :
  string_forall p s = true -> string_forall p (Py.strip_by q s) = true.
Proof. intros H. by apply string_forall_rstrip, string_forall_lstrip. Qed.

Lemma lstrip_by_idem q s : Py.lstrip_by q (Py.lstrip_by q s) = Py.lstrip_by q s.
Proof.
  induction s as [|c s IH]; simpl; [done|].
  destruct (q c) eqn:Hq; [done|]. simpl. by rewrite Hq.
Qed.

Lemma strip_by_idem q s : Py.strip_by q (Py.strip_by q s) = Py.strip_by q s.
Proof.
  unfold Py.strip_by.
  by rewrite lstrip_rstrip_comm, lstrip_by_idem, rstrip_by_idem.
Qed.

(** Stripping a class off a string that has no character of it changes
    nothing. *)
Lemma strip_by_none q s :
  string_forall (fun c => negb (q c)) s = true -> Py.strip_by q s = s.
Proof.
  intros H. unfold Py.strip_by.
  assert (Hl : Py.lstrip_by q s = s).
  { destruct s as [|c s]; [done|]. simpl in *.
    apply andb_true_iff in H as [Hc _]. by destruct (q c). }
  rewrite Hl. clear Hl. induction s as [|c s IH]; simpl in *; [done|].
  apply andb_true_iff in H as [Hc Hs]. rewrite IH by done.
  destruct (q c); [done|]. by rewrite andb_false_r.
Qed.

Lemma scan_line_shape st line :
  Forall record_shape (raw_tasks st) -> Forall record_shape (raw_tasks (scan_line st line)).
Proof.
  intros Hst. unfold scan_line.
  destruct (negb (in_gantt st)); [by destruct (Py.startswith _ _)|].
  destruct (_ || _)%bool; [done|].
  destruct (re_match TASK_RE (Py.rstrip line)) as [m|] eqn:Hm.
  2:{ by destruct (Py.startswith _ _). }
  cbn [raw_tasks]. apply Forall_app. split; [done|]. constructor; [|constructor].
  apply TASK_RE_groups in Hm
    as (name & id_ & start & len & -> & Hname & Hid & Hidlen & Hstart).
  cbn [group String.eqb Ascii.eqb Bool.eqb].
  assert (Hid' : Py.strip id_ = id_).
  { apply strip_by_none. eapply string_forall_impl; [|exact Hid].
    intros c [_ Hc]%andb_true_iff. exact Hc. }
  split; cbn [raw_name raw_id start_raw len_raw].
  - apply strip_by_idem.
  - apply strip_by_idem.
  - apply strip_by_idem.
  - apply strip_by_idem.
  - rewrite Hid'. destruct id_; [simpl in Hidlen; lia|done].
  - rewrite Hid'. eapply string_forall_impl; [|exact Hid].
    intros c [Hc Hs]%andb_true_iff. unfold not_in in Hc. simpl in Hc.
    rewrite orb_false_r in Hc. by rewrite Hc, Hs.
  - assert (Hn : string_forall (fun c => negb (Ascii.eqb c ":")) (Py.strip name) = true).
    { apply string_forall_strip. eapply string_forall_impl; [|exact Hname].
      intros c. unfold not_in. simpl. destruct (Ascii.eqb c ":"); [done|]. done. }
    revert Hn. generalize (Py.strip name). intros s.
    induction s as [|c s IH]; simpl; [done|].
    intros [Hc Hs]%andb_true_iff. by rewrite Hc, IH.
  - apply string_forall_strip. eapply string_forall_impl; [|exact Hstart].
    intros c. unfold not_in. simpl. by rewrite orb_false_r.
Qed.

(** Every record collected from a text has stripped fields, a non-empty
    id that holds neither whitespace nor a comma, a name without a colon
    and a start field without a comma. *)
Theorem collected_record_shape text r :
  r ∈ collect_raw text -> record_shape r.
Proof.
  unfold collect_raw, scan_lines.
  assert (Hgen : forall lines st,
             Forall record_shape (raw_tasks st) ->
             Forall record_shape (raw_tasks (fold_left scan_line lines st))).
  { induction lines as [|l lines IH]; intros st Hst; [done|].
    cbn [fold_left]. apply IH. by apply scan_line_shape. }
  intros Hin. eapply Forall_forall; [|exact Hin]. apply Hgen. constructor.
Qed.

Lemma collected_record_shape_witness :
  record_shape (mkRaw "Task B" "a2" "after a1" "3d" (Some "S1")).
Proof.
  apply (collected_record_shape spec_scenario).
  vm_compute. apply elem_of_cons. right. apply elem_of_cons. by left.
Defined.

(** ** Dates: a parsed date is within the range of [datetime] *)

Lemma isdigit_val c : Py.isdigit c = true -> 0 <= Py.digit_val c <= 9.
Proof.
  unfold Py.isdigit, Py.between, Py.digit_val.
  intros [H1 H2]%andb_true_iff. apply Nat.leb_le in H1, H2. lia.
Qed.

Lemma days_before_month_bound y m :
  1 <= m <= 12 ->
  0 <= DT.days_before_month y m
  /\ DT.days_before_month y m + DT.days_in_month y m
     <= 365 + (if DT.is_leap y then 1 else 0).
Proof.
  intros Hm.
  assert (Hcases : m = 1 \/ m = 2 \/ m = 3 \/ m = 4 \/ m = 5 \/ m = 6 \/ m = 7
                   \/ m = 8 \/ m = 9 \/ m = 10 \/ m = 11 \/ m = 12) by lia.
  unfold DT.days_before_month.
  repeat (destruct Hcases as [->|Hcases]); try subst m;
    match goal with
    | |- context [Z.to_nat ?e] =>
        let v := eval vm_compute in (Z.to_nat e) in change (Z.to_nat e) with v
    end;
    cbn [DT.days_before_month_upto]; unfold DT.days_in_month;
    remember (DT.is_leap y) as b; destruct b; split; vm_compute; discriminate.
Qed.

Lemma days_before_year_bound y :
  1 <= y <= 9999 ->
  0 <= DT.days_before_year y
  /\ DT.days_before_year y + 365 + (if DT.is_leap y then 1 else 0) <= DT.MAXORDINAL.
Proof.
  intros Hy. unfold DT.days_before_year, DT.is_leap, DT.MAXORDINAL. cbn zeta.
  destruct (Z.eqb_spec (y mod 4) 0) as [H4|H4]; cbn [andb];
    [destruct (Z.eqb_spec (y mod 100) 0) as [H100|H100]; cbn [negb orb];
      [destruct (Z.eqb_spec (y mod 400) 0) as [H400|H400]|]|];
    Z.div_mod_to_equations; lia.
Qed.

Lemma ymd2ord_bound y m d :
  1 <= y <= 9999 -> 1 <= m <= 12 -> 1 <= d <= DT.days_in_month y m ->
  1 <= DT.ymd2ord y m d <= DT.MAXORDINAL.
Proof.
  intros Hy Hm Hd. unfold DT.ymd2ord.
  pose proof (days_before_month_bound y m Hm).
  pose proof (days_before_year_bound y Hy).
  destruct (DT.is_leap y); lia.
Qed.

Lemma digits_val_4 s :
  String.length s = 4%nat -> string_forall Py.isdigit s = true ->
  0 <= DT.digits_val 0 s <= 9999.
Proof.
  destruct s as [|a [|b [|c [|d [|e s]]]]]; try discriminate. intros _. simpl.
  intros [Ha [Hb [Hc [Hd _]%andb_true_iff]%andb_true_iff]%andb_true_iff]%andb_true_iff.
  apply isdigit_val in Ha, Hb, Hc, Hd. lia.
Qed.

Lemma fromisoformat_representable s t :
  DT.fromisoformat s = Ok t -> representable t.
Proof.
  unfold DT.fromisoformat. destruct (Nat.eqb _ 10); [|discriminate].
  destruct (re_match DT.ISO_DATE s) as [m|] eqn:Hm; [|discriminate].
  apply match_items_captured in Hm. unfold DT.ISO_DATE in Hm.
  cbn [captured grp cls qt quant_ok] in Hm.
  destruct Hm as (y & r1 & _ & Hy & Hylen & t2 & r2 & _ & _ & _ & Hm).
  destruct Hm as (mo & r3 & _ & _ & _ & t4 & r4 & _ & _ & _ & Hm).
  destruct Hm as (d & r5 & _ & _ & _ & ->).
  cbn [group String.eqb Ascii.eqb Bool.eqb].
  pose proof (digits_val_4 y Hylen Hy) as Hyb.
  destruct (_ && _)%bool eqn:Hchk; [|discriminate]. intros [= <-].
  repeat (apply andb_true_iff in Hchk as [Hchk ?]).
  repeat match goal with H : (_ <=? _) = true |- _ => apply Z.leb_le in H end.
  apply representable_bounds.
  pose proof (ymd2ord_bound (DT.digits_val 0 y) (DT.digits_val 0 mo) (DT.digits_val 0 d)
                ltac:(lia) ltac:(lia) ltac:(lia)).
  unfold DT.MAXORDINAL, DT.DAY_US in *. lia.
Qed.

(** ** Resolver and layout together *)

Section ResolverClock.

Variable now : nat -> Z.
Hypothesis now_representable : forall k, representable (now k).

Lemma resolve_start_representable st s start_dt clk :
  resolve_start now st s = Ok (StartAt start_dt clk) -> representable start_dt.
Proof.
  unfold resolve_start. destruct (DATE_RE_search s) as [lit|].
  - destruct (DT.fromisoformat _) as [t|] eqn:Ht; [|discriminate].
    intros [= <- _]. by eapply fromisoformat_representable.
  - destruct (Py.startswith _ _); [|intros [= <- _]; apply now_representable].
    destruct (Py.split s) as [|p0 [|p1 ps]]; try discriminate.
    destruct (id_to_task st !! _) as [ref_task|]; [|discriminate].
    destruct (Task_end ref_task) as [e|] eqn:He; [|discriminate].
    intros [= <- _]. by destruct (add_days_Ok _ _ _ He) as (_ & Hr & _).
Qed.

Lemma pass_spec_starts acc rs res :
  pass_spec now acc rs res ->
  Forall (fun t => representable (task_start t)) (tasks acc.1.1) ->
  Forall (fun t => representable (task_start t)) (tasks res.1.1).
Proof.
  induction 1 as [acc|st rem pr r rs acc' res Hstep _ IH]; [done|].
  intros Hst. apply IH. inversion Hstep; subst; proj_simpl; [done|].
  apply Forall_app. split; [done|]. constructor; [|constructor].
  by eapply resolve_start_representable.
Qed.

Lemma passes_starts fuel st u st' u' n :
  passes now fuel st u = Ok (st', u', n) ->
  Forall (fun t => representable (task_start t)) (tasks st) ->
  Forall (fun t => representable (task_start t)) (tasks st').
Proof.
  apply (passes_spec now (fun st u st' u' =>
    Forall (fun t => representable (task_start t)) (tasks st) ->
    Forall (fun t => representable (task_start t)) (tasks st'))); [done|].
  intros st0 u0 st1 rem st2 u2 Hpass IH Hst. apply IH.
  by apply (pass_spec_starts _ _ _ Hpass).
Qed.

Lemma min_start_representable ts :
  Forall (fun t => representable (task_start t)) ts ->
  forall default, representable default -> representable (min_start ts default).
Proof.
  intros Hts default Hd. destruct ts as [|t ts]; [done|]. unfold min_start.
  destruct (fold_min_spec (map task_start ts) (task_start t)) as [Hin _].
  change (In (fold_left Z.min (map task_start ts) (task_start t))
             (map task_start (t :: ts))) in Hin.
  apply in_map_iff in Hin as (t' & <- & Hin).
  rewrite Forall_forall in Hts. apply Hts. by apply list_elem_of_In.
Qed.

Lemma resolve_starts_representable clk records out :
  resolve now clk records = Ok out ->
  Forall (fun t => representable (task_start t)) out.
Proof.
  unfold resolve. intros H. inv_bind H. injection H as <-.
  apply resolve_state_spec in Ha as (st & u & n & forced & Hp & -> & _ & HF).
  assert (Hst : Forall (fun t => representable (task_start t)) (tasks st)).
  { eapply passes_starts; [exact Hp|]. constructor. }
  apply Forall_app. split; [done|].
  assert (Hfb : representable (min_start (tasks st) (now (clock st))))
    by (by apply min_start_representable).
  clear Hp. induction HF as [|r t u forced (m & _ & ->) _ IH]; constructor; done.
Qed.

End ResolverClock.

Lemma resolve_length now clk records out :
  resolve now clk records = Ok out -> length out = length records.
Proof.
  unfold resolve. intros H. inv_bind H. injection H as <-.
  apply resolve_state_spec in Ha as (st & u & n & forced & Hp & -> & _ & HF).
  apply passes_count in Hp. simpl in Hp. apply Forall2_length in HF.
  rewrite length_app. lia.
Qed.

(** With a clock that reads representable instants and rows far inside
    the range of a float, whatever the resolver returns can be laid out
    unless a task ends after the last date: every returned task starts
    on a representable date and lasts at least a day; the layout raises
    the empty-input error exactly when there was no record, returns a
    document when every task's end is representable, and raises
    [OverflowError] otherwise. *)
Theorem resolved_tasks_lay_out now clk records out day_width task_height margin :
  (forall k, representable (now k)) ->
  float_range margin task_height (length records) ->
  resolve now clk records = Ok out ->
  Forall (fun t => representable (task_start t) /\ 1 <= length_days t) out
  /\ (build_drawio_xml day_width task_height margin out = Raise ValueError_no_tasks
      <-> records = [])
  /\ (records <> [] ->
      if forallb (fun t => is_ok (Task_end t)) out
      then exists doc, build_drawio_xml day_width task_height margin out = Ok doc
      else build_drawio_xml day_width task_height margin out = Raise OverflowError).
Proof.
  intros Hnow Hfloat H.
  pose proof (resolve_starts_representable now Hnow _ _ _ H) as Hstarts.
  pose proof (resolve_length now _ _ _ H) as Hlen.
  assert (Hdur : Forall (fun t => 1 <= length_days t) out).
  { unfold resolve in H. inv_bind H. injection H as <-.
    apply resolve_state_spec in Ha as (st & u & n & forced & Hp & -> & _ & HF).
    apply Forall_app. split.
    - by apply passes_tasks in Hp as (new & -> & Hnew).
    - clear Hp. induction HF as [|r t u forced (m & _ & ->) _ IH]; constructor; [|done].
      simpl. lia. }
  assert (Hempty : out = [] <-> records = []).
  { split; intros ->; [by destruct records|by destruct out]. }
  split; [|split].
  - apply Forall_forall. intros t Ht. rewrite Forall_forall in Hstarts, Hdur. eauto.
  - rewrite <- Hempty. split; [|by intros ->].
    intros Hb. by apply build_Raise in Hb as [[-> _]|[_ [=]]].
  - intros Hne. assert (Hout : out <> []) by tauto.
    destruct (forallb _ out) eqn:Hall.
    + apply build_ok; [done|done| |by rewrite Hlen].
      apply Forall_forall. intros t Ht. rewrite forallb_forall in Hall.
      apply Hall. by apply list_elem_of_In.
    + destruct (build_drawio_xml day_width task_height margin out) as [doc|err] eqn:Hb.
      * exfalso. apply build_shape in Hb as (_ & _ & _ & _ & _ & _ & Hends & _).
        assert (forallb (fun t => is_ok (Task_end t)) out = true); [|congruence].
        apply forallb_forall. intros t Ht%list_elem_of_In.
        rewrite Forall_forall in Hends. by rewrite (Hends t Ht).
      * by apply build_Raise in Hb as [[-> _]|[_ ->]].
Qed.

Lemma resolved_tasks_lay_out_witness :
  exists doc, build_drawio_xml DAY_WIDTH TASK_HEIGHT MARGIN spec_scenario_tasks_list = Ok doc.
Proof.
  refine (proj2 (proj2 (resolved_tasks_lay_out (fun _ => 738886 * DT.DAY_US) 0%nat
            (collect_raw spec_scenario) spec_scenario_tasks_list
            DAY_WIDTH TASK_HEIGHT MARGIN _ _ _)) _).
  - intros k. vm_compute. reflexivity.
  - vm_compute. reflexivity.
  - vm_compute. reflexivity.
  - vm_compute. discriminate.
Defined.

(** ** Layout: cell ids *)

(** [str] writes different integers differently. *)
Lemma str_inj a b : Py.str a = Py.str b -> a = b.
Proof.
  unfold Py.str. intros H.
  assert (Hnn : forall z, Z.to_int z <> Decimal.Pos Decimal.Nil
                          /\ Z.to_int z <> Decimal.Neg Decimal.Nil).
  { intros [|p|p]; simpl; split; try discriminate;
      intros [= Hp]; by apply Unsigned.to_uint_nonnil in Hp. }
  assert (Hi : Some (Z.to_int a) = Some (Z.to_int b)).
  { rewrite <- (NilZero.isi (Z.to_int a)), <- (NilZero.isi (Z.to_int b));
      try apply Hnn. by rewrite H. }
  injection Hi as Hi. rewrite <- (DecimalZ.of_to a), <- (DecimalZ.of_to b). by rewrite Hi.
Qed.

Lemma tagged_inj pre a b : pre +:+ Py.str a = pre +:+ Py.str b -> a = b.
Proof. intros H. apply str_inj. by apply (inj (String.append pre)) in H. Qed.

Section Ids.
Variables day_width task_height margin : Z.

Lemma section_cells_ids g total_days o : forall si row_index cells,
  section_cells day_width task_height margin g total_days si row_index o = Ok cells ->
  NoDup (map cell_id cells)
  /\ Forall (fun c => exists k, si < k /\ (cell_id c = "bg" +:+ Py.str k
                                          \/ cell_id c = "sec_" +:+ Py.str k))
       cells.
Proof.
  induction o as [|section o IH]; intros si row_index cells; cbn [section_cells].
  - intros [= <-]. split; constructor.
  - destruct (default [] (g !! section)) as [|t tl].
    + intros H. destruct (IH _ _ _ H) as [Hnd Hall]. split; [done|].
      eapply Forall_impl; [exact Hall|]. intros c (k & Hk & Hc). exists k. split; [lia|done].
    + intros H. inv_bind H. inv_bind H. injection H as <-.
      destruct (IH _ _ _ Ha0) as [Hnd Hall].
      split.
      * cbn [map cell_id]. apply NoDup_cons. split.
        { intros Hin. apply elem_of_cons in Hin as [Heq|Hin]; [discriminate|].
          apply list_elem_of_fmap in Hin as (c & Hc & Hin).
          rewrite Forall_forall in Hall. destruct (Hall c Hin) as (k & Hk & [Hid|Hid]);
            rewrite Hid in Hc; [apply tagged_inj in Hc; lia|discriminate]. }
        apply NoDup_cons. split; [|done].
        intros Hin. apply list_elem_of_fmap in Hin as (c & Hc & Hin).
        rewrite Forall_forall in Hall. destruct (Hall c Hin) as (k & Hk & [Hid|Hid]);
          rewrite Hid in Hc; [discriminate|apply tagged_inj in Hc; lia].
      * constructor; [exists (si + 1); split; [lia|by left]|].
        constructor; [exists (si + 1); split; [lia|by right]|].
        eapply Forall_impl; [exact Hall|]. intros c (k & Hk & Hc). exists k. split; [lia|done].
Qed.

Lemma task_cells_ids min_date rows : forall counter row_index,
  NoDup (map cell_id (task_cells day_width task_height margin min_date counter row_index rows))
  /\ Forall (fun c => exists k, counter < k /\ cell_id c = "task" +:+ Py.str k)
       (task_cells day_width task_height margin min_date counter row_index rows).
Proof.
  induction rows as [|[t s] rows IH]; intros counter row_index; cbn [task_cells].
  - split; constructor.
  - destruct (IH (counter + 1) (row_index + 1)) as [Hnd Hall]. split.
    + cbn [map cell_id]. apply NoDup_cons. split; [|done].
      intros Hin. apply list_elem_of_fmap in Hin as (c & Hc & Hin).
      rewrite Forall_forall in Hall. destruct (Hall c Hin) as (k & Hk & Hid).
      rewrite Hid in Hc. apply tagged_inj in Hc. lia.
    + constructor; [exists (counter + 1); split; [lia|done]|].
      eapply Forall_impl; [exact Hall|]. intros c (k & Hk & Hc). exists k. split; [lia|done].
Qed.

Lemma tick_loop_ids min_date rows_height ds : forall last cells,
  NoDup ds ->
  tick_loop day_width task_height margin min_date rows_height last ds = Ok cells ->
  NoDup (map cell_id cells)
  /\ Forall (fun c => exists d, In d ds /\ (cell_id c = "tick" +:+ Py.str (d + 1)
                                           \/ cell_id c = "lbl" +:+ Py.str (d + 1)))
       cells.
Proof.
  induction ds as [|d ds IH]; intros last cells Hnd; cbn [tick_loop].
  - intros [= <-]. split; constructor.
  - apply NoDup_cons in Hnd as [Hd Hnd]. intros H. inv_bind H.
    assert (Hfresh : forall rest,
      Forall (fun c => exists d', In d' ds /\ (cell_id c = "tick" +:+ Py.str (d' + 1)
                                              \/ cell_id c = "lbl" +:+ Py.str (d' + 1)))
        rest ->
      forall pre, (pre = "tick" \/ pre = "lbl") ->
      pre +:+ Py.str (d + 1) ∉ map cell_id rest).
    { intros rest Hall pre Hpre Hin. apply list_elem_of_fmap in Hin as (c & Hc & Hin).
      rewrite Forall_forall in Hall. destruct (Hall c Hin) as (d' & Hd' & Hid).
      assert (d' = d); [|subst; by apply Hd, list_elem_of_In].
      destruct Hpre as [->| ->], Hid as [Hid|Hid]; rewrite Hid in Hc;
        first [discriminate | apply tagged_inj in Hc; lia]. }
    assert (Hweak : forall rest,
      Forall (fun c => exists d', In d' ds /\ (cell_id c = "tick" +:+ Py.str (d' + 1)
                                              \/ cell_id c = "lbl" +:+ Py.str (d' + 1)))
        rest ->
      Forall (fun c => exists d', In d' (d :: ds)
                                  /\ (cell_id c = "tick" +:+ Py.str (d' + 1)
                                       \/ cell_id c = "lbl" +:+ Py.str (d' + 1))) rest).
    { intros rest Hall. eapply Forall_impl; [exact Hall|].
      intros c (d' & Hd' & Hc). exists d'. split; [by right|done]. }
    destruct (LABEL_MIN_GAP <=? _); inv_bind H; injection H as <-;
      apply IH in Ha0 as [Hnd' Hall]; try done.
    + split.
      * cbn [map cell_id tick_cell label_cell]. apply NoDup_cons. split.
        { intros Hin. apply elem_of_cons in Hin as [Heq|Hin]; [discriminate|].
          revert Hin. apply (Hfresh _ Hall "tick"). by left. }
        apply NoDup_cons. split; [|done]. apply (Hfresh _ Hall "lbl"). by right.
      * constructor; [exists d; split; [by left|by left]|].
        constructor; [exists d; split; [by left|by right]|]. by apply Hweak.
    + split.
      * cbn [map cell_id tick_cell]. apply NoDup_cons. split; [|done].
        apply (Hfresh _ Hall "tick"). by left.
      * constructor; [exists d; split; [by left|by left]|]. by apply Hweak.
Qed.

(** In every document the layout returns, no two cells share an id:
    the two structural cells, the section backgrounds and labels, the
    task bars, the tick lines and the tick labels are numbered apart. *)
Theorem cell_ids_unique ts doc :
  build_drawio_xml day_width task_height margin ts = Ok doc ->
  NoDup (map cell_id doc).
Proof.
  intros Hdoc.
  destruct (build_shape _ _ _ _ _ Hdoc)
    as (min_date & max_date & sections & ticks & _ & _ & _ & Hsecs & Hticks & ->).
  apply tick_loop_ids in Hticks as [Hnd_t Hall_t];
    [|by apply range_step_NoDup].
  destruct (section_cells_ids _ _ _ _ _ _ Hsecs) as [Hnd_s Hall_s].
  destruct (task_cells_ids min_date (rows_of (group_tasks ts).1 (group_tasks ts).2) 0 0)
    as [Hnd_r Hall_r].
  assert (Hrole_s : forall id, id ∈ map cell_id sections ->
      id_role id = "bg" \/ id_role id = "se").
  { intros id (c & -> & Hin)%list_elem_of_fmap. rewrite Forall_forall in Hall_s.
    destruct (Hall_s c Hin) as (k & _ & [-> | ->]); [by left|by right]. }
  assert (Hrole_r : forall id, id ∈ map cell_id
      (task_cells day_width task_height margin min_date 0 0
         (rows_of (group_tasks ts).1 (group_tasks ts).2)) -> id_role id = "ta").
  { intros id (c & -> & Hin)%list_elem_of_fmap. rewrite Forall_forall in Hall_r.
    by destruct (Hall_r c Hin) as (k & _ & ->). }
  assert (Hrole_t : forall id, id ∈ map cell_id ticks ->
      id_role id = "ti" \/ id_role id = "lb").
  { intros id (c & -> & Hin)%list_elem_of_fmap. rewrite Forall_forall in Hall_t.
    destruct (Hall_t c Hin) as (k & _ & [-> | ->]); [by left|by right]. }
  rewrite !map_app. cbn [map cell_id app].
  apply NoDup_cons. split.
  { intros Hin. apply elem_of_cons in Hin as [Heq|Hin]; [discriminate|].
    apply elem_of_app in Hin as [Hin|Hin]; [apply Hrole_s in Hin as [?|?]; discriminate|].
    apply elem_of_app in Hin as [Hin|Hin]; [apply Hrole_r in Hin; discriminate|].
    apply Hrole_t in Hin as [?|?]; discriminate. }
  apply NoDup_cons. split.
  { intros Hin.
    apply elem_of_app in Hin as [Hin|Hin]; [apply Hrole_s in Hin as [?|?]; discriminate|].
    apply elem_of_app in Hin as [Hin|Hin]; [apply Hrole_r in Hin; discriminate|].
    apply Hrole_t in Hin as [?|?]; discriminate. }
  apply NoDup_app. split; [done|]. split.
  { intros id Hs Hin. apply Hrole_s in Hs.
    apply elem_of_app in Hin as [Hin|Hin].
    - apply Hrole_r in Hin. destruct Hs; congruence.
    - apply Hrole_t in Hin. destruct Hs, Hin; congruence. }
  apply NoDup_app. split; [done|]. split; [|done].
  intros id Hr Hin. apply Hrole_r in Hr. apply Hrole_t in Hin. destruct Hin; congruence.
Qed.
End Ids.

Lemma cell_ids_unique_witness : NoDup (map cell_id spec_scenario_doc).
Proof.
  apply (cell_ids_unique DAY_WIDTH TASK_HEIGHT MARGIN spec_scenario_tasks_list).
  vm_compute. reflexivity.
Defined.

(** ** Line classifier: task lines written from records *)

Lemma string_app_assoc a b c : (a +:+ b) +:+ c = a +:+ (b +:+ c).
Proof.
  induction a as [|x a IH]; [done|].
  change (String x ((a +:+ b) +:+ c) = String x (a +:+ (b +:+ c))). by f_equal.
Qed.

Lemma string_forall_app p a b :
  string_forall p (a +:+ b) = (string_forall p a && string_forall p b)%bool.
Proof.
  induction a as [|x a IH]; [done|].
  change ((p x && string_forall p (a +:+ b))%bool = (p x && string_forall p a && string_forall p b)%bool).
  rewrite IH. by rewrite andb_assoc.
Qed.

Lemma starts_outside_app c s t : s <> EmptyString -> starts_outside c s -> starts_outside c (s +:+ t).
Proof. destruct s; done. Qed.

Lemma starts_outside_gap c w a t :
  string_forall (fun x => negb (c x)) w = true -> c a = false ->
  starts_outside c (w +:+ String a t).
Proof.
  destruct w as [|x w]; [done|]. intros H _.
  change (c x = false). simpl in H. apply andb_true_iff in H as [H _]. by destruct (c x).
Qed.

(** ** The matcher takes the longest run when the rest matches *)

Lemma greedy_stop c min count taken k s :
  starts_outside c s -> (min <= count)%nat ->
  greedy c min count taken k s = k taken s.
Proof.
  intros Hs Hmin. apply Nat.leb_le in Hmin.
  destruct s as [|a s]; cbn [greedy]; rewrite Hmin; [done|].
  simpl in Hs. by rewrite Hs.
Qed.

Lemma greedy_max c min k text rest m : forall count taken,
  string_forall c text = true -> starts_outside c rest ->
  (min <= count + String.length text)%nat ->
  k (Py.rev_onto text taken) rest = Some m ->
  greedy c min count taken k (text +:+ rest) = Some m.
Proof.
  induction text as [|x text IH]; intros count taken Hall Hrest Hmin Hk.
  - change (EmptyString +:+ rest) with rest. rewrite greedy_stop; [done|done|].
    simpl in Hmin. lia.
  - change (String x text +:+ rest) with (String x (text +:+ rest)).
    simpl in Hall. apply andb_true_iff in Hall as [Hx Hall].
    cbn [greedy]. rewrite Hx.
    rewrite (IH (S count) (String x taken)); [done|done|done| |done].
    simpl in Hmin. lia.
Qed.

Lemma greedy_all c min k text m : forall count taken,
  string_forall c text = true ->
  (min <= count + String.length text)%nat ->
  k (Py.rev_onto text taken) EmptyString = Some m ->
  greedy c min count taken k text = Some m.
Proof.
  intros count taken Hall Hmin Hk.
  rewrite <- (string_app_nil_r text) at 1. by apply greedy_max.
Qed.

(** ** Stripping a string written from parts *)

Lemma lstrip_by_length p s : (String.length (Py.lstrip_by p s) <= String.length s)%nat.
Proof. induction s as [|c s IH]; simpl; [done|]. destruct (p c); simpl; lia. Qed.

Lemma rstrip_by_length p s : (String.length (Py.rstrip_by p s) <= String.length s)%nat.
Proof.
  induction s as [|c s IH]; simpl; [done|].
  destruct (Py.is_empty _ && p c)%bool; simpl; lia.
Qed.

Lemma stripped_head p s : Py.strip_by p s = s -> starts_outside p s.
Proof.
  destruct s as [|c s]; [done|]. unfold Py.strip_by. cbn [Py.lstrip_by starts_outside].
  destruct (p c); [|done]. intros H.
  pose proof (rstrip_by_length p (Py.lstrip_by p s)) as H1.
  pose proof (lstrip_by_length p s) as H2. rewrite H in H1. simpl in H1. lia.
Qed.

Lemma lstrip_by_outside p s : starts_outside p s -> Py.lstrip_by p s = s.
Proof. destruct s as [|c s]; [done|]. simpl. by intros ->. Qed.

Lemma stripped_rstrip p s : Py.strip_by p s = s -> Py.rstrip_by p s = s.
Proof.
  intros H. pose proof (stripped_head p s H) as Hh.
  unfold Py.strip_by in H. by rewrite lstrip_by_outside in H.
Qed.

Lemma lstrip_by_gap p w s :
  string_forall p w = true -> Py.lstrip_by p (w +:+ s) = Py.lstrip_by p s.
Proof.
  induction w as [|x w IH]; [done|]. intros H. simpl in H.
  apply andb_true_iff in H as [Hx H].
  change (String x w +:+ s) with (String x (w +:+ s)). cbn [Py.lstrip_by].
  rewrite Hx. by apply IH.
Qed.

Lemma rstrip_by_gap p s w :
  string_forall p w = true -> Py.rstrip_by p (s +:+ w) = Py.rstrip_by p s.
Proof.
  intros Hw. induction s as [|c s IH].
  - change (EmptyString +:+ w) with w. induction w as [|x w IHw]; [done|].
    simpl in Hw. apply andb_true_iff in Hw as [Hx Hw]. cbn [Py.rstrip_by].
    by rewrite IHw, Hx.
  - change (String c s +:+ w) with (String c (s +:+ w)). cbn [Py.rstrip_by]. by rewrite IH.
Qed.

Lemma rstrip_by_cons p c s :
  Py.rstrip_by p s <> EmptyString -> Py.rstrip_by p (String c s) = String c (Py.rstrip_by p s).
Proof. intros H. cbn [Py.rstrip_by]. by destruct (Py.rstrip_by p s). Qed.

Lemma rstrip_by_keep p a b :
  Py.rstrip_by p b <> EmptyString -> Py.rstrip_by p (a +:+ b) = a +:+ Py.rstrip_by p b.
Proof.
  intros H. induction a as [|x a IH]; [done|].
  change (String x a +:+ b) with (String x (a +:+ b)).
  rewrite rstrip_by_cons; rewrite IH; [done|].
  destruct a; [done|discriminate].
Qed.

Lemma isspace_not c a : Py.isspace a = false -> Py.isspace c = true -> Ascii.eqb c a = false.
Proof. intros Ha Hc. destruct (Ascii.eqb_spec c a) as [->|]; [congruence|done]. Qed.

Lemma blanks_space w : blanks w -> string_forall Py.isspace w = true.
Proof. apply string_forall_impl. by intros c [? _]%andb_true_iff. Qed.

Lemma blanks_name_class w : blanks w -> string_forall (not_in [":"%char; newline]) w = true.
Proof.
  apply string_forall_impl. intros c [Hs Hn]%andb_true_iff.
  unfold not_in in *. cbn [existsb] in *. rewrite (isspace_not c ":") by done.
  exact Hn.
Qed.

Lemma blanks_start_class w : blanks w -> string_forall (not_in [","%char]) w = true.
Proof.
  apply string_forall_impl. intros c [Hs Hn]%andb_true_iff.
  unfold not_in. cbn [existsb]. by rewrite (isspace_not c ",").
Qed.

Lemma blanks_outside_id w :
  blanks w ->
  string_forall (fun x => negb (not_in [","%char] x && negb (Py.isspace x))%bool) w = true.
Proof.
  apply string_forall_impl. intros c [Hs Hn]%andb_true_iff. rewrite Hs.
  by rewrite andb_false_r.
Qed.

Lemma blanks_no_percent w :
  blanks w -> string_forall (fun x => negb (is_char "%" x)) w = true.
Proof.
  apply string_forall_impl. intros c [Hs Hn]%andb_true_iff.
  unfold is_char. by rewrite (isspace_not c "%").
Qed.

Lemma id_class_outside_space s :
  string_forall (fun c => (not_in [","%char] c && negb (Py.isspace c))%bool) s = true ->
  starts_outside Py.isspace s /\ Py.strip s = s.
Proof.
  intros H. split.
  - destruct s as [|c s]; [done|]. simpl in *.
    apply andb_true_iff in H as [[_ H]%andb_true_iff _]. by destruct (Py.isspace c).
  - apply strip_by_none. revert H. apply string_forall_impl.
    by intros c [_ ?]%andb_true_iff.
Qed.

Lemma no_comment_app name rest :
  name <> EmptyString -> Py.startswith name "%%" = false ->
  starts_outside (is_char "%") rest ->
  Py.startswith (name +:+ rest) "%%" = false.
Proof.
  unfold Py.startswith. destruct name as [|a name]; [done|]. intros _ Hn Hrest.
  change (String a name +:+ rest) with (String a (name +:+ rest)).
  cbn [String.prefix] in *. destruct (ascii_dec "%" a) as [Ha|Ha]; [|done].
  destruct name as [|b name].
  - change (EmptyString +:+ rest) with rest. destruct rest as [|b rest]; [done|].
    cbn [String.prefix]. simpl in Hrest. unfold is_char in Hrest.
    destruct (ascii_dec "%" b) as [<-|]; [discriminate|done].
  - change (String b name +:+ rest) with (String b (name +:+ rest)).
    cbn [String.prefix] in *. destruct (ascii_dec "%" b); [|done].
    by destruct name.
Qed.

Lemma app_nonempty_r a t : t <> EmptyString -> a +:+ t <> EmptyString.
Proof. destruct a; [done|discriminate]. Qed.

Lemma rstrip_segment a b c x t t' :
  Py.rstrip t = t' -> t' <> EmptyString ->
  Py.rstrip (a +:+ b +:+ c +:+ String x t) = a +:+ b +:+ c +:+ String x t'.
Proof.
  unfold Py.rstrip. intros <- Hne.
  assert (H1 : Py.rstrip_by Py.isspace (String x t)
               = String x (Py.rstrip_by Py.isspace t)) by (by apply rstrip_by_cons).
  assert (H2 : Py.rstrip_by Py.isspace (c +:+ String x t)
               = c +:+ String x (Py.rstrip_by Py.isspace t)).
  { rewrite rstrip_by_keep; by rewrite H1. }
  assert (H3 : Py.rstrip_by Py.isspace (b +:+ c +:+ String x t)
               = b +:+ c +:+ String x (Py.rstrip_by Py.isspace t)).
  { rewrite rstrip_by_keep; rewrite H2; [done|]. by apply app_nonempty_r. }
  rewrite rstrip_by_keep; rewrite H3; [done|]. by do 2 apply app_nonempty_r.
Qed.

Lemma TASK_RE_fields w0 name w1 w2 id_ w3 w4 start w5 w6 len :
  blanks w0 -> blanks w1 -> blanks w2 -> blanks w3 -> blanks w4 -> blanks w5 -> blanks w6 ->
  name <> EmptyString -> Py.strip name = name ->
  string_forall (not_in [":"%char; newline]) name = true ->
  id_ <> EmptyString ->
  string_forall (fun c => (not_in [","%char] c && negb (Py.isspace c))%bool) id_ = true ->
  start <> EmptyString -> Py.strip start = start ->
  string_forall (not_in [","%char]) start = true ->
  len <> EmptyString -> Py.strip len = len ->
  string_forall (not_in [newline]) len = true ->
  re_match TASK_RE
    (w0 +:+ name +:+ w1
     +:+ String ":" (w2 +:+ id_ +:+ w3
     +:+ String "," (w4 +:+ start +:+ w5 +:+ String "," (w6 +:+ len))))
  = Some [("len", len); ("start", start +:+ w5); ("id", id_); ("name", name +:+ w1)].
Proof.
  intros B0 B1 B2 B3 B4 B5 B6 Hn1 Hn2 Hn3 Hi1 Hi2 Hs1 Hs2 Hs3 Hl1 Hl2 Hl3.
  assert (Hlong : forall a b, a <> EmptyString -> (1 <= 0 + String.length (a +:+ b))%nat).
  { intros [|x a] b Ha; [done|]. simpl. lia. }
  unfold re_match, TASK_RE. cbn [match_items qt cls grp].
  apply greedy_max; [by apply blanks_space| |simpl; lia|].
  { apply starts_outside_app; [done|]. by apply stripped_head. }
  rewrite <- string_app_assoc.
  apply greedy_max; [|reflexivity|by apply Hlong|].
  { rewrite string_forall_app, Hn3. by apply blanks_name_class. }
  rewrite greedy_stop; [|reflexivity|lia].
  cbn [exactly]. change (is_char ":" ":") with true. cbv iota.
  apply greedy_max; [by apply blanks_space| |simpl; lia|].
  { apply starts_outside_app; [done|]. by apply id_class_outside_space. }
  apply greedy_max; [done| | |].
  { apply starts_outside_gap; [by apply blanks_outside_id|reflexivity]. }
  { rewrite <- (string_app_nil_r id_). by apply Hlong. }
  apply greedy_max; [by apply blanks_space|reflexivity|simpl; lia|].
  cbn [exactly]. change (is_char "," ",") with true. cbv iota.
  apply greedy_max; [by apply blanks_space| |simpl; lia|].
  { apply starts_outside_app; [done|]. by apply stripped_head. }
  rewrite <- string_app_assoc.
  apply greedy_max; [|reflexivity|by apply Hlong|].
  { rewrite string_forall_app, Hs3. by apply blanks_start_class. }
  rewrite greedy_stop; [|reflexivity|lia].
  cbn [exactly]. change (is_char "," ",") with true. cbv iota.
  apply greedy_max; [by apply blanks_space|by apply stripped_head|simpl; lia|].
  apply greedy_all; [done| |].
  { rewrite <- (string_app_nil_r len). by apply Hlong. }
  unfold capture. by rewrite !rev_rev_onto.
Qed.

Lemma strip_with_gap s w : s <> EmptyString -> Py.strip s = s -> blanks w -> Py.strip (s +:+ w) = s.
Proof.
  intros Hne Hs Hw. unfold Py.strip, Py.strip_by.
  rewrite lstrip_by_outside
    by (apply starts_outside_app; [done|]; by apply stripped_head).
  rewrite rstrip_by_gap by (by apply blanks_space). by apply stripped_rstrip.
Qed.

Lemma scan_task_line st r w :
  in_gantt st = true ->
  line_fields r ->
  (forall i, blanks (w i)) ->
  raw_section r = current_section st ->
  scan_line st (task_line r w)
  = mkScan true (current_section st) (raw_tasks st ++ [r]).
Proof.
  intros Hin [Hn1 Hn2 Hn3 Hn4 Hi1 Hi2 Hs1 Hs2 Hs3 Hl1 Hl2 Hl3] Hw Hsec.
  destruct r as [name id_ start len sec]. cbn [raw_name raw_id start_raw len_raw raw_section] in *.
  subst sec.
  set (tail1 := w 2%nat +:+ id_ +:+ w 3%nat
                +:+ String "," (w 4%nat +:+ start +:+ w 5%nat
                +:+ String "," (w 6%nat +:+ len))).
  set (body := name +:+ w 1%nat +:+ String ":" tail1).
  assert (Hline : Py.rstrip (task_line (mkRaw name id_ start len (current_section st)) w)
                  = w 0%nat +:+ body).
  { unfold task_line, body, tail1. cbn [raw_name raw_id start_raw len_raw].
    apply rstrip_segment; [|by do 3 apply app_nonempty_r].
    apply rstrip_segment; [|by do 3 apply app_nonempty_r].
    apply rstrip_segment; [|by apply app_nonempty_r].
    unfold Py.rstrip. rewrite rstrip_by_keep.
    - rewrite rstrip_by_gap by (by apply blanks_space).
      by rewrite (stripped_rstrip _ _ Hl2).
    - rewrite rstrip_by_gap by (by apply blanks_space).
      by rewrite (stripped_rstrip _ _ Hl2). }
  assert (Hstrip : Py.strip (w 0%nat +:+ body) = body).
  { rewrite <- Hline at 1. rewrite strip_rstrip. unfold Py.strip, Py.strip_by.
    rewrite <- lstrip_rstrip_comm. fold (Py.rstrip (task_line (mkRaw name id_ start len (current_section st)) w)).
    rewrite Hline. rewrite lstrip_by_gap by (by apply blanks_space).
    apply lstrip_by_outside. apply starts_outside_app; [done|]. by apply stripped_head. }
  unfold scan_line. rewrite Hline, Hin, Hstrip. cbn [negb].
  assert (Hbody : Py.is_empty body = false).
  { unfold body. by destruct name. }
  assert (Hcomment : Py.startswith body "%%" = false).
  { apply no_comment_app; [done|done|].
    apply starts_outside_gap; [by apply blanks_no_percent|reflexivity]. }
  rewrite Hbody, Hcomment. cbn [orb].
  unfold body, tail1. rewrite TASK_RE_fields by done.
  cbn [group String.eqb Ascii.eqb Bool.eqb].
  rewrite !strip_with_gap by done.
  rewrite Hl2, (proj2 (id_class_outside_space _ Hi2)). done.
Qed.

(** Inside the gantt block, a line written as name, colon, id, comma,
    start, comma, length, with any blanks around the fields and the
    separators, is collected as the record of exactly these fields under
    the current section, whenever the fields are non-empty, have no
    whitespace around them, hold only characters of their group of
    [TASK_RE], and the name does not begin with the comment mark. *)
Theorem task_line_round_trip st r w :
  in_gantt st = true ->
  line_fields r ->
  (forall i, blanks (w i)) ->
  raw_section r = current_section st ->
  scan_line st (task_line r w)
  = mkScan true (current_section st) (raw_tasks st ++ [r]).
Proof. apply scan_task_line. Qed.

Lemma task_line_round_trip_witness :
  scan_line (mkScan true (Some "S1") [])
    (task_line (mkRaw "Task A" "a1" "2023-01-01" "5d" (Some "S1")) (fun _ => " "))
  = mkScan true (Some "S1") [mkRaw "Task A" "a1" "2023-01-01" "5d" (Some "S1")].
Proof.
  apply (task_line_round_trip (mkScan true (Some "S1") [])
           (mkRaw "Task A" "a1" "2023-01-01" "5d" (Some "S1")) (fun _ => " ")).
  - reflexivity.
  - constructor; first [discriminate | vm_compute; reflexivity].
  - intros i. vm_compute. reflexivity.
  - reflexivity.
Defined.



Lemma splitlines_from_line l rest : forall cur,
  no_linebreak l ->
  Py.splitlines_from cur false (l +:+ String newline rest)
  = Py.rev (Py.rev_onto l cur) :: Py.splitlines rest.
Proof.
  unfold no_linebreak.
  induction l as [|c l IH]; intros cur Hl.
  - reflexivity.
  - simpl in Hl. apply andb_true_iff in Hl as [Hc Hl]. apply negb_true_iff in Hc.
    change (String c l +:+ String newline rest) with (String c (l +:+ String newline rest)).
    cbn [Py.splitlines_from andb]. rewrite Hc. by rewrite IH.
Qed.

Lemma splitlines_line l rest :
  no_linebreak l -> Py.splitlines (l +:+ String newline rest) = l :: Py.splitlines rest.
Proof.
  intros Hl. unfold Py.splitlines at 1. rewrite splitlines_from_line by done.
  by rewrite rev_rev_onto.
Qed.

Lemma gantt_text_lines rs w :
  Forall (fun r => no_linebreak (task_line r w)) rs ->
  Py.splitlines (gantt_text rs w) = "gantt" :: map (fun r => task_line r w) rs.
Proof.
  intros Hrs. unfold gantt_text. rewrite splitlines_line by reflexivity. f_equal.
  induction Hrs as [|r rs Hr _ IH]; [reflexivity|].
  cbn [fold_right map]. rewrite splitlines_line by done. by rewrite IH.
Qed.

Lemma scan_task_lines w rs : forall st,
  in_gantt st = true ->
  (forall i, blanks (w i)) ->
  Forall line_fields rs ->
  Forall (fun r => raw_section r = current_section st) rs ->
  scan_lines st (map (fun r => task_line r w) rs)
  = mkScan true (current_section st) (raw_tasks st ++ rs).
Proof.
  unfold scan_lines.
  induction rs as [|r rs IH]; intros st Hin Hw Hf Hsec.
  - cbn [map fold_left]. rewrite app_nil_r. destruct st. simpl in *. by subst.
  - apply Forall_cons in Hf as [Hr Hf]. apply Forall_cons in Hsec as [Hs Hsec].
    cbn [map fold_left]. rewrite scan_task_line by done.
    rewrite IH; [|done|done|done|done]. cbn [current_section raw_tasks].
    by rewrite <- app_assoc.
Qed.

(** A text made of the [gantt] header and one such line per record,
    no line holding a line boundary character, is collected as exactly
    these records, in order. *)
Theorem gantt_text_round_trip rs w :
  (forall i, blanks (w i)) ->
  Forall line_fields rs ->
  Forall (fun r => raw_section r = None) rs ->
  Forall (fun r => no_linebreak (task_line r w)) rs ->
  collect_raw (gantt_text rs w) = rs.
Proof.
  intros Hw Hf Hsec Hlb. unfold collect_raw. rewrite gantt_text_lines by done.
  unfold scan_lines. cbn [fold_left].
  change (scan_line (mkScan false None []) "gantt") with (mkScan true None []).
  fold (scan_lines (mkScan true None []) (map (fun r => task_line r w) rs)).
  by rewrite scan_task_lines.
Qed.

Lemma gantt_text_round_trip_witness :
  collect_raw (gantt_text [mkRaw "Task A" "a1" "2023-01-01" "5d" None;
                           mkRaw "Task B" "a2" "after a1" "3d" None] (fun _ => " "))
  = [mkRaw "Task A" "a1" "2023-01-01" "5d" None;
     mkRaw "Task B" "a2" "after a1" "3d" None].
Proof.
  apply (gantt_text_round_trip
           [mkRaw "Task A" "a1" "2023-01-01" "5d" None;
            mkRaw "Task B" "a2" "after a1" "3d" None] (fun _ => " ")).
  - intros i. vm_compute. reflexivity.
  - repeat constructor; first [discriminate | vm_compute; reflexivity].
  - repeat constructor.
  - repeat constructor; vm_compute; reflexivity.
Defined.

(** ** C7: section lines, matching the task pattern or not *)

Lemma lower_app a b : Py.lower (a +:+ b) = Py.lower a +:+ Py.lower b.
Proof.
  induction a as [|x a IH]; [done|].
  change (String x a +:+ b) with (String x (a +:+ b)). cbn [Py.lower].
  rewrite IH. reflexivity.
Qed.

Lemma startswith_app a b pre :
  Py.startswith a pre = true -> Py.startswith (a +:+ b) pre = true.
Proof.
  unfold Py.startswith. revert a. induction pre as [|p pre IH]; intros a.
  - intros _. by destruct (a +:+ b).
  - destruct a as [|x a]; [done|].
    change (String x a +:+ b) with (String x (a +:+ b)). cbn [String.prefix].
    destruct (ascii_dec p x); [apply IH|done].
Qed.

(** What is left of a task line when the whitespace around it is
    taken off. *)
Lemma task_line_stripped r w :
  line_fields r -> (forall i, blanks (w i)) ->
  Py.strip (task_line r w)
  = raw_name r +:+ w 1%nat
    +:+ String ":" (w 2%nat +:+ raw_id r +:+ w 3%nat
    +:+ String "," (w 4%nat +:+ start_raw r +:+ w 5%nat
    +:+ String "," (w 6%nat +:+ len_raw r))).
Proof.
  intros [Hn1 Hn2 Hn3 Hn4 Hi1 Hi2 Hs1 Hs2 Hs3 Hl1 Hl2 Hl3] Hw.
  assert (Hline : Py.rstrip (task_line r w)
                  = w 0%nat +:+ raw_name r +:+ w 1%nat
                    +:+ String ":" (w 2%nat +:+ raw_id r +:+ w 3%nat
                    +:+ String "," (w 4%nat +:+ start_raw r +:+ w 5%nat
                    +:+ String "," (w 6%nat +:+ len_raw r)))).
  { unfold task_line.
    apply rstrip_segment; [|by do 3 apply app_nonempty_r].
    apply rstrip_segment; [|by do 3 apply app_nonempty_r].
    apply rstrip_segment; [|by apply app_nonempty_r].
    unfold Py.rstrip. rewrite rstrip_by_keep.
    - rewrite rstrip_by_gap by (by apply blanks_space).
      by rewrite (stripped_rstrip _ _ Hl2).
    - rewrite rstrip_by_gap by (by apply blanks_space).
      by rewrite (stripped_rstrip _ _ Hl2). }
  rewrite <- strip_rstrip. unfold Py.strip, Py.strip_by.
  rewrite <- lstrip_rstrip_comm. fold (Py.rstrip (Py.rstrip (task_line r w))).
  unfold Py.rstrip at 1. rewrite rstrip_by_idem. fold (Py.rstrip (task_line r w)).
  rewrite Hline. rewrite lstrip_by_gap by (by apply blanks_space).
  apply lstrip_by_outside. apply starts_outside_app; [done|]. by apply stripped_head.
Qed.

(** C7 (amended): inside a gantt block, a line whose trimmed,
    case-insensitive content begins with [section] is tried against the
    task pattern first.  If it does not match, the line sets the active
    section to the trimmed remainder and produces no record; if it
    matches, the line is collected as the record of the four captured
    fields, stripped, under the section that was active, which stays as
    it was.  No line without a colon matches; every task line written
    from fields whose name begins with [section] does. *)
Theorem section_line_sets_section :
  (forall st line,
      in_gantt st = true ->
      Py.startswith (Py.lower (Py.strip line)) "section" = true ->
      match re_match TASK_RE (Py.rstrip line) with
      | None =>
          scan_line st line
          = mkScan true (Some (Py.strip (Py.drop 7 (Py.strip line)))) (raw_tasks st)
      | Some m =>
          scan_line st line
          = mkScan true (current_section st)
              (raw_tasks st
               ++ [mkRaw (Py.strip (group "name" m)) (Py.strip (group "id" m))
                     (Py.strip (group "start" m)) (Py.strip (group "len" m))
                     (current_section st)])
      end)
  /\ (forall line, no_colon line = true -> re_match TASK_RE (Py.rstrip line) = None)
  /\ (forall st r w,
        in_gantt st = true ->
        line_fields r ->
        (forall i, blanks (w i)) ->
        raw_section r = current_section st ->
        Py.startswith (Py.lower (raw_name r)) "section" = true ->
        Py.startswith (Py.lower (Py.strip (task_line r w))) "section" = true
        /\ scan_line st (task_line r w)
           = mkScan true (current_section st) (raw_tasks st ++ [r])).
Proof.
  split; [|split].
  - intros st line Hin Hsec. unfold scan_line.
    rewrite Hin, strip_rstrip. cbn [negb].
    destruct (section_not_blank_or_comment _ Hsec) as [-> ->]. cbn [orb].
    destruct (re_match TASK_RE (Py.rstrip line)) as [m|]; [done|].
    by rewrite Hsec.
  - intros line Hcol. by apply no_colon_not_task, no_colon_rstrip.
  - intros st r w Hin Hf Hw Hsec Hname. split; [|by apply scan_task_line].
    rewrite task_line_stripped by done. rewrite lower_app. by apply startswith_app.
Qed.

Lemma section_line_sets_section_witness :
  scan_line (mkScan true (Some "S1") []) "  Section  Build & test  "
  = mkScan true (Some "Build & test") []
  /\ scan_line (mkScan true (Some "S1") [])
       (task_line (mkRaw "section Phase 1" "design" "build" "ship" (Some "S1"))
          (fun i => if Nat.eqb i 2 then " " else EmptyString))
     = mkScan true (Some "S1") [mkRaw "section Phase 1" "design" "build" "ship" (Some "S1")].
Proof.
  split.
  - exact (proj1 section_line_sets_section (mkScan true (Some "S1") [])
             "  Section  Build & test  " eq_refl eq_refl).
  - refine (proj2 (proj2 (proj2 section_line_sets_section) (mkScan true (Some "S1") [])
             (mkRaw "section Phase 1" "design" "build" "ship" (Some "S1"))
             (fun i => if Nat.eqb i 2 then " " else EmptyString) eq_refl _ _ eq_refl eq_refl)).
    + constructor; first [discriminate | vm_compute; reflexivity].
    + intros i. destruct (Nat.eqb i 2); vm_compute; reflexivity.
Defined.

(** ** Layout: sections in first-seen order, rows and backgrounds *)

Lemma first_seen_elem x l : x ∈ first_seen l <-> x ∈ l.
Proof.
  induction l as [|a l IH]; simpl; [done|].
  rewrite !elem_of_cons, <- IH, !list_elem_of_In, filter_In, <- !list_elem_of_In.
  destruct (decide (x = a)) as [->|Hne]; [tauto|].
  rewrite bool_decide_eq_false_2 by done. simpl. tauto.
Qed.

Lemma first_seen_snoc l x :
  first_seen (l ++ [x]) = if bool_decide (x ∈ l) then first_seen l else first_seen l ++ [x].
Proof.
  induction l as [|a l IH]; simpl; [done|]. rewrite IH.
  destruct (decide (x = a)) as [->|Hne].
  - rewrite (bool_decide_eq_true_2 (a ∈ a :: l)) by (by left).
    destruct (bool_decide (a ∈ l)); [done|].
    rewrite List.filter_app. simpl. rewrite bool_decide_eq_true_2 by done. simpl.
    by rewrite app_nil_r.
  - destruct (bool_decide (x ∈ l)) eqn:Hx.
    + rewrite bool_decide_eq_true_2; [done|]. right. by apply bool_decide_eq_true in Hx.
    + rewrite bool_decide_eq_false_2.
      * rewrite List.filter_app. simpl. by rewrite bool_decide_eq_false_2.
      * apply bool_decide_eq_false in Hx. intros [?|?]%elem_of_cons; done.
Qed.

Lemma group_step_grouped acc l t :
  grouped_as acc l -> grouped_as (group_step acc t) (l ++ [t]).
Proof.
  destruct acc as [g o]. intros [Ho Hg]. cbn [fst snd] in *.
  unfold group_step. rewrite (Hg (task_section t)).
  assert (Hsplit : forall s, tasks_of_section s (l ++ [t])
            = tasks_of_section s l ++ (if bool_decide (task_section t = s) then [t] else [])).
  { intros s. unfold tasks_of_section. by rewrite List.filter_app. }
  destruct (bool_decide (task_section t ∈ map task_section l)) eqn:Hin.
  - rewrite (Hg (task_section t)), Hin. unfold grouped_as. cbn [fst snd default]. split.
    + rewrite map_app. cbn [map]. rewrite first_seen_snoc. by rewrite Hin.
    + intros s. rewrite map_app, Hsplit. cbn [map].
      destruct (decide (task_section t = s)) as [<-|Hne].
      * rewrite lookup_insert_eq, bool_decide_eq_true_2; [|apply elem_of_app; left;
          by apply bool_decide_eq_true in Hin].
        by rewrite bool_decide_eq_true_2.
      * rewrite lookup_insert_ne, Hg by done.
        rewrite (bool_decide_eq_false_2 (task_section t = s)) by done. rewrite app_nil_r.
        destruct (bool_decide (s ∈ map task_section l)) eqn:Hs.
        -- rewrite bool_decide_eq_true_2; [done|]. apply elem_of_app. left.
           by apply bool_decide_eq_true in Hs.
        -- rewrite bool_decide_eq_false_2; [done|].
           apply bool_decide_eq_false in Hs.
           intros [?|Hx%list_elem_of_singleton]%elem_of_app; congruence.
  - rewrite lookup_insert_eq, insert_insert_eq. unfold grouped_as.
    cbn [fst snd default app]. split.
    + rewrite map_app. cbn [map]. rewrite first_seen_snoc. by rewrite Hin, Ho.
    + intros s. rewrite map_app, Hsplit. cbn [map].
      destruct (decide (task_section t = s)) as [<-|Hne].
      * rewrite lookup_insert_eq, bool_decide_eq_true_2;
          [|apply elem_of_app; right; by apply list_elem_of_singleton].
        rewrite bool_decide_eq_true_2 by done.
        assert (Hnone : tasks_of_section (task_section t) l = []).
        { apply bool_decide_eq_false in Hin. unfold tasks_of_section.
          apply filter_none. apply Forall_forall. intros t' Ht'.
          apply bool_decide_eq_false_2. intros Heq. apply Hin. rewrite <- Heq.
          apply list_elem_of_fmap. eauto. }
        by rewrite Hnone.
      * rewrite lookup_insert_ne, Hg by done.
        rewrite (bool_decide_eq_false_2 (task_section t = s)) by done. rewrite app_nil_r.
        destruct (bool_decide (s ∈ map task_section l)) eqn:Hs.
        -- rewrite bool_decide_eq_true_2; [done|]. apply elem_of_app. left.
           by apply bool_decide_eq_true in Hs.
        -- rewrite bool_decide_eq_false_2; [done|].
           apply bool_decide_eq_false in Hs.
           intros [?|Hx%list_elem_of_singleton]%elem_of_app; congruence.
Qed.

Lemma group_tasks_grouped ts : grouped_as (group_tasks ts) ts.
Proof.
  unfold group_tasks.
  assert (Hgen : forall l2 acc l1, grouped_as acc l1 ->
                   grouped_as (fold_left group_step l2 acc) (l1 ++ l2)).
  { induction l2 as [|t l2 IH]; intros acc l1 H; cbn [fold_left].
    - by rewrite app_nil_r.
    - replace (l1 ++ t :: l2) with ((l1 ++ [t]) ++ l2) by (by rewrite <- app_assoc).
      apply IH. by apply group_step_grouped. }
  apply (Hgen ts (∅, []) []). split; [done|]. intros s. cbn [fst map].
  rewrite lookup_empty. rewrite (bool_decide_eq_false_2 (s ∈ [])); [done|]. by intros ?%elem_of_nil.
Qed.

(** The rows are the tasks regrouped by section. *)
Lemma rows_are_stable_groups ts :
  map fst (rows_of (group_tasks ts).1 (group_tasks ts).2) = stable_groups ts
  /\ Forall (fun s => default [] ((group_tasks ts).1 !! s) <> [])
       (group_tasks ts).2.
Proof.
  destruct (group_tasks_grouped ts) as [Ho Hg].
  destruct (group_tasks ts) as [g o]. cbn [fst snd] in *. subst o.
  assert (Hlook : forall s, s ∈ first_seen (map task_section ts) ->
            default [] (g !! s) = tasks_of_section s ts).
  { intros s Hs. apply (proj1 (first_seen_elem _ _)) in Hs. rewrite Hg.
    by rewrite bool_decide_eq_true_2. }
  split.
  - unfold rows_of, stable_groups.
    induction (first_seen (map task_section ts)) as [|s o IH]; [done|].
    cbn [flat_map]. rewrite map_app, map_map. cbn [fst]. rewrite map_id.
    rewrite Hlook by (by left). f_equal. apply IH.
    intros s' Hs'. apply Hlook. by right.
  - apply Forall_forall. intros s Hs. rewrite (Hlook s Hs).
    apply first_seen_elem, list_elem_of_fmap in Hs as (t & -> & Ht).
    unfold tasks_of_section. intros Hnil.
    assert (Hin : In t (List.filter (fun t0 => bool_decide (task_section t0 = task_section t)) ts)).
    { apply filter_In. split; [by apply list_elem_of_In|]. by apply bool_decide_eq_true_2. }
    by rewrite Hnil in Hin.
Qed.

Section Blocks.

Variables day_width task_height margin : Z.

Local Abbreviation section_cells' := (section_cells day_width task_height margin).
Local Abbreviation task_cells' := (task_cells day_width task_height margin).
Local Abbreviation build' := (build_drawio_xml day_width task_height margin).

Lemma tiling_app from mid to l1 l2 :
  tiling from l1 mid -> tiling mid l2 to -> tiling from (l1 ++ l2) to.
Proof.
  revert from. induction l1 as [|[a b] l1 IH]; intros from; cbn [tiling app].
  - by intros ->.
  - intros [-> H1] H2. split; [done|]. by apply IH.
Qed.

Lemma tiling_ext from from' to to' l :
  from = from' -> to = to' -> tiling from l to -> tiling from' l to'.
Proof. by intros -> ->. Qed.

Local Ltac geometry :=
  unfold cell_span, y_start, row_height, ROW_GAP; cbn [fst snd];
  rewrite ?length_app, ?Nat2Z.inj_add; cbn [length]; rewrite ?length_map;
  repeat match goal with |- context [if ?b then 0 else 0] => destruct b end;
  ring.

Lemma section_cells_blocks g total_days o : forall si row_index cells,
  Forall (fun s => default [] (g !! s) <> []) o ->
  section_cells' g total_days si row_index o = Ok cells ->
  map cell_value (List.filter is_section_label cells) = map (default EmptyString) o
  /\ map cell_height (List.filter is_background cells)
     = map (fun s => Z.of_nat (length (default [] (g !! s))) * task_height) o
  /\ tiling (margin + row_index * task_height)
       (map cell_span (List.filter is_background cells))
       (margin + (row_index + Z.of_nat (length (rows_of g o))) * task_height)
  /\ Forall (fun c => is_background c = true ->
               cell_x c = margin
               /\ cell_width c = SECTION_COL_WIDTH + total_days * day_width) cells
  /\ List.filter is_task_cell cells = [].
Proof.
  induction o as [|s o IH]; intros si row_index cells Hne; cbn [section_cells].
  - intros [= <-]. cbn. repeat split; [f_equal; lia|constructor].
  - apply Forall_cons in Hne as [Hs Hne].
    unfold rows_of. cbn [flat_map]. fold (rows_of g o).
    destruct (default [] (g !! s)) as [|t tl] eqn:Hd; [done|].
    intros H. inv_bind H. inv_bind H. injection H as <-.
    destruct (IH (si + 1) (row_index + Z.of_nat (length (t :: tl))) _ Hne Ha0)
      as (IH1 & IH2 & IH3 & IH4 & IH5).
    cbn [List.filter is_section_label is_background is_task_cell].
    rewrite (startswith_append "bg"), (startswith_append "sec_").
    change (Py.startswith ("bg" +:+ Py.str (si + 1)) "sec_") with false.
    change (Py.startswith ("sec_" +:+ Py.str (si + 1)) "bg") with false.
    change (Py.startswith ("bg" +:+ Py.str (si + 1)) "task") with false.
    change (Py.startswith ("sec_" +:+ Py.str (si + 1)) "task") with false.
    cbn [map cell_value]. rewrite IH1, IH2. split; [done|]. split.
    { f_equal. rewrite Hd. unfold cell_height. geometry. }
    split.
    { cbn [tiling cell_span map]. split; [geometry|].
      eapply tiling_ext; [| |exact IH3]; geometry. }
    split; [|exact IH5].
    constructor; [by intros _|]. constructor; [|exact IH4].
    cbn [is_background]. change (Py.startswith ("sec_" +:+ Py.str (si + 1)) "bg") with false.
    done.
Qed.

Lemma task_cells_bars min_date rows : forall counter row_index,
  let cells := task_cells' min_date counter row_index rows in
  map cell_bar cells = map (bar_of day_width margin min_date) (map fst rows)
  /\ List.filter is_task_cell cells = cells
  /\ List.filter is_background cells = []
  /\ List.filter is_section_label cells = [].
Proof.
  induction rows as [|[t s] rows IH]; intros counter row_index; cbn zeta; [done|].
  cbn [task_cells]. specialize (IH (counter + 1) (row_index + 1)). cbn zeta in IH.
  destruct IH as (IH1 & IH2 & IH3 & IH4).
  cbn [List.filter is_task_cell is_background is_section_label].
  rewrite (startswith_append "task").
  change (Py.startswith ("task" +:+ Py.str (counter + 1)) "bg") with false.
  change (Py.startswith ("task" +:+ Py.str (counter + 1)) "sec_") with false.
  cbn [map fst]. by rewrite IH1, IH2.
Qed.

Lemma tick_loop_no_blocks min_date rows_height ds : forall last cells,
  tick_loop day_width task_height margin min_date rows_height last ds = Ok cells ->
  List.filter is_background cells = [] /\ List.filter is_section_label cells = [].
Proof.
  induction ds as [|d ds IH]; intros last cells; cbn [tick_loop].
  - by intros [= <-].
  - intros H. inv_bind H. destruct (LABEL_MIN_GAP <=? _); inv_bind H;
      injection H as <-; apply IH in Ha0 as [IH1 IH2];
      cbn [List.filter tick_cell label_cell is_background is_section_label];
      try change (Py.startswith ("lbl" +:+ Py.str (d + 1)) "bg") with false;
      try change (Py.startswith ("lbl" +:+ Py.str (d + 1)) "sec_") with false; done.
Qed.

(** The cells of a returned document, role by role. *)
Lemma build_blocks ts doc :
  build' ts = Ok doc ->
  exists min_date max_date,
    is_min_of min_date (map task_start ts)
    /\ is_max_of max_date (map end_date ts)
    /\ map cell_bar (List.filter is_task_cell doc) = map (bar_of day_width margin min_date) (stable_groups ts)
    /\ map cell_value (List.filter is_section_label doc)
       = map (default EmptyString) (first_seen (map task_section ts))
    /\ map cell_height (List.filter is_background doc)
       = map (fun s => Z.of_nat (length (tasks_of_section s ts)) * task_height)
           (first_seen (map task_section ts))
    /\ tiling margin (map cell_span (List.filter is_background doc))
         (margin + Z.of_nat (length ts) * task_height)
    /\ Forall (fun c => cell_x c = margin
                        /\ cell_width c = SECTION_COL_WIDTH
                             + (DT.days_between max_date min_date + 1) * day_width)
         (List.filter is_background doc).
Proof.
  intros Hdoc.
  destruct (build_shape _ _ _ _ _ Hdoc)
    as (min_date & max_date & sections & ticks & Hmin & Hmax & Hends & Hsecs & Hticks & ->).
  exists min_date, max_date. split; [done|]. split; [done|].
  destruct (rows_are_stable_groups ts) as [Hrows Hne].
  pose proof (group_tasks_rows ts) as Hlen.
  pose proof (group_tasks_grouped ts) as [Ho Hg].
  destruct (section_cells_blocks _ _ _ _ _ _ Hne Hsecs) as (Hs1 & Hs2 & Hs3 & Hs4 & Hs5).
  destruct (task_cells_bars min_date (rows_of (group_tasks ts).1 (group_tasks ts).2) 0 0)
    as (Ht1 & Ht2 & Ht3 & Ht4).
  destruct (tick_loop_no_blocks _ _ _ _ _ Hticks) as [Hk1 Hk2].
  apply tick_loop_edges in Hticks as [_ Hk3].
  rewrite !List.filter_app. cbn [List.filter is_task_cell is_section_label is_background app].
  rewrite Hs5, Ht2, Ht3, Ht4, Hk1, Hk2, Hk3, !app_nil_r. cbn [app].
  split; [by rewrite Ht1, Hrows|].
  split; [by rewrite Hs1, Ho|].
  split.
  { rewrite Hs2, Ho. apply map_ext_in. intros s Hs.
    apply list_elem_of_In in Hs. apply (proj1 (first_seen_elem _ _)) in Hs.
    rewrite Hg. by rewrite bool_decide_eq_true_2. }
  split.
  { rewrite Hlen in Hs3. replace (margin + 0 * task_height) with margin in Hs3 by ring.
    by replace (0 + Z.of_nat (length ts)) with (Z.of_nat (length ts)) in Hs3 by ring. }
  apply Forall_forall. intros c Hc. apply list_elem_of_In, filter_In in Hc as [Hc Hbg].
  rewrite Forall_forall in Hs4. apply (Hs4 c); [by apply list_elem_of_In|done].
Qed.

End Blocks.

Lemma stable_groups_subset ts t : In t (stable_groups ts) -> In t ts.
Proof.
  unfold stable_groups, tasks_of_section. rewrite in_flat_map.
  intros (s & _ & Hin). by apply filter_In in Hin as [? _].
Qed.

(** The section labels of a document are the section names in the
    order in which the sections first occur among the tasks, and the
    task bars are the tasks regrouped by section in that order, the
    tasks of a section in their input order; each bar carries the name
    of its task, starts as many day widths right of the section column
    as its task starts after the earliest start, and is as wide as its
    duration, four pixels at least. *)
Theorem rows_grouped_by_section day_width task_height margin ts doc :
  build_drawio_xml day_width task_height margin ts = Ok doc ->
  exists min_date,
    is_min_of min_date (map task_start ts)
    /\ map cell_value (List.filter is_section_label doc)
       = map (default EmptyString) (first_seen (map task_section ts))
    /\ map cell_bar (List.filter is_task_cell doc)
       = map (bar_of day_width margin min_date) (stable_groups ts).
Proof.
  intros Hdoc.
  destruct (build_blocks _ _ _ _ _ Hdoc) as (min_date & max_date & Hmin & _ & Hb & Hl & _).
  exists min_date. done.
Qed.

Lemma rows_grouped_by_section_witness :
  exists min_date,
    is_min_of min_date (map task_start spec_scenario_tasks_list)
    /\ map cell_value (List.filter is_section_label spec_scenario_doc)
       = map (default EmptyString) (first_seen (map task_section spec_scenario_tasks_list))
    /\ map cell_bar (List.filter is_task_cell spec_scenario_doc)
       = map (bar_of DAY_WIDTH MARGIN min_date) (stable_groups spec_scenario_tasks_list).
Proof.
  apply (rows_grouped_by_section DAY_WIDTH TASK_HEIGHT MARGIN spec_scenario_tasks_list).
  vm_compute. reflexivity.
Defined.

(** The section backgrounds of a document stack without gap or
    overlap from the top margin down to the bottom of the last row;
    each is as high as the rows of its section, begins at the left
    margin and spans the section column and one day width per day from
    the earliest start to the latest end inclusive. *)
Theorem backgrounds_tile_rows day_width task_height margin ts doc :
  build_drawio_xml day_width task_height margin ts = Ok doc ->
  let backgrounds := List.filter is_background doc in
  map cell_height backgrounds
  = map (fun s => Z.of_nat (length (tasks_of_section s ts)) * task_height)
      (first_seen (map task_section ts))
  /\ tiling margin (map cell_span backgrounds)
       (margin + Z.of_nat (length ts) * task_height)
  /\ exists min_date max_date,
       is_min_of min_date (map task_start ts)
       /\ is_max_of max_date (map end_date ts)
       /\ Forall (fun c => cell_x c = margin
                           /\ cell_width c
                              = SECTION_COL_WIDTH
                                + (DT.days_between max_date min_date + 1) * day_width)
            backgrounds.
Proof.
  intros Hdoc backgrounds.
  destruct (build_blocks _ _ _ _ _ Hdoc)
    as (min_date & max_date & Hmin & Hmax & _ & _ & Hh & Ht & Hw).
  split; [done|]. split; [done|]. by exists min_date, max_date.
Qed.

Lemma backgrounds_tile_rows_witness :
  let backgrounds := List.filter is_background spec_scenario_doc in
  map cell_height backgrounds
  = map (fun s => Z.of_nat (length (tasks_of_section s spec_scenario_tasks_list)) * TASK_HEIGHT)
      (first_seen (map task_section spec_scenario_tasks_list))
  /\ tiling MARGIN (map cell_span backgrounds)
       (MARGIN + Z.of_nat (length spec_scenario_tasks_list) * TASK_HEIGHT)
  /\ exists min_date max_date,
       is_min_of min_date (map task_start spec_scenario_tasks_list)
       /\ is_max_of max_date (map end_date spec_scenario_tasks_list)
       /\ Forall (fun c => cell_x c = MARGIN
                           /\ cell_width c
                              = SECTION_COL_WIDTH
                                + (DT.days_between max_date min_date + 1) * DAY_WIDTH)
            backgrounds.
Proof.
  apply (backgrounds_tile_rows DAY_WIDTH TASK_HEIGHT MARGIN spec_scenario_tasks_list).
  vm_compute. reflexivity.
Defined.

(** With tasks that last a day or more and a day width of four pixels
    or more, every task bar lies horizontally inside every section
    background: right of the section column, and ending at least one
    day width before the background's right edge. *)
Theorem bars_inside_backgrounds day_width task_height margin ts doc :
  build_drawio_xml day_width task_height margin ts = Ok doc ->
  Forall (fun t => 1 <= length_days t) ts ->
  4 <= day_width ->
  Forall (fun bg =>
    Forall (fun bar =>
      cell_x bg + SECTION_COL_WIDTH <= cell_x bar
      /\ cell_x bar + cell_width bar + day_width <= cell_x bg + cell_width bg)
      (List.filter is_task_cell doc))
    (List.filter is_background doc).
Proof.
  intros Hdoc HL Hdw.
  destruct (build_blocks _ _ _ _ _ Hdoc)
    as (min_date & max_date & [_ Hmin] & [_ Hmax] & Hbars & _ & _ & _ & Hbg).
  apply Forall_forall. intros bg Hbgin. rewrite Forall_forall in Hbg.
  destruct (Hbg bg Hbgin) as [-> ->].
  apply Forall_forall. intros bar Hbar.
  assert (Hin : In (cell_bar bar) (map cell_bar (List.filter is_task_cell doc))).
  { apply in_map. by apply list_elem_of_In. }
  rewrite Hbars in Hin. apply in_map_iff in Hin as (t & Heq & Ht).
  apply stable_groups_subset in Ht.
  unfold cell_bar, bar_of in Heq. injection Heq as _ Hx Hw. rewrite <- Hx, <- Hw.
  rewrite Forall_forall in Hmin. rewrite Forall_forall in Hmax. rewrite Forall_forall in HL.
  assert (Hs : min_date <= task_start t).
  { apply Hmin. apply list_elem_of_In. by apply in_map. }
  assert (He : end_date t <= max_date).
  { apply Hmax. apply list_elem_of_In. by apply (in_map end_date). }
  assert (Hl : 1 <= length_days t) by (apply HL; by apply list_elem_of_In).
  unfold end_date in He. unfold DT.days_between.
  assert (Hq : 0 <= (task_start t - min_date) / DT.DAY_US).
  { apply Z.div_pos; [lia|done]. }
  assert (Hspan : (task_start t - min_date) / DT.DAY_US + length_days t
                  <= (max_date - min_date) / DT.DAY_US).
  { rewrite <- Z.div_add by done. apply Z.div_le_mono; [done|lia]. }
  unfold SECTION_COL_WIDTH. split; [nia|].
  rewrite Z.max_r by nia. nia.
Qed.

Lemma bars_inside_backgrounds_witness :
  Forall (fun bg =>
    Forall (fun bar =>
      cell_x bg + SECTION_COL_WIDTH <= cell_x bar
      /\ cell_x bar + cell_width bar + DAY_WIDTH <= cell_x bg + cell_width bg)
      (List.filter is_task_cell spec_scenario_doc))
    (List.filter is_background spec_scenario_doc).
Proof.
  apply (bars_inside_backgrounds DAY_WIDTH TASK_HEIGHT MARGIN spec_scenario_tasks_list).
  - vm_compute. reflexivity.
  - repeat constructor; vm_compute; discriminate.
  - vm_compute. discriminate.
Defined.

(** ** Layout: section labels inside their backgrounds *)

Section Labels.

Variables day_width task_height margin : Z.

Lemma section_cells_labels g total_days o : forall si row_index cells,
  0 <= task_height -> 0 <= row_index ->
  Z.abs margin + (row_index + Z.of_nat (length (rows_of g o))) * task_height < 2 ^ 51 ->
  section_cells day_width task_height margin g total_days si row_index o = Ok cells ->
  Forall2 labels_block (List.filter is_background cells)
    (List.filter is_section_label cells).
Proof.
  induction o as [|s o IH]; intros si row_index cells Hth Hri Hb; cbn [section_cells].
  - intros [= <-]. constructor.
  - unfold rows_of in Hb. cbn [flat_map] in Hb. fold (rows_of g o) in Hb.
    rewrite length_app, length_map, Nat2Z.inj_add in Hb.
    destruct (default [] (g !! s)) as [|t tl] eqn:Hd; [by apply IH|].
    assert (Hn : 1 <= Z.of_nat (length (t :: tl))) by (simpl; lia).
    revert Hn Hb. generalize (Z.of_nat (length (t :: tl))). intros n Hn Hb.
    intros H. inv_bind H. inv_bind H. injection H as <-.
    replace (if 0 <? n then ROW_GAP else 0) with 0 in Ha
      by (unfold ROW_GAP; by destruct (0 <? n)).
    unfold y_start, row_height, ROW_GAP in Ha.
    rewrite label_y_exact in Ha by (rewrite ?Z.abs_lt; nia). injection Ha as <-.
    cbn [List.filter is_section_label is_background].
    rewrite (startswith_append "bg"), (startswith_append "sec_").
    change (Py.startswith ("bg" +:+ Py.str (si + 1)) "sec_") with false.
    change (Py.startswith ("sec_" +:+ Py.str (si + 1)) "bg") with false.
    constructor; [|eapply IH; [done| | |exact Ha0]; nia].
    unfold labels_block, cell_x, cell_width, cell_span, SECTION_COL_WIDTH, row_height,
      ROW_GAP, y_start. cbn [fst snd].
    replace (if 0 <? n then 0 else 0) with 0 by (by destruct (0 <? n)).
    Z.to_euclidean_division_equations. nia.
Qed.

End Labels.

(** With a non-negative task height and rows where a float holds every
    integer and every half, the section labels of a document pair off
    with the section backgrounds in order: each label begins at the left
    edge of its background, stays within the section column, lies
    between the top and the bottom of the background, and is centred
    between them up to one pixel of rounding. *)
Theorem section_labels_inside_backgrounds day_width task_height margin ts doc :
  build_drawio_xml day_width task_height margin ts = Ok doc ->
  0 <= task_height ->
  float_exact_range margin task_height (length ts) ->
  Forall2 labels_block (List.filter is_background doc)
    (List.filter is_section_label doc).
Proof.
  intros Hdoc Hth Hexact.
  destruct (build_shape _ _ _ _ _ Hdoc)
    as (min_date & max_date & sections & ticks & _ & _ & _ & Hsecs & Hticks & ->).
  pose proof (group_tasks_rows ts) as Hrows.
  assert (Hs : Forall2 labels_block (List.filter is_background sections)
                 (List.filter is_section_label sections)).
  { refine (section_cells_labels day_width task_height margin _ _ _ 0 0 sections
              Hth _ _ Hsecs); [done|].
    rewrite Hrows. unfold float_exact_range in Hexact. lia. }
  destruct (task_cells_bars day_width task_height margin min_date
              (rows_of (group_tasks ts).1 (group_tasks ts).2) 0 0)
    as (_ & _ & Ht3 & Ht4).
  destruct (tick_loop_no_blocks _ _ _ _ _ _ _ _ Hticks) as [Hk1 Hk2].
  rewrite !List.filter_app. cbn [List.filter is_section_label is_background app].
  by rewrite Ht3, Ht4, Hk1, Hk2, !app_nil_r.
Qed.

Lemma section_labels_inside_backgrounds_witness :
  Forall2 labels_block (List.filter is_background spec_scenario_doc)
    (List.filter is_section_label spec_scenario_doc).
Proof.
  apply (section_labels_inside_backgrounds DAY_WIDTH TASK_HEIGHT MARGIN
           spec_scenario_tasks_list).
  - vm_compute. reflexivity.
  - vm_compute. discriminate.
  - vm_compute. reflexivity.
Defined.

(** * The resolver as a schedule of passes *)

Lemma made_in_order_app now rs1 : forall pre ts1 rs2 ts2,
  made_in_order now pre rs1 ts1 -> made_in_order now (pre ++ ts1) rs2 ts2 ->
  made_in_order now pre (rs1 ++ rs2) (ts1 ++ ts2).
Proof.
  induction rs1 as [|r rs1 IH]; intros pre [|t ts1] rs2 ts2; cbn [made_in_order]; try done.
  - by rewrite app_nil_r.
  - intros [Hr H1] H2. split; [done|]. cbn [app]. apply IH; [done|].
    by rewrite <- app_assoc.
Qed.


Lemma made_in_order_length now rs : forall pre ts,
  made_in_order now pre rs ts -> length ts = length rs.
Proof.
  induction rs as [|r rs IH]; intros pre [|t ts]; cbn [made_in_order]; try done.
  intros [_ H]. simpl. f_equal. by eapply IH.
Qed.

(** Whether a record resolves depends on the set of resolved ids only. *)
Lemma resolves_at_once_ext l1 l2 r :
  (forall x, x ∈ l1 <-> x ∈ l2) -> resolves_at_once l1 r = resolves_at_once l2 r.
Proof.
  intros H. unfold resolves_at_once.
  destruct (DATE_RE_search _); [done|]. destruct (Py.startswith _ _); [|done].
  destruct (after_ref _) as [x|]; [|done]. apply bool_decide_ext, H.
Qed.

Lemma schedule_pass_ext rs : forall l1 l2,
  (forall x, x ∈ l1 <-> x ∈ l2) -> schedule_pass l1 rs = schedule_pass l2 rs.
Proof.
  induction rs as [|r rs IH]; intros l1 l2 H; cbn [schedule_pass]; [done|].
  rewrite (resolves_at_once_ext l1 l2 r H).
  destruct (resolves_at_once l2 r).
  - rewrite (IH (record_id r :: l1) (record_id r :: l2)); [done|].
    intros x. rewrite !elem_of_cons. by rewrite H.
  - by rewrite (IH l1 l2).
Qed.

Lemma schedule_ext max : forall rs l1 l2,
  (forall x, x ∈ l1 <-> x ∈ l2) -> schedule max l1 rs = schedule max l2 rs.
Proof.
  induction max as [|max IH]; intros rs l1 l2 H; cbn [schedule]; [done|].
  rewrite (schedule_pass_ext rs l1 l2 H).
  destruct (schedule_pass l2 rs).1 as [|r round]; [done|].
  rewrite (IH _ (rev (map record_id (r :: round)) ++ l1)
              (rev (map record_id (r :: round)) ++ l2)); [done|].
  intros x. rewrite !elem_of_app. by rewrite H.
Qed.

(** ** The code's passes and the schedule's *)

Section Schedule.

Variable now : nat -> Z.

(** What an iteration of a pass does, by the kind of the start field. *)
Lemma step_schedule st rem pr r acc' seen :
  step_spec now st rem pr r acc' -> table_ok st -> table_holds seen st ->
  (resolves_at_once seen r = false /\ acc' = (st, rem ++ [r], pr))
  \/ (resolves_at_once seen r = true
      /\ exists t, pass_made now (tasks st) r t
                   /\ tasks acc'.1.1 = tasks st ++ [t]
                   /\ acc'.1.2 = rem /\ acc'.2 = true
                   /\ table_ok acc'.1.1
                   /\ table_holds (record_id r :: seen) acc'.1.1).
Proof.
  intros Hstep Hok Hseen.
  pose proof (step_spec_table_ok now _ _ _ _ _ Hstep Hok) as Hok'.
  inversion Hstep as [Hrs|start_dt clk n Hrs Hlen task]; subst.
  - left. split; [|done]. revert Hrs. unfold resolves_at_once, resolve_start, after_ref.
    destruct (DATE_RE_search (start_raw r)) as [lit|] eqn:Hlit.
    { destruct (DT.fromisoformat _); discriminate. }
    destruct (Py.startswith _ "after") eqn:Hafter; [|discriminate].
    destruct (Py.split (start_raw r)) as [|p0 [|p1 ps]]; try done.
    destruct (id_to_task st !! _) as [A|] eqn:HA.
    { destruct (Task_end A); discriminate. }
    intros _. apply bool_decide_eq_false_2. intros Hx%Hseen.
    rewrite HA in Hx. by destruct Hx.
  - right.
    assert (Hkind : resolves_at_once seen r = true
              /\ match DATE_RE_search (start_raw r), after_ref (start_raw r) with
                 | Some lit, _ => DT.fromisoformat (Py.replace "/" "-" lit) = Ok start_dt
                 | None, Some x =>
                     exists A, last_with_id x (tasks st) = Some A /\ Task_end A = Ok start_dt
                 | None, None =>
                     Py.startswith (Py.lower (start_raw r)) "after" = false
                     /\ exists k, start_dt = now k
                 end).
    { revert Hrs. unfold resolves_at_once, resolve_start, after_ref.
      destruct (DATE_RE_search (start_raw r)) as [lit|] eqn:Hlit.
      { destruct (DT.fromisoformat _); [|discriminate]. by intros [= <- _]. }
      destruct (Py.startswith _ "after") eqn:Hafter; [|intros [= <- _]; eauto].
      destruct (Py.split (start_raw r)) as [|p0 [|p1 ps]]; try done.
      destruct (id_to_task st !! _) as [A|] eqn:HA; [|discriminate].
      destruct (Task_end A) as [e|] eqn:He; [|discriminate]. intros [= <- _].
      split.
      - apply bool_decide_eq_true_2, Hseen. by rewrite HA.
      - exists A. split; [|done]. by rewrite <- Hok. }
    destruct Hkind as [Hres Hkind]. split; [done|].
    exists task. proj_simpl. split; [by exists start_dt, n|].
    split; [done|]. split; [done|]. split; [done|]. split; [exact Hok'|].
    intros x. proj_simpl. rewrite elem_of_cons.
    change (record_id r) with (task_id task).
    destruct (decide (task_id task = x)) as [->|Hne].
    + rewrite lookup_insert_eq. split; eauto.
    + rewrite lookup_insert_ne by done. split.
      * intros [?|?]; [congruence|by apply Hseen].
      * intros ?%Hseen. by right.
Qed.

(** A pass of the code is a pass of the schedule. *)
Lemma pass_schedule acc rs res :
  pass_spec now acc rs res ->
  forall seen, table_ok acc.1.1 -> table_holds seen acc.1.1 ->
  exists new,
    tasks res.1.1 = tasks acc.1.1 ++ new
    /\ made_in_order now (tasks acc.1.1) (schedule_pass seen rs).1 new
    /\ res.1.2 = acc.1.2 ++ (schedule_pass seen rs).2
    /\ (res.2 = true <-> acc.2 = true \/ (schedule_pass seen rs).1 <> [])
    /\ table_ok res.1.1
    /\ table_holds (rev (map record_id (schedule_pass seen rs).1) ++ seen) res.1.1.
Proof.
  induction 1 as [acc|st rem pr r rs acc' res Hstep _ IH]; intros seen Hok Hseen.
  - exists []. cbn [schedule_pass fst snd map rev app made_in_order].
    rewrite !app_nil_r. split; [done|]. split; [done|]. split; [done|].
    split; [split; [by left|by intros [?|?]]|]. done.
  - proj_simpl. cbn [schedule_pass].
    destruct (step_schedule _ _ _ _ _ _ Hstep Hok Hseen)
      as [[-> ->]|(-> & t & Hmade & Htasks & Hrem & Hpr & Hok' & Hseen')].
    + destruct (IH seen Hok Hseen) as (new & H1 & H2 & H3 & H4 & H5 & H6). proj_simpl.
      exists new. cbn [fst snd]. rewrite H3, <- app_assoc. done.
    + destruct acc' as [[st1 rem1] pr1]. proj_simpl. subst rem1 pr1.
      destruct (IH (record_id r :: seen) Hok' Hseen') as (new & H1 & H2 & H3 & H4 & H5 & H6).
      proj_simpl. exists (t :: new). cbn [fst snd map rev].
      rewrite H1, Htasks, <- app_assoc. split; [done|].
      split; [cbn [made_in_order]; by rewrite <- Htasks|].
      split; [done|]. split; [split; [by right|intros _; apply H4; by left]|].
      split; [done|].
      intros x. specialize (H6 x). rewrite elem_of_app, elem_of_cons in H6.
      rewrite !elem_of_app, list_elem_of_singleton. tauto.
Qed.

(** The loop of passes is the schedule, pass for pass. *)
Lemma passes_schedule fuel : forall st u st' u' n seen,
  passes now fuel st u = Ok (st', u', n) ->
  table_ok st -> table_holds seen st ->
  exists new,
    tasks st' = tasks st ++ new
    /\ made_in_order now (tasks st) (concat (schedule fuel seen u).1) new
    /\ u' = (schedule fuel seen u).2
    /\ n = length (schedule fuel seen u).1.
Proof.
  induction fuel as [|fuel IH]; intros st u st' u' n seen H Hok Hseen.
  - cbn [passes] in H. injection H as <- <- <-. exists []. by rewrite app_nil_r.
  - cbn [passes] in H. inv_bind H. destruct a as [[st1 rem] pr].
    pose proof (pass_loop_spec now _ _ _ Ha) as Hpass.
    destruct (pass_schedule _ _ _ Hpass seen Hok Hseen)
      as (new & H1 & H2 & H3 & H4 & H5 & H6).
    proj_simpl. cbn [app] in H3. subst rem. cbn [schedule].
    destruct (schedule_pass seen u).1 as [|r round] eqn:Hround.
    + assert (pr = false) as ->.
      { destruct pr; [|done]. destruct (proj1 H4 eq_refl) as [?|?]; done. }
      injection H as <- <- <-. exists new. cbn [fst snd concat app length].
      destruct new; [|done]. done.
    + assert (pr = true) as -> by (apply H4; by right).
      inv_bind H. destruct a as [[st2 u2] n2]. injection H as <- <- <-.
      destruct (IH _ _ _ _ _ _ Ha0 H5 H6) as (new2 & G1 & G2 & G3 & G4).
      exists (new ++ new2). cbn [fst snd concat length].
      rewrite G1, H1, <- app_assoc. split; [done|].
      split; [|by rewrite G3, G4].
      apply made_in_order_app; [done|]. by rewrite <- H1.
Qed.

End Schedule.

(** ** The schedule, by itself *)

Lemma elem_of_rev {A} (x : A) l : x ∈ rev l <-> x ∈ l.
Proof. rewrite !list_elem_of_In. symmetry. apply in_rev. Qed.



Lemma schedule_pass_nil u : forall seen,
  (schedule_pass seen u).1 = [] -> Forall (fun r => resolves_at_once seen r = false) u.
Proof.
  induction u as [|r u IH]; intros seen; cbn [schedule_pass]; [constructor|].
  destruct (resolves_at_once seen r) eqn:Hr; cbn [fst]; [done|].
  intros H. constructor; [done|]. by apply IH.
Qed.


(** The passes of the schedule: at least one and at most [max], every
    pass but the last resolves something, and the schedule ends on a
    pass that resolves nothing or on the last pass allowed; when it ends
    on a pass that resolves nothing, none of the records left resolves
    against the ids resolved. *)
Lemma schedule_passes max : forall seen u,
  let rounds := (schedule max seen u).1 in
  (length rounds <= max)%nat
  /\ (0 < max -> 1 <= length rounds)%nat
  /\ (forall i round, rounds !! i = Some round -> (S i < length rounds)%nat -> round <> [])
  /\ (last rounds = Some [] \/ length rounds = max)
  /\ (last rounds = Some [] ->
      Forall (fun r => resolves_at_once (map record_id (concat rounds) ++ seen) r = false)
        (schedule max seen u).2).
Proof.
  induction max as [|max IH]; intros seen u; cbn zeta; cbn [schedule].
  - cbn [fst snd length last]. split; [lia|]. split; [lia|]. split; [done|].
    split; [by right|done].
  - destruct (schedule_pass seen u).1 as [|r0 round] eqn:Hp.
    + cbn [fst snd length concat map app last]. split; [lia|]. split; [lia|].
      split; [intros i rd _ Hi; simpl in Hi; lia|]. split; [by left|].
      intros _. by apply schedule_pass_nil.
    + specialize (IH (rev (map record_id (r0 :: round)) ++ seen) (schedule_pass seen u).2).
      cbn zeta in IH. destruct IH as (I1 & I2 & I3 & I4 & I5).
      set (q := schedule max (rev (map record_id (r0 :: round)) ++ seen)
                  (schedule_pass seen u).2) in *.
      cbn [fst snd length]. split; [lia|]. split; [lia|].
      split.
      { intros [|i] rd Hrd Hi; cbn in Hrd.
        - by injection Hrd as <-.
        - apply (I3 i rd Hrd). simpl in Hi. lia. }
      assert (Hlast : q.1 <> [] -> last ((r0 :: round) :: q.1) = last q.1).
      { destruct q.1; [done|]. done. }
      split.
      { destruct I4 as [I4|I4].
        - left. rewrite Hlast; [done|]. intros Hq. by rewrite Hq in I4.
        - right. lia. }
      intros Hl. destruct (q.1) as [|rd rds] eqn:Hq; [done|].
      rewrite Hlast in Hl by done. specialize (I5 Hl).
      eapply Forall_impl; [exact I5|]. cbn beta. intros r Hr.
      rewrite <- Hr. apply resolves_at_once_ext. intros x.
      cbn [concat]. rewrite !map_app, !elem_of_app, elem_of_rev. tauto.
Qed.



(** ** The resolver follows the schedule *)


Lemma min_start_is_fallback now passed k : is_fallback now passed (min_start passed (now k)).
Proof.
  destruct passed as [|t ts]; cbn [is_fallback min_start]; [eauto|].
  apply (fold_min_spec (map task_start ts) (task_start t)).
Qed.

(** Whatever the resolver returns is what the schedule says: the tasks
    of the records that the passes of the schedule resolve, built in
    that order, then the tasks of the records left, at the fallback. *)
Lemma resolve_schedule now clk records out :
  resolve now clk records = Ok out ->
  exists passed forced fb,
    out = passed ++ forced
    /\ made_in_order now [] (concat (schedule 10 [] records).1) passed
    /\ is_fallback now passed fb
    /\ Forall2 (fun r t => forced_from fb r t /\ task_start t = fb)
         (schedule 10 [] records).2 forced.
Proof.
  unfold resolve. intros H. inv_bind H. injection H as <-.
  apply resolve_state_spec in Ha as (st & u & n & forced & Hp & -> & _ & HF).
  apply (passes_schedule now _ _ _ _ _ _ []) in Hp
    as (new & Hnew & Hmade & -> & _); [|apply table_ok_init|].
  2:{ intros x. cbn [id_to_task]. rewrite lookup_empty. split; [by intros ?%elem_of_nil|].
      by intros [? ?]. }
  cbn [tasks app] in Hnew, Hmade. rewrite Hnew in *.
  exists new, forced, (min_start new (now (clock st))).
  split; [done|]. split; [done|]. split; [apply min_start_is_fallback|].
  eapply Forall2_impl; [exact HF|]. intros r t Hft. split; [done|].
  by destruct Hft as (m & _ & ->).
Qed.





(** C4 (the code departs from the claim on a cyclic pair with a
    malformed length).  (1) Whatever the resolver returns is what the
    passes of the specification give, run until a pass resolves nothing
    new and 10 times at most: first the tasks of the records these passes
    resolve, pass after pass and built in that order, then one task for
    each record left, starting at the fallback, which is the earliest
    start among the tasks resolved in the passes, or a reading of the
    clock when there is none.  (2) These passes are at least 1 and at
    most 10, every pass but the last resolves a record, the last one
    resolves nothing unless it is the tenth, and when it resolves nothing,
    no record left could resolve.  (3) Two records that refer to each
    other with "after" yield exactly two tasks, both at the current
    instant, when both length fields parse; when one does not, the
    resolver raises and returns no task, as on the pair with the length
    [2.5d], given as records or as the text of a gantt block. *)
Theorem passes_bounded_cycle_forced (now : nat -> Z) :
  (forall clk records out,
      resolve now clk records = Ok out ->
      exists passed forced fb,
        out = passed ++ forced
        /\ made_in_order now [] (concat (schedule 10 [] records).1) passed
        /\ is_fallback now passed fb
        /\ Forall2 (fun r t => forced_from fb r t /\ task_start t = fb)
             (schedule 10 [] records).2 forced)
  /\ (forall records,
        let rounds := (schedule 10 [] records).1 in
        (1 <= length rounds <= 10)%nat
        /\ (forall i round,
              rounds !! i = Some round -> (S i < length rounds)%nat -> round <> [])
        /\ (last rounds = Some [] \/ length rounds = 10%nat)
        /\ (last rounds = Some [] ->
            Forall (fun r => resolves_at_once (map record_id (concat rounds)) r = false)
              (schedule 10 [] records).2))
  /\ (forall clk A B,
        after_ref (start_raw A) = Some (record_id B) ->
        after_ref (start_raw B) = Some (record_id A) ->
        resolve now clk [A; B]
        = (nA <- parse_length (len_raw A) (now clk) ;;
           nB <- parse_length (len_raw B) (now clk) ;;
           Ok [ Task_init (raw_name A) (raw_id A) (now clk) (Z.max 1 nA) (raw_section A);
                Task_init (raw_name B) (raw_id B) (now clk) (Z.max 1 nB) (raw_section B) ]))
  /\ (forall clk,
        resolve now clk [ mkRaw "A" "a" "after b" "2.5d" None;
                          mkRaw "B" "b" "after a" "3d" None ]
        = Raise (ValueError_int "2.5")
        /\ parse_mermaid now clk
             ("gantt" +:+ String Re.newline
                ("A :a, after b, 2.5d" +:+ String Re.newline "B :b, after a, 3d"))
           = Raise (ValueError_int "2.5")).
Proof.
  split; [apply resolve_schedule|]. split; [|split].
  - intros records. cbn zeta.
    destruct (schedule_passes 10 [] records) as (H1 & H2 & H3 & H4 & H5).
    split; [lia|]. split; [done|]. split; [done|].
    intros Hl. specialize (H5 Hl). eapply Forall_impl; [exact H5|].
    cbn beta. intros r Hr. by rewrite app_nil_r in Hr.
  - intros clk A B HA HB.
    unfold resolve, resolve_state, max_passes. cbn [passes]. unfold run_pass.
    rewrite (pass_loop_all_deferred now clk [A; B] []) by (repeat constructor; eauto).
    cbn [bind app force_resolve tasks clock id_to_task min_start force_loop].
    destruct (parse_length (len_raw A) (now clk)) as [nA|e]; cbn [bind]; [|done].
    destruct (parse_length (len_raw B) (now clk)) as [nB|e]; cbn [bind]; done.
  - intros clk. split; vm_compute; reflexivity.
Qed.

Lemma passes_bounded_cycle_forced_witness :
  resolve (fun _ => 738886 * DT.DAY_US + 3600000000) 0
    [ mkRaw "A" "a" "after b" "3d" None; mkRaw "B" "b" "after a" "1w" None ]
  = Ok [ mkTask "A" "a" (738886 * DT.DAY_US + 3600000000) 3 None;
         mkTask "B" "b" (738886 * DT.DAY_US + 3600000000) 7 None ].
Proof.
  exact (proj1 (proj2 (proj2 (passes_bounded_cycle_forced
           (fun _ => 738886 * DT.DAY_US + 3600000000)))) 0%nat
           (mkRaw "A" "a" "after b" "3d" None) (mkRaw "B" "b" "after a" "1w" None)
           eq_refl eq_refl).
Defined.
